(** * Sollumz: geometry import (ydr/import_cwxml/geometry.py)

    A shallow embedding of [GeometryCWXMLConverter]: the decomposition of a
    vertex buffer into per-attribute streams ([get_vertex_components]), the
    reshaping of the index buffer into faces ([create_mesh]), the material
    assignment ([create_material]) and the creation and filling of vertex
    groups ([create_vertex_groups], [set_geometry_weights]).

    Python values are modelled as follows.
    - A float is an exact rational ([Q]); the rounding of a float division
      is not modelled.
    - A vertex (a namedtuple) is the ordered list of its fields.
    - A [dict] is an insertion-ordered association list.
    - A raised exception is an [Err] result; the converter object is a
      record threaded through the methods.
    - The objects of the host (mesh, vertex group, operator reports) are
      records that keep what the code hands to them. *)

From Stdlib Require Import String Ascii ZArith QArith Bool Arith Lia List.
From Stdlib Require Import DecimalString Sorted Permutation.
Import ListNotations.

Close Scope Q_scope.
Local Open Scope string_scope.
Local Open Scope nat_scope.
Local Open Scope list_scope.

(** ** Exceptions and results *)

Inductive pyexc : Type :=
| AttributeError
| IndexError
| KeyError
| TypeError.

Inductive pyresult (A : Type) : Type :=
| Ok (a : A)
| Err (e : pyexc).

Arguments Ok {A} a.
Arguments Err {A} e.

Definition bind {A B : Type} (m : pyresult A) (f : A -> pyresult B) : pyresult B :=
  match m with
  | Ok a => f a
  | Err e => Err e
  end.

Notation "x <- m ;; k" := (bind m (fun x => k))
  (at level 61, m at next level, right associativity).
Notation "' pat <- m ;; k" := (bind m (fun x => match x with pat => k end))
  (at level 61, pat pattern, m at next level, right associativity).

Definition of_option {A : Type} (e : pyexc) (o : option A) : pyresult A :=
  match o with
  | Some a => Ok a
  | None => Err e
  end.

(** [for x in l: st = body x st], stopping at the first exception. *)
Fixpoint for_each {A S : Type} (body : A -> S -> pyresult S) (l : list A) (st : S)
  : pyresult S :=
  match l with
  | [] => Ok st
  | x :: r => st' <- body x st ;; for_each body r st'
  end.

(** [enumerate(l)], counting from [start]. *)
Fixpoint enumerate_from {A : Type} (start : nat) (l : list A) : list (nat * A) :=
  match l with
  | [] => []
  | x :: r => (start, x) :: enumerate_from (S start) r
  end.

Definition enumerate {A : Type} (l : list A) : list (nat * A) := enumerate_from 0 l.

(** ** Insertion-ordered dictionaries *)

Class EqKey (K : Type) : Type := {
  keqb : K -> K -> bool;
  keqb_spec : forall a b, reflect (a = b) (keqb a b)
}.

#[export] Instance EqKey_Z : EqKey Z := {| keqb := Z.eqb; keqb_spec := Z.eqb_spec |}.
#[export] Instance EqKey_string : EqKey string :=
  {| keqb := String.eqb; keqb_spec := String.eqb_spec |}.

Section Dict.
Context {K V : Type} `{EqKey K}.

Definition dict : Type := list (K * V).

Definition keys (d : dict) : list K := map fst d.
Definition values (d : dict) : list V := map snd d.
Definition items (d : dict) : list (K * V) := d.

(** [d.get(k)] *)
Fixpoint dict_get (k : K) (d : dict) : option V :=
  match d with
  | [] => None
  | (k', v) :: r => if keqb k k' then Some v else dict_get k r
  end.

(** [k in d] *)
Definition dict_mem (k : K) (d : dict) : bool :=
  match dict_get k d with
  | Some _ => true
  | None => false
  end.

(** [d[k] = v]: an existing key keeps its place, a new one goes last. *)
Fixpoint dict_set (k : K) (v : V) (d : dict) : dict :=
  match d with
  | [] => [(k, v)]
  | (k', v') :: r =>
      if keqb k k' then (k', v) :: r else (k', v') :: dict_set k v r
  end.

(** [d[k]], which raises KeyError on a missing key. *)
Definition dict_item (k : K) (d : dict) : pyresult V :=
  of_option KeyError (dict_get k d).
End Dict.

Arguments dict K V : clear implicits.

(** [d[k].append(x)] on a dictionary of lists. *)
Definition dict_append {K X : Type} `{EqKey K} (k : K) (x : X) (d : dict K (list X))
  : pyresult (dict K (list X)) :=
  l <- dict_item k d ;; Ok (dict_set k (l ++ [x]) d).

(** ** Strings *)

(** [pat in s] *)
Fixpoint contains (pat s : string) : bool :=
  String.prefix pat s ||
  match s with
  | EmptyString => false
  | String _ s' => contains pat s'
  end.

(** [str(z)] for an integer. *)
Definition str_of_Z (z : Z) : string := NilZero.string_of_int (Z.to_int z).

(** ** The vertex buffer *)

(** The value of a vertex field: a sequence of floats (position, normal,
    texcoordN, tangent) or of integers (blendweights, blendindices,
    colourN). *)
Inductive value : Type :=
| Floats (xs : list Q)
| Ints (xs : list Z).

(** A vertex is a namedtuple: its fields in declaration order, the names
    being distinct (see [wf_vertex]). *)
Definition Vertex : Type := dict string value.

Definition wf_vertex (vertex : Vertex) : Prop := NoDup (keys vertex).

(** [hasattr(vertex, name)] and [vertex.name] *)
Definition hasattr (vertex : Vertex) (name : string) : bool := dict_mem name vertex.

Definition getattr (vertex : Vertex) (name : string) : pyresult value :=
  of_option AttributeError (dict_get name vertex).

(** [vertex._asdict()] *)
Definition asdict (vertex : Vertex) : dict string value := vertex.

(** [mathutils.Vector(seq)] *)
Record Vector : Type := mkVector { components : list Q }.

Definition Vector_of (v : value) : Vector :=
  match v with
  | Floats xs => mkVector xs
  | Ints xs => mkVector (map inject_Z xs)
  end.

(** [tuple(value)] keeps the sequence. *)
Definition tuple (v : value) : value := v.

(** [seq[i] / 255]: true division, so the quotient is a float. *)
Definition item_div_255 (v : value) (i : nat) : pyresult Q :=
  match v with
  | Ints xs => z <- of_option IndexError (nth_error xs i) ;; Ok (z # 255)%Q
  | Floats xs => q <- of_option IndexError (nth_error xs i) ;; Ok (q / 255)%Q
  end.

(** [seq[i]] read as a bone index.  The keys of [vertex_groups] are ints
    ([dict[int, ...]]); a float sequence is outside that type and stops the
    model with TypeError. *)
Definition item_int (v : value) (i : nat) : pyresult Z :=
  match v with
  | Ints xs => of_option IndexError (nth_error xs i)
  | Floats _ => Err TypeError
  end.

Record VertexComponents : Type := mkVertexComponents {
  positions : list value;
  normals : list Vector;
  uv_map : dict string (list value);
  color_map : dict string (list value);
  vertex_groups : dict Z (list (nat * Q))
}.

(** [if key not in d: d[key] = []] followed by [d[key].append(x)] *)
Definition append_under {K X : Type} `{EqKey K} (key : K) (x : X) (d : dict K (list X))
  : pyresult (dict K (list X)) :=
  let d1 := if negb (dict_mem key d) then dict_set key [] d else d in
  dict_append key x d1.

(** The body of [for i in range(0, 4)]. *)
Definition blend_slot (vertex_index : nat) (vertex : Vertex) (i : nat)
    (vertex_groups : dict Z (list (nat * Q))) : pyresult (dict Z (list (nat * Q))) :=
  blendweights <- getattr vertex "blendweights" ;;
  weight <- item_div_255 blendweights i ;;
  blendindices <- getattr vertex "blendindices" ;;
  bone_index <- item_int blendindices i ;;
  append_under bone_index (vertex_index, weight) vertex_groups.

(** The body of [for key, value in vertex._asdict().items()]. *)
Definition channel_step (kv : string * value)
    (maps : dict string (list value) * dict string (list value))
  : pyresult (dict string (list value) * dict string (list value)) :=
  let '(key, value) := kv in
  let '(uv_map, color_map) := maps in
  uv_map' <- (if contains "texcoord" key
              then append_under key (tuple value) uv_map
              else Ok uv_map) ;;
  color_map' <- (if contains "colour" key
                 then append_under key (tuple value) color_map
                 else Ok color_map) ;;
  Ok (uv_map', color_map').

(** The body of [for vertex_index, vertex in enumerate(vertices)]. *)
Definition vertex_step (iv : nat * Vertex) (vc : VertexComponents)
  : pyresult VertexComponents :=
  let '(vertex_index, vertex) := iv in
  position <- getattr vertex "position" ;;
  let positions' := positions vc ++ [position] in
  normals' <- (if hasattr vertex "normal"
               then normal <- getattr vertex "normal" ;;
                    Ok (normals vc ++ [Vector_of normal])
               else Ok (normals vc)) ;;
  vertex_groups' <- (if hasattr vertex "blendweights"
                     then for_each (blend_slot vertex_index vertex) (seq 0 4)
                            (vertex_groups vc)
                     else Ok (vertex_groups vc)) ;;
  maps <- for_each channel_step (items (asdict vertex)) (uv_map vc, color_map vc) ;;
  Ok (mkVertexComponents positions' normals' (fst maps) (snd maps) vertex_groups').

Definition empty_components : VertexComponents :=
  mkVertexComponents [] [] [] [] [].

Definition get_vertex_components (vertices : list Vertex) : pyresult VertexComponents :=
  for_each vertex_step (enumerate vertices) empty_components.

(** The example of the specification. *)
Definition example_vertices : list Vertex :=
  [ [ ("position", Floats [0; 0; 0]%Q); ("normal", Floats [0; 0; 1]%Q);
      ("blendweights", Ints [255; 0; 0; 0]%Z); ("blendindices", Ints [2; 0; 0; 0]%Z);
      ("texcoord0", Floats [0; 0]%Q) ];
    [ ("position", Floats [1; 0; 0]%Q); ("normal", Floats [0; 0; 1]%Q);
      ("blendweights", Ints [128; 127; 0; 0]%Z); ("blendindices", Ints [2; 3; 0; 0]%Z);
      ("texcoord0", Floats [1; 0]%Q) ] ].

(** ** The input document and the host objects *)

(** [cwxml.drawable.BoneItem] and [GeometryItem], as far as the converter
    reads them. *)
Record BoneItem : Type := mkBoneItem { bone_name : string }.

Record GeometryItem : Type := mkGeometryItem {
  vertex_buffer : list Vertex;     (* vertex_buffer.get_data() *)
  index_buffer : list Z;           (* index_buffer.data *)
  shader_index : Z;
  bone_ids : list Z
}.

(** The objects of the host.  Each record keeps the data the converter
    hands to the host; what the host does with it afterwards (validating a
    mesh, making group names unique, clamping weights) is outside. *)
Module bpy.
Record Material : Type := mkMaterial { material_name : string }.

Record Mesh : Type := mkMesh {
  name : string;
  vertices : list value;                         (* from_pydata *)
  faces : list (list Z);                         (* from_pydata *)
  materials : list Material;
  use_smooth : list bool;                        (* polygons.foreach_set *)
  custom_normals : list Vector;
  use_auto_smooth : bool;
  uv_layers : list (nat * string * list value);  (* create_uv_layer *)
  vertex_colors : list (nat * string * list value)
}.

(** [bpy.data.meshes.new(name)] *)
Definition new_mesh (n : string) : Mesh :=
  mkMesh n [] [] [] [] [] false [] [].

(** A vertex group and the calls [add([vertex_index], weight, "ADD")]
    made on it, in order. *)
Record VertexGroup : Type := mkVertexGroup {
  group_name : string;
  added : list (nat * Q)
}.

(** The geometry object; its mesh data-block is the converter's [mesh]. *)
Record Object : Type := mkObject {
  object_name : string;
  vertex_groups : list VertexGroup
}.
End bpy.

(** The converter object ([self]).  [reports] holds the calls of
    [import_operator.report], as (level, message). *)
Record GeometryCWXMLConverter : Type := mkConverter {
  cwxml : GeometryItem;
  _vertex_components : option VertexComponents;
  mesh : option bpy.Mesh;
  bpy_object : option bpy.Object;
  reports : list (string * string)
}.

Definition set_vertex_components (vc : option VertexComponents)
    (self : GeometryCWXMLConverter) : GeometryCWXMLConverter :=
  mkConverter (cwxml self) vc (mesh self) (bpy_object self) (reports self).

Definition set_mesh (m : bpy.Mesh) (self : GeometryCWXMLConverter)
  : GeometryCWXMLConverter :=
  mkConverter (cwxml self) (_vertex_components self) (Some m) (bpy_object self)
    (reports self).

Definition set_bpy_object (ob : bpy.Object) (self : GeometryCWXMLConverter)
  : GeometryCWXMLConverter :=
  mkConverter (cwxml self) (_vertex_components self) (mesh self) (Some ob)
    (reports self).

Definition report (level message : string) (self : GeometryCWXMLConverter)
  : GeometryCWXMLConverter :=
  mkConverter (cwxml self) (_vertex_components self) (mesh self) (bpy_object self)
    (reports self ++ [(level, message)]).

(** [GeometryCWXMLConverter.__init__] *)
Definition init (geometry : GeometryItem) : GeometryCWXMLConverter :=
  mkConverter geometry None None None [].

(** The property [vertex_components]: computed on first access, then kept. *)
Definition vertex_components (self : GeometryCWXMLConverter)
  : pyresult (VertexComponents * GeometryCWXMLConverter) :=
  match _vertex_components self with
  | Some vc => Ok (vc, self)
  | None =>
      let vertices := vertex_buffer (cwxml self) in
      vc <- get_vertex_components vertices ;;
      Ok (vc, set_vertex_components (Some vc) self)
  end.

(** ** Python sequences *)

(** [range(start, stop, step)] for a positive [step]. *)
Fixpoint range_fuel (fuel start stop step : nat) : list nat :=
  match fuel with
  | O => []
  | S fuel' =>
      if (start <? stop)%nat then start :: range_fuel fuel' (start + step) stop step
      else []
  end.

Definition range (start stop step : nat) : list nat :=
  range_fuel stop start stop step.

(** [l[a:b]] for [0 <= a <= b] *)
Definition slice {A : Type} (l : list A) (a b : nat) : list A :=
  firstn (b - a) (skipn a l).

(** [l[z]]: a negative index counts from the end. *)
Definition py_index {A : Type} (l : list A) (z : Z) : pyresult A :=
  let n := Z.of_nat (length l) in
  if (0 <=? z)%Z then of_option IndexError (nth_error l (Z.to_nat z))
  else if (- n <=? z)%Z then of_option IndexError (nth_error l (Z.to_nat (n + z)))
  else Err IndexError.

(** A list is true when it is not empty. *)
Definition truthy {A : Type} (l : list A) : bool :=
  match l with
  | [] => false
  | _ :: _ => true
  end.

(** ** The methods of the converter *)

Definition append_material (material : bpy.Material) (m : bpy.Mesh) : bpy.Mesh :=
  bpy.mkMesh (bpy.name m) (bpy.vertices m) (bpy.faces m)
    (bpy.materials m ++ [material]) (bpy.use_smooth m) (bpy.custom_normals m)
    (bpy.use_auto_smooth m) (bpy.uv_layers m) (bpy.vertex_colors m).

(** [mesh.from_pydata(vertices, [], faces)] *)
Definition from_pydata (vertices : list value) (faces : list (list Z)) (m : bpy.Mesh)
  : bpy.Mesh :=
  bpy.mkMesh (bpy.name m) vertices faces (bpy.materials m) (bpy.use_smooth m)
    (bpy.custom_normals m) (bpy.use_auto_smooth m) (bpy.uv_layers m)
    (bpy.vertex_colors m).

Definition set_normals (smooth : list bool) (normals : list Vector) (m : bpy.Mesh)
  : bpy.Mesh :=
  bpy.mkMesh (bpy.name m) (bpy.vertices m) (bpy.faces m) (bpy.materials m) smooth
    normals true (bpy.uv_layers m) (bpy.vertex_colors m).

(** [tools.meshhelper.create_uv_layer(mesh, i, name, coords)] and
    [create_vertexcolor_layer], kept as the layers they are asked for. *)
Definition create_uv_layer (m : bpy.Mesh) (i : nat) (name : string)
    (coords : list value) : bpy.Mesh :=
  bpy.mkMesh (bpy.name m) (bpy.vertices m) (bpy.faces m) (bpy.materials m)
    (bpy.use_smooth m) (bpy.custom_normals m) (bpy.use_auto_smooth m)
    (bpy.uv_layers m ++ [(i, name, coords)]) (bpy.vertex_colors m).

Definition create_vertexcolor_layer (m : bpy.Mesh) (i : nat) (name : string)
    (coords : list value) : bpy.Mesh :=
  bpy.mkMesh (bpy.name m) (bpy.vertices m) (bpy.faces m) (bpy.materials m)
    (bpy.use_smooth m) (bpy.custom_normals m) (bpy.use_auto_smooth m)
    (bpy.uv_layers m) (bpy.vertex_colors m ++ [(i, name, coords)]).

(** The text of [{self.mesh}] in a message: the name of the mesh stands for
    the host's representation of it. *)
Definition str_of_mesh (m : option bpy.Mesh) : string :=
  match m with
  | Some m => bpy.name m
  | None => "None"
  end.

Definition material_warning (m : option bpy.Mesh) (shader_index : Z) : string :=
  String.concat ""
    [ "Material not set for "; str_of_mesh m; ". Shader index of ";
      str_of_Z shader_index; " not found!" ].

Definition create_material (materials : list bpy.Material)
    (self : GeometryCWXMLConverter) : pyresult GeometryCWXMLConverter :=
  let shader_index := shader_index (cwxml self) in
  if negb ((0 <=? shader_index)%Z && (shader_index <? Z.of_nat (length materials))%Z)
  then Ok (report "WARNING" (material_warning (mesh self) shader_index) self)
  else
    m <- of_option AttributeError (mesh self) ;;
    material <- py_index materials shader_index ;;
    Ok (set_mesh (append_material material m) self).

Definition set_smooth_normals (self : GeometryCWXMLConverter)
  : pyresult GeometryCWXMLConverter :=
  m <- of_option AttributeError (mesh self) ;;
  let smooth := repeat true (length (bpy.faces m)) in
  '(vc, self) <- vertex_components self ;;
  Ok (set_mesh (set_normals smooth (normals vc) m) self).

Definition create_uv_layers (self : GeometryCWXMLConverter)
  : pyresult GeometryCWXMLConverter :=
  '(vc, self) <- vertex_components self ;;
  for_each (fun '(i, (name, coords)) self =>
              m <- of_option AttributeError (mesh self) ;;
              Ok (set_mesh (create_uv_layer m i name coords) self))
           (enumerate (items (uv_map vc))) self.

Definition create_vertex_color_layers (self : GeometryCWXMLConverter)
  : pyresult GeometryCWXMLConverter :=
  '(vc, self) <- vertex_components self ;;
  for_each (fun '(i, (name, coords)) self =>
              m <- of_option AttributeError (mesh self) ;;
              Ok (set_mesh (create_vertexcolor_layer m i name coords) self))
           (enumerate (items (color_map vc))) self.

(** [[indices[i:i + 3] for i in range(0, len(indices), 3)]] *)
Definition split_indices (indices : list Z) : list (list Z) :=
  map (fun i => slice indices i (i + 3)) (range 0 (length indices) 3).

Definition create_mesh (name : string) (materials : list bpy.Material)
    (self : GeometryCWXMLConverter) : pyresult (bpy.Mesh * GeometryCWXMLConverter) :=
  let indices := index_buffer (cwxml self) in
  let faces := split_indices indices in
  let self := set_mesh (bpy.new_mesh name) self in
  '(vc, self) <- vertex_components self ;;
  m <- of_option AttributeError (mesh self) ;;
  let self := set_mesh (from_pydata (positions vc) faces m) self in
  self <- create_material materials self ;;
  self <- set_smooth_normals self ;;
  self <- create_uv_layers self ;;
  self <- create_vertex_color_layers self ;;
  m <- of_option AttributeError (mesh self) ;;
  Ok (m, self).

(** The name [create_vertex_groups] gives to the group of [bone_index]. *)
Definition group_name_for (bones : list BoneItem) (bone_ids : list Z) (bone_index : Z)
  : pyresult string :=
  if truthy bones && (bone_index <? Z.of_nat (length bones))%Z
  then bone <- py_index bones bone_index ;; Ok (bone_name bone)
  else if truthy bone_ids && (bone_index <? Z.of_nat (length bone_ids))%Z
  then Ok (String.append "EXTERNAL_BONE." (str_of_Z bone_index))
  else Ok "UNKNOWN_BONE".

(** [bpy_vertex_groups.new(name=bone_name)] *)
Definition new_group (bone_name : string) (ob : bpy.Object) : bpy.Object :=
  bpy.mkObject (bpy.object_name ob)
    (bpy.vertex_groups ob ++ [bpy.mkVertexGroup bone_name []]).

Definition create_vertex_groups (bones : list BoneItem) (self : GeometryCWXMLConverter)
  : pyresult GeometryCWXMLConverter :=
  let bone_ids := bone_ids (cwxml self) in
  ob <- of_option AttributeError (bpy_object self) ;;
  '(vc, self) <- vertex_components self ;;
  ob <- for_each (fun bone_index ob =>
                    bone_name <- group_name_for bones bone_ids bone_index ;;
                    Ok (new_group bone_name ob))
                 (keys (vertex_groups vc)) ob ;;
  Ok (set_bpy_object ob self).

(** [ob.vertex_groups[i].add([vertex_index], weight, "ADD")] *)
Definition add_weight (i : nat) (vertex_index : nat) (weight : Q) (ob : bpy.Object)
  : pyresult bpy.Object :=
  g <- of_option IndexError (nth_error (bpy.vertex_groups ob) i) ;;
  let g' := bpy.mkVertexGroup (bpy.group_name g)
              (bpy.added g ++ [(vertex_index, weight)]) in
  Ok (bpy.mkObject (bpy.object_name ob)
        (firstn i (bpy.vertex_groups ob) ++ g' :: skipn (S i) (bpy.vertex_groups ob))).

Definition set_geometry_weights (self : GeometryCWXMLConverter)
  : pyresult GeometryCWXMLConverter :=
  '(vc, self) <- vertex_components self ;;
  for_each (fun '(i, vertex_group) self =>
              for_each (fun '(vertex_index, weight) self =>
                          ob <- of_option AttributeError (bpy_object self) ;;
                          ob <- add_weight i vertex_index weight ob ;;
                          Ok (set_bpy_object ob self))
                       vertex_group self)
           (enumerate (values (vertex_groups vc))) self.

(** ** Reference functions

    What the loops compute, written without the loop: the statements below
    compare the code with these. *)

Section Grouping.
Context {K X : Type} `{EqKey K}.

(** One entry [x] filed under [k]: appended to the list of [k], which is
    created at the end of the dictionary when [k] is new. *)
Fixpoint add_entry (k : K) (x : X) (d : dict K (list X)) : dict K (list X) :=
  match d with
  | [] => [(k, [x])]
  | (k', l) :: r =>
      if keqb k k' then (k', l ++ [x]) :: r else (k', l) :: add_entry k x r
  end.

(** A stream of (key, entry) pairs filed one after the other. *)
Definition group_into (d : dict K (list X)) (es : list (K * X)) : dict K (list X) :=
  fold_left (fun d e => add_entry (fst e) (snd e) d) es d.

(** The entries of the stream that carry the key [k], in stream order. *)
Definition entries_of (k : K) (es : list (K * X)) : list X :=
  map snd (filter (fun e => keqb k (fst e)) es).

(** The keys of a stream in order of first occurrence, those of [seen]
    left out. *)
Fixpoint first_seen (seen : list K) (ks : list K) : list K :=
  match ks with
  | [] => []
  | k :: r =>
      if existsb (keqb k) seen then first_seen seen r
      else k :: first_seen (seen ++ [k]) r
  end.
End Grouping.

(** The list of an optional value: one element or none. *)
Definition opt_list {A : Type} (o : option A) : list A :=
  match o with
  | Some a => [a]
  | None => []
  end.

(** The number of components of a field value. *)
Definition value_length (v : value) : nat :=
  match v with
  | Floats xs => length xs
  | Ints xs => length xs
  end.

(** The components read by slot [i], with a default past the end. *)
Definition weight_at (v : value) (i : nat) : Q :=
  match v with
  | Ints xs => (nth i xs 0%Z # 255)%Q
  | Floats xs => (nth i xs 0 / 255)%Q
  end.

Definition index_at (v : value) (i : nat) : Z :=
  match v with
  | Ints xs => nth i xs 0%Z
  | Floats _ => 0%Z
  end.

(** The weight entries of one vertex: for each slot [i] in [0, 4), the pair
    (vertex index, weight of slot [i]) under the bone index of slot [i];
    none when the vertex has no blend weights. *)
Definition blend_entries (iv : nat * Vertex) : list (Z * (nat * Q)) :=
  let '(vertex_index, vertex) := iv in
  match dict_get "blendweights" vertex, dict_get "blendindices" vertex with
  | Some blendweights, Some blendindices =>
      map (fun i => (index_at blendindices i, (vertex_index, weight_at blendweights i)))
          (seq 0 4)
  | _, _ => []
  end.

(** The fields of one vertex whose name contains [pat], in field order. *)
Definition channel_entries (pat : string) (vertex : Vertex) : list (string * value) :=
  filter (fun kv => contains pat (fst kv)) (asdict vertex).

(** A vertex the decoder reads without an exception: it has a position, and
    blend weights come with integer blend indices, four slots at least in
    each. *)
Definition vertex_ok (vertex : Vertex) : bool :=
  hasattr vertex "position" &&
  match dict_get "blendweights" vertex with
  | None => true
  | Some blendweights =>
      match dict_get "blendindices" vertex with
      | Some (Ints blendindices) =>
          (4 <=? value_length blendweights)%nat && (4 <=? length blendindices)%nat
      | _ => false
      end
  end.

(** The effect of one vertex on the five containers. *)
Definition decode_vertex (vc : VertexComponents) (iv : nat * Vertex) : VertexComponents :=
  mkVertexComponents
    (positions vc ++ opt_list (dict_get "position" (snd iv)))
    (normals vc ++ map Vector_of (opt_list (dict_get "normal" (snd iv))))
    (group_into (uv_map vc) (channel_entries "texcoord" (snd iv)))
    (group_into (color_map vc) (channel_entries "colour" (snd iv)))
    (group_into (vertex_groups vc) (blend_entries iv)).

Definition decode_all (vertices : list Vertex) : VertexComponents :=
  fold_left decode_vertex (enumerate vertices) empty_components.

(** All vertices of a buffer share one layout: the same field names in the
    same order, each name once. *)
Definition uniform_layout (layout : list string) (vertices : list Vertex) : Prop :=
  NoDup layout /\ Forall (fun vertex => keys vertex = layout) vertices.

(** The position and the normal a vertex contributes, when it has one. *)
Definition position_of (vertex : Vertex) : list value :=
  opt_list (dict_get "position" vertex).

Definition normal_of (vertex : Vertex) : list Vector :=
  map Vector_of (opt_list (dict_get "normal" vertex)).

(** What [self.vertex_components] yields: the kept value, or else the
    decoding of the vertex buffer. *)
Definition components_of (self : GeometryCWXMLConverter) : pyresult VertexComponents :=
  match _vertex_components self with
  | Some vc => Ok vc
  | None => get_vertex_components (vertex_buffer (cwxml self))
  end.

(** [self'] differs from [self] in host data only: same document, same
    kept components, same object, and a mesh with the same name, vertices
    and faces. *)
Definition keeps (self self' : GeometryCWXMLConverter) : Prop :=
  cwxml self' = cwxml self /\
  _vertex_components self' = _vertex_components self /\
  bpy_object self' = bpy_object self /\
  exists m m', mesh self = Some m /\ mesh self' = Some m' /\
               bpy.name m' = bpy.name m /\
               bpy.vertices m' = bpy.vertices m /\
               bpy.faces m' = bpy.faces m.

(** The name of the group of a bone index that is not negative: the name
    of the bone when the index is below the number of bones, else the
    external name when the index is below the number of bone ids, else
    the unknown name. *)
Definition expected_group_name (bones : list BoneItem) (bone_ids : list Z)
    (bone_index : Z) : string :=
  match nth_error bones (Z.to_nat bone_index) with
  | Some bone => bone_name bone
  | None =>
      if (bone_index <? Z.of_nat (length bone_ids))%Z
      then String.append "EXTERNAL_BONE." (str_of_Z bone_index)
      else "UNKNOWN_BONE"
  end.

(** The name as the specification words it: the external name as soon as
    a list of bone ids is supplied. *)
Definition claimed_group_name (bones : list BoneItem) (bone_ids : list Z)
    (bone_index : Z) : string :=
  match nth_error bones (Z.to_nat bone_index) with
  | Some bone => bone_name bone
  | None =>
      if truthy bone_ids
      then String.append "EXTERNAL_BONE." (str_of_Z bone_index)
      else "UNKNOWN_BONE"
  end.

(** The bone indices of the four slots of a vertex, none when the vertex
    has no blend weights. *)
Definition slot_indices (vertex : Vertex) : list Z :=
  match dict_get "blendweights" vertex, dict_get "blendindices" vertex with
  | Some _, Some (Ints blendindices) => firstn 4 blendindices
  | _, _ => []
  end.

(** The groups after the weight lists [vals] went to the groups [gs], one
    list per group in order. *)
Definition with_weights (gs : list bpy.VertexGroup) (vals : list (list (nat * Q)))
  : list bpy.VertexGroup :=
  map (fun gv => bpy.mkVertexGroup (bpy.group_name (fst gv))
                   (bpy.added (fst gv) ++ snd gv))
      (combine gs vals).

(** ** Example inputs *)

(** A geometry with the two example vertices. *)
Definition example_geometry (indices : list Z) (shader : Z) (ids : list Z)
  : GeometryItem :=
  mkGeometryItem example_vertices indices shader ids.

(** A buffer without normals, blend weights and channels. *)
Definition bare_vertices : list Vertex :=
  [ [ ("position", Floats [0; 0; 0]%Q) ]; [ ("position", Floats [1; 0; 0]%Q) ] ].

(** A buffer of two layouts: only the second vertex has a normal and a
    texture coordinate. *)
Definition mixed_vertices : list Vertex :=
  [ [ ("position", Floats [0; 0; 0]%Q) ];
    [ ("position", Floats [1; 0; 0]%Q); ("normal", Floats [0; 0; 1]%Q);
      ("texcoord0", Floats [1; 0]%Q) ] ].

(** The layout of the example vertices. *)
Definition example_layout : list string :=
  [ "position"; "normal"; "blendweights"; "blendindices"; "texcoord0" ].

(** A vertex whose colour field is spelled the American way. *)
Definition color_vertices : list Vertex :=
  [ [ ("position", Floats [0; 0; 0]%Q); ("color0", Ints [255; 255; 255; 255]%Z) ] ].

(** A buffer of five blend weights against four blend indices. *)
Definition mismatched_vertices : list Vertex :=
  [ [ ("position", Floats [0; 0; 0]%Q);
      ("blendweights", Ints [255; 0; 0; 0; 9]%Z);
      ("blendindices", Ints [2; 0; 0; 0]%Z) ] ].

(** A buffer of three blend weights. *)
Definition short_vertices : list Vertex :=
  [ [ ("position", Floats [0; 0; 0]%Q);
      ("blendweights", Ints [255; 0; 0]%Z);
      ("blendindices", Ints [2; 0; 0; 0]%Z) ] ].

(** A geometry with one bone id whose only vertex is weighted to bone 3. *)
Definition external_geometry : GeometryItem :=
  mkGeometryItem
    [ [ ("position", Floats [0; 0; 0]%Q);
        ("blendweights", Ints [255; 0; 0; 0]%Z);
        ("blendindices", Ints [3; 3; 3; 3]%Z) ] ]
    [] 0 [7%Z].

(** [create_sollumz_object] gives a new object, which has no vertex group. *)
Definition fresh_object (geometry : GeometryItem) : GeometryCWXMLConverter :=
  set_bpy_object (bpy.mkObject "geometry" []) (init geometry).

(** ** Whole-object views *)

(** The entries of a dictionary of lists, each with its key, in the order
    of the dictionary. *)
Definition flat_entries {K X : Type} (d : dict K (list X)) : list (K * X) :=
  flat_map (fun kl => map (pair (fst kl)) (snd kl)) (items d).

(** [tools.blenderhelper.create_sollumz_object(sollum_type, mesh, name=name)]:
    a new object of the host, which has no vertex group yet; its mesh
    data-block is the converter's [mesh]. *)
Definition create_sollumz_object (name : string) : bpy.Object :=
  bpy.mkObject name [].

(** [create_bpy_object].  [create_tinted_shader_graph] works on the shader
    nodes of the host, of which the records keep nothing. *)
Definition create_bpy_object (name : string) (bones : list BoneItem)
    (materials : list bpy.Material) (self : GeometryCWXMLConverter)
  : pyresult (bpy.Object * GeometryCWXMLConverter) :=
  '(m, self) <- create_mesh name materials self ;;
  let geometry_object := create_sollumz_object name in
  let self := set_bpy_object geometry_object self in
  self <- create_vertex_groups bones self ;;
  self <- set_geometry_weights self ;;
  geometry_object <- of_option AttributeError (bpy_object self) ;;
  Ok (geometry_object, self).

(** A layer as the mesh keeps it: index, name and coordinates. *)
Definition flat_layer (layer : nat * (string * list value)) : nat * string * list value :=
  (fst layer, fst (snd layer), snd (snd layer)).

(** A mesh with further uv layers, or further vertex colour layers. *)
Definition add_uv_layers (layers : list (nat * string * list value)) (m : bpy.Mesh)
  : bpy.Mesh :=
  bpy.mkMesh (bpy.name m) (bpy.vertices m) (bpy.faces m) (bpy.materials m)
    (bpy.use_smooth m) (bpy.custom_normals m) (bpy.use_auto_smooth m)
    (bpy.uv_layers m ++ layers) (bpy.vertex_colors m).

Definition add_color_layers (layers : list (nat * string * list value)) (m : bpy.Mesh)
  : bpy.Mesh :=
  bpy.mkMesh (bpy.name m) (bpy.vertices m) (bpy.faces m) (bpy.materials m)
    (bpy.use_smooth m) (bpy.custom_normals m) (bpy.use_auto_smooth m)
    (bpy.uv_layers m) (bpy.vertex_colors m ++ layers).

(** The shader index is a valid index into the materials. *)
Definition shader_in_range (materials : list bpy.Material) (self : GeometryCWXMLConverter)
  : Prop :=
  (0 <= shader_index (cwxml self) < Z.of_nat (length materials))%Z.

(** The field names the decoder looks at. *)
Definition read_by_decoder (name : string) : bool :=
  String.eqb name "position" || String.eqb name "normal" ||
  String.eqb name "blendweights" || String.eqb name "blendindices" ||
  contains "texcoord" name || contains "colour" name.

(** A vertex without the fields the decoder does not look at. *)
Definition only_read_fields (vertex : Vertex) : Vertex :=
  filter (fun kv => read_by_decoder (fst kv)) vertex.

(** * Properties *)

(** ** Loops *)

Lemma for_each_app {A S : Type} (body : A -> S -> pyresult S) (l1 l2 : list A) (st : S) :
  for_each body (l1 ++ l2) st = (st' <- for_each body l1 st ;; for_each body l2 st').
Proof.
  revert st. induction l1 as [|x l1 IH]; intros st; simpl.
  - reflexivity.
  - destruct (body x st) as [st'|e]; simpl; [apply IH | reflexivity].
Qed.

(** A loop whose body is a pure update never raises. *)
Lemma for_each_pure {A S : Type} (body : A -> S -> pyresult S) (f : S -> A -> S)
    (l : list A) (st : S) :
  (forall x s, In x l -> body x s = Ok (f s x)) ->
  for_each body l st = Ok (fold_left f l st).
Proof.
  revert st. induction l as [|x l IH]; intros st Hb; simpl.
  - reflexivity.
  - rewrite Hb by (left; reflexivity). simpl.
    apply IH. intros y s Hy. apply Hb. right. exact Hy.
Qed.

(** A loop raises when one of its items raises from every state. *)
Lemma for_each_raises {A S : Type} (body : A -> S -> pyresult S) (l : list A) (x : A) :
  In x l ->
  (forall s, exists e, body x s = Err e) ->
  forall st, exists e, for_each body l st = Err e.
Proof.
  intros Hin Hx. induction l as [|y l IH]; intros st; simpl.
  - destruct Hin.
  - destruct Hin as [->|Hin].
    + destruct (Hx st) as [e He]. rewrite He. exists e. reflexivity.
    + destruct (body y st) as [st'|e]; simpl.
      * apply IH. exact Hin.
      * exists e. reflexivity.
Qed.

Lemma enumerate_from_app {A : Type} (l1 l2 : list A) (s : nat) :
  enumerate_from s (l1 ++ l2) = enumerate_from s l1 ++ enumerate_from (s + length l1) l2.
Proof.
  revert s. induction l1 as [|x l1 IH]; intros s; simpl.
  - rewrite Nat.add_0_r. reflexivity.
  - rewrite IH, Nat.add_succ_comm. reflexivity.
Qed.


Lemma enumerate_from_in {A : Type} (l : list A) (s : nat) (p : nat * A) :
  In p (enumerate_from s l) -> s <= fst p < s + length l /\ In (snd p) l.
Proof.
  revert s. induction l as [|x l IH]; intros s; simpl.
  - intros [].
  - intros [<-|Hin]; simpl.
    + split; [lia | left; reflexivity].
    + apply IH in Hin. destruct Hin as [Hb Hin]. split; [lia | right; exact Hin].
Qed.

Lemma enumerate_from_length {A : Type} (l : list A) (s : nat) :
  length (enumerate_from s l) = length l.
Proof.
  revert s. induction l as [|x l IH]; intros s; simpl; [reflexivity | now rewrite IH].
Qed.

(** ** Dictionaries *)

Section DictFacts.
Context {K V : Type} `{EqKey K}.

Lemma keqb_refl (k : K) : keqb k k = true.
Proof. destruct (keqb_spec k k); [reflexivity | contradiction]. Qed.

Lemma keqb_neq (a b : K) : a <> b -> keqb a b = false.
Proof. intros Hn. destruct (keqb_spec a b); [contradiction | reflexivity]. Qed.

Lemma dict_mem_keys (k : K) (d : dict K V) :
  dict_mem k d = existsb (keqb k) (keys d).
Proof.
  unfold dict_mem. induction d as [|[k' v] d IH]; simpl.
  - reflexivity.
  - destruct (keqb k k'); simpl; [reflexivity | exact IH].
Qed.

Lemma dict_get_in_keys (k : K) (d : dict K V) :
  In k (keys d) <-> exists v, dict_get k d = Some v.
Proof.
  induction d as [|[k' v] d IH]; simpl.
  - split; [intros [] | intros [v Hv]; discriminate].
  - destruct (keqb_spec k k') as [->|Hn].
    + split; [intros _; exists v; reflexivity | intros _; left; reflexivity].
    + rewrite <- IH. split; [intros [Heq|Hin] | intros Hin].
      * congruence.
      * exact Hin.
      * right. exact Hin.
Qed.

Lemma dict_get_none_keys (k : K) (d : dict K V) :
  dict_get k d = None <-> ~ In k (keys d).
Proof.
  rewrite dict_get_in_keys. split.
  - intros Hn [v Hv]. congruence.
  - intros Hn. destruct (dict_get k d) as [v|]; [|reflexivity].
    exfalso. apply Hn. exists v. reflexivity.
Qed.

Lemma existsb_keqb_in (k : K) (l : list K) :
  existsb (keqb k) l = true <-> In k l.
Proof.
  rewrite existsb_exists. split.
  - intros [x [Hin Heq]]. destruct (keqb_spec k x); [subst; exact Hin | discriminate].
  - intros Hin. exists k. split; [exact Hin | apply keqb_refl].
Qed.

(** With distinct keys, the i-th key and the i-th value are the two
    halves of one entry. *)
Lemma dict_get_nth (d : dict K V) (i : nat) (k : K) (v : V) :
  NoDup (keys d) ->
  nth_error (keys d) i = Some k ->
  nth_error (values d) i = Some v ->
  dict_get k d = Some v.
Proof.
  revert i. induction d as [|[k' v'] d IH]; intros i Hnd Hk Hv.
  - destruct i; discriminate.
  - simpl in Hnd. inversion Hnd as [|? ? Hnotin Hnd']; subst.
    destruct i as [|i]; simpl in *.
    + inversion Hk; inversion Hv; subst. rewrite keqb_refl. reflexivity.
    + destruct (keqb_spec k k') as [->|Hn].
      * exfalso. apply Hnotin. eapply nth_error_In. exact Hk.
      * eapply IH; eauto.
Qed.

Lemma keys_values_nth (d : dict K V) (i : nat) (k : K) :
  nth_error (keys d) i = Some k ->
  exists v, nth_error (values d) i = Some v /\ nth_error (items d) i = Some (k, v).
Proof.
  unfold keys, values, items. intros Hk.
  rewrite nth_error_map in Hk.
  destruct (nth_error d i) as [[k' v]|] eqn:E; simpl in Hk; [|discriminate].
  inversion Hk; subst. exists v. rewrite nth_error_map, E. split; reflexivity.
Qed.
End DictFacts.

(** ** Filing entries under keys *)

Section GroupingFacts.
Context {K X : Type} `{EqKey K}.
Implicit Types (d : dict K (list X)) (es : list (K * X)).

Lemma dict_set_new (k : K) (l : list X) d :
  dict_get k d = None -> dict_set k l d = d ++ [(k, l)].
Proof.
  induction d as [|[k' l'] d IH]; simpl; intros Hg.
  - reflexivity.
  - destruct (keqb k k'); [discriminate|]. rewrite IH by exact Hg. reflexivity.
Qed.

Lemma add_entry_new (k : K) (x : X) d :
  dict_get k d = None -> add_entry k x d = d ++ [(k, [x])].
Proof.
  induction d as [|[k' l'] d IH]; simpl; intros Hg.
  - reflexivity.
  - destruct (keqb k k'); [discriminate|]. rewrite IH by exact Hg. reflexivity.
Qed.

Lemma add_entry_old (k : K) (x : X) (l : list X) d :
  dict_get k d = Some l -> add_entry k x d = dict_set k (l ++ [x]) d.
Proof.
  induction d as [|[k' l'] d IH]; simpl; intros Hg.
  - discriminate.
  - destruct (keqb k k').
    + inversion Hg; subst. reflexivity.
    + rewrite IH by exact Hg. reflexivity.
Qed.

Lemma dict_get_app_new (k k' : K) (l : list X) d :
  dict_get k d = None ->
  dict_get k' (d ++ [(k, l)]) = if keqb k' k then Some l else dict_get k' d.
Proof.
  induction d as [|[k0 l0] d IH]; simpl; intros Hg.
  - reflexivity.
  - destruct (keqb_spec k k0) as [->|Hn]; [discriminate|].
    destruct (keqb_spec k' k0) as [->|Hn'].
    + rewrite keqb_neq by congruence. reflexivity.
    + apply IH. exact Hg.
Qed.

Lemma dict_set_last (k : K) (l0 l : list X) d :
  dict_get k d = None -> dict_set k l (d ++ [(k, l0)]) = d ++ [(k, l)].
Proof.
  induction d as [|[k' l'] d IH]; simpl; intros Hg.
  - rewrite keqb_refl. reflexivity.
  - destruct (keqb k k'); [discriminate|]. rewrite IH by exact Hg. reflexivity.
Qed.

(** The two statements of the code, [if key not in d: d[key] = []] and
    [d[key].append(x)], file one entry and never raise. *)
Lemma append_under_eq (k : K) (x : X) d :
  append_under k x d = Ok (add_entry k x d).
Proof.
  unfold append_under, dict_append, dict_item, dict_mem.
  destruct (dict_get k d) as [l|] eqn:Hg; simpl.
  - rewrite Hg. simpl. erewrite add_entry_old by exact Hg. reflexivity.
  - rewrite (dict_set_new k [] d Hg).
    rewrite (dict_get_app_new k k [] d Hg), keqb_refl. simpl.
    rewrite (add_entry_new k x d Hg), (dict_set_last k [] [x] d Hg).
    reflexivity.
Qed.

Lemma dict_get_add_entry (k k' : K) (x : X) d :
  dict_get k' (add_entry k x d) =
  if keqb k' k
  then Some (match dict_get k d with Some l => l ++ [x] | None => [x] end)
  else dict_get k' d.
Proof.
  induction d as [|[k0 l0] d IH]; simpl.
  - reflexivity.
  - destruct (keqb_spec k k0) as [->|Hn]; simpl.
    + destruct (keqb k' k0); reflexivity.
    + rewrite IH. destruct (keqb_spec k' k0) as [->|Hn'].
      * rewrite keqb_neq by congruence. reflexivity.
      * reflexivity.
Qed.

Lemma keys_add_entry (k : K) (x : X) d :
  keys (add_entry k x d) =
  if existsb (keqb k) (keys d) then keys d else keys d ++ [k].
Proof.
  induction d as [|[k0 l0] d IH]; simpl.
  - reflexivity.
  - destruct (keqb k k0); simpl.
    + reflexivity.
    + rewrite IH. destruct (existsb (keqb k) (keys d)); reflexivity.
Qed.

Lemma group_into_app d es1 es2 :
  group_into d (es1 ++ es2) = group_into (group_into d es1) es2.
Proof. unfold group_into. apply fold_left_app. Qed.

(** The list under a key is what was there followed by the entries of the
    stream that carry the key; a key with neither is absent. *)
Lemma dict_get_group_into (k : K) es d :
  dict_get k (group_into d es) =
  match dict_get k d, entries_of k es with
  | None, [] => None
  | None, l => Some l
  | Some l0, l => Some (l0 ++ l)
  end.
Proof.
  revert d. induction es as [|[k' x] es IH]; intros d.
  - simpl. destruct (dict_get k d) as [l0|]; [rewrite app_nil_r|]; reflexivity.
  - change (group_into d ((k', x) :: es)) with (group_into (add_entry k' x d) es).
    rewrite IH, dict_get_add_entry. unfold entries_of. simpl.
    destruct (keqb_spec k k') as [->|Hn]; simpl.
    + destruct (dict_get k' d) as [l0|].
      * rewrite <- app_assoc. reflexivity.
      * reflexivity.
    + reflexivity.
Qed.

Lemma first_seen_ext (seen seen' ks : list K) :
  (forall k, In k seen <-> In k seen') ->
  first_seen seen ks = first_seen seen' ks.
Proof.
  revert seen seen'. induction ks as [|k ks IH]; intros seen seen' Hs; simpl.
  - reflexivity.
  - assert (E : existsb (keqb k) seen = existsb (keqb k) seen').
    { apply eq_true_iff_eq. rewrite !existsb_keqb_in. apply Hs. }
    rewrite E. destruct (existsb (keqb k) seen').
    + apply IH. exact Hs.
    + f_equal. apply IH. intros k0. rewrite !in_app_iff, Hs. reflexivity.
Qed.

(** The keys are those that were there, then the new ones in order of
    first occurrence. *)
Lemma keys_group_into es d :
  keys (group_into d es) = keys d ++ first_seen (keys d) (map fst es).
Proof.
  revert d. induction es as [|[k x] es IH]; intros d.
  - simpl. rewrite app_nil_r. reflexivity.
  - change (group_into d ((k, x) :: es)) with (group_into (add_entry k x d) es).
    rewrite IH, keys_add_entry. simpl.
    destruct (existsb (keqb k) (keys d)).
    + reflexivity.
    + rewrite <- app_assoc. reflexivity.
Qed.

Lemma first_seen_spec (seen ks : list K) :
  NoDup seen ->
  NoDup (seen ++ first_seen seen ks) /\
  (forall k, In k (first_seen seen ks) <-> In k ks /\ ~ In k seen).
Proof.
  revert seen. induction ks as [|k ks IH]; intros seen Hnd; simpl.
  - rewrite app_nil_r. split; [exact Hnd | tauto].
  - destruct (existsb (keqb k) seen) eqn:E.
    + apply existsb_keqb_in in E. destruct (IH seen Hnd) as [Hn Hin].
      split; [exact Hn|]. intros k0. rewrite Hin. split.
      * tauto.
      * intros [[->|Hk] Hs]; [contradiction | tauto].
    + assert (Hk : ~ In k seen).
      { intros Hk. apply existsb_keqb_in in Hk. congruence. }
      assert (Hnd' : NoDup (seen ++ [k])).
      { apply NoDup_app; [exact Hnd | repeat constructor; intros [] |].
        intros y Hy [<-|[]]. exact (Hk Hy). }
      destruct (IH (seen ++ [k]) Hnd') as [Hn Hin].
      rewrite <- app_assoc in Hn. simpl in Hn. split; [exact Hn|].
      intros k0. simpl. rewrite Hin, in_app_iff. simpl. split.
      * intros [<-|[Hks Hns]]; [tauto|]. split; [tauto|]. tauto.
      * intros [[<-|Hks] Hns]; [tauto|].
        destruct (keqb_spec k k0) as [->|Hne]; [tauto|].
        right. split; [exact Hks|]. intros [Hs|[Hs|[]]]; [tauto|congruence].
Qed.

Lemma NoDup_keys_group_into es d :
  NoDup (keys d) -> NoDup (keys (group_into d es)).
Proof.
  intros Hnd. rewrite keys_group_into. apply first_seen_spec. exact Hnd.
Qed.
End GroupingFacts.

(** ** One vertex *)

Lemma hasattr_get (vertex : Vertex) (name : string) :
  hasattr vertex name = match dict_get name vertex with Some _ => true | None => false end.
Proof. reflexivity. Qed.

Lemma item_div_255_in_range (v : value) (i : nat) :
  i < value_length v -> item_div_255 v i = Ok (weight_at v i).
Proof.
  destruct v as [xs|xs]; simpl; intros Hi.
  - rewrite (nth_error_nth' xs 0%Q Hi). reflexivity.
  - rewrite (nth_error_nth' xs 0%Z Hi). reflexivity.
Qed.

Lemma item_div_255_past_end (v : value) (i : nat) :
  value_length v <= i -> item_div_255 v i = Err IndexError.
Proof.
  destruct v as [xs|xs]; simpl; intros Hi;
    apply nth_error_None in Hi; rewrite Hi; reflexivity.
Qed.

Lemma item_int_in_range (xs : list Z) (i : nat) :
  i < length xs -> item_int (Ints xs) i = Ok (index_at (Ints xs) i).
Proof. simpl. intros Hi. rewrite (nth_error_nth' xs 0%Z Hi). reflexivity. Qed.

Lemma item_int_past_end (xs : list Z) (i : nat) :
  length xs <= i -> item_int (Ints xs) i = Err IndexError.
Proof. simpl. intros Hi. apply nth_error_None in Hi. rewrite Hi. reflexivity. Qed.

(** A slot whose weight and bone index can both be read files one entry. *)
Lemma blend_slot_ok (vertex_index : nat) (vertex : Vertex) (bw : value) (bi : list Z)
    (i : nat) (groups : dict Z (list (nat * Q))) :
  dict_get "blendweights" vertex = Some bw ->
  dict_get "blendindices" vertex = Some (Ints bi) ->
  i < value_length bw -> i < length bi ->
  blend_slot vertex_index vertex i groups =
  Ok (add_entry (index_at (Ints bi) i) (vertex_index, weight_at bw i) groups).
Proof.
  intros Hw Hi Hlw Hli. unfold blend_slot, getattr. rewrite Hw, Hi. cbn [bind of_option].
  rewrite (item_div_255_in_range bw i Hlw). cbn [bind of_option].
  rewrite (item_int_in_range bi i Hli). cbn [bind of_option].
  apply append_under_eq.
Qed.

Lemma blend_loop_ok (vertex_index : nat) (vertex : Vertex) (bw : value) (bi : list Z)
    (groups : dict Z (list (nat * Q))) :
  dict_get "blendweights" vertex = Some bw ->
  dict_get "blendindices" vertex = Some (Ints bi) ->
  4 <= value_length bw -> 4 <= length bi ->
  for_each (blend_slot vertex_index vertex) (seq 0 4) groups =
  Ok (group_into groups (blend_entries (vertex_index, vertex))).
Proof.
  intros Hw Hi Hlw Hli.
  rewrite (for_each_pure _
             (fun d i => add_entry (index_at (Ints bi) i)
                           (vertex_index, weight_at bw i) d)).
  - unfold blend_entries. rewrite Hw, Hi. reflexivity.
  - intros i d Hin. apply in_seq in Hin.
    apply (blend_slot_ok vertex_index vertex bw bi); auto; lia.
Qed.

(** The blend loop raises when a slot below 4 cannot be read. *)
Lemma blend_loop_raises (vertex_index : nat) (vertex : Vertex) (bw : value)
    (groups : dict Z (list (nat * Q))) :
  dict_get "blendweights" vertex = Some bw ->
  match dict_get "blendindices" vertex with
  | Some (Ints bi) => (4 <=? value_length bw)%nat && (4 <=? length bi)%nat
  | _ => false
  end = false ->
  exists e, for_each (blend_slot vertex_index vertex) (seq 0 4) groups = Err e.
Proof.
  intros Hw Hbad.
  destruct (le_lt_dec 4 (value_length bw)) as [Hlw|Hlw].
  - destruct (dict_get "blendindices" vertex) as [[xs|bi]|] eqn:Hi.
    + apply (for_each_raises _ _ 0); [simpl; auto|].
      intros d. exists TypeError. unfold blend_slot, getattr. rewrite Hw, Hi. cbn [bind of_option].
      rewrite (item_div_255_in_range bw 0) by lia. reflexivity.
    + apply andb_false_iff in Hbad. destruct Hbad as [Hbad|Hbad].
      * apply Nat.leb_gt in Hbad. lia.
      * apply Nat.leb_gt in Hbad.
        apply (for_each_raises _ _ (length bi)); [apply in_seq; lia|].
        intros d. exists IndexError. unfold blend_slot, getattr. rewrite Hw, Hi.
        cbn [bind of_option]. rewrite (item_div_255_in_range bw (length bi)) by lia. cbn [bind of_option].
        rewrite (item_int_past_end bi (length bi)) by lia. reflexivity.
    + apply (for_each_raises _ _ 0); [simpl; auto|].
      intros d. exists AttributeError. unfold blend_slot, getattr. rewrite Hw, Hi.
      cbn [bind of_option]. rewrite (item_div_255_in_range bw 0) by lia. reflexivity.
  - apply (for_each_raises _ _ (value_length bw)); [apply in_seq; lia|].
    intros d. exists IndexError. unfold blend_slot, getattr. rewrite Hw. cbn [bind of_option].
    rewrite (item_div_255_past_end bw (value_length bw)) by lia. reflexivity.
Qed.

(** The loop over the fields files the texcoord fields in [uv_map] and the
    colour fields in [color_map]; it never raises. *)
Lemma channel_loop (fields : list (string * value))
    (uv col : dict string (list value)) :
  for_each channel_step fields (uv, col) =
  Ok (group_into uv (filter (fun kv => contains "texcoord" (fst kv)) fields),
      group_into col (filter (fun kv => contains "colour" (fst kv)) fields)).
Proof.
  revert uv col. induction fields as [|[key val] fields IH]; intros uv col.
  - reflexivity.
  - cbn [for_each channel_step filter fst]. unfold tuple.
    destruct (contains "texcoord" key); destruct (contains "colour" key);
      rewrite ?append_under_eq; cbn [bind]; rewrite IH; reflexivity.
Qed.

Lemma vertex_step_ok (vertex_index : nat) (vertex : Vertex) (vc : VertexComponents) :
  vertex_ok vertex = true ->
  vertex_step (vertex_index, vertex) vc = Ok (decode_vertex vc (vertex_index, vertex)).
Proof.
  unfold vertex_ok. rewrite !hasattr_get. intros Hok.
  apply andb_true_iff in Hok. destruct Hok as [Hp Hb].
  unfold vertex_step, decode_vertex, getattr. rewrite !hasattr_get. cbn [snd].
  destruct (dict_get "position" vertex) as [p|]; [|discriminate]. cbn [of_option bind].
  assert (Hn : (if match dict_get "normal" vertex with Some _ => true | None => false end
                then normal <- of_option AttributeError (dict_get "normal" vertex) ;;
                     Ok (normals vc ++ [Vector_of normal])
                else Ok (normals vc))
               = Ok (normals vc ++ map Vector_of (opt_list (dict_get "normal" vertex)))).
  { destruct (dict_get "normal" vertex); simpl; [|rewrite app_nil_r]; reflexivity. }
  rewrite Hn. cbn [bind]. clear Hn.
  assert (Hg : (if match dict_get "blendweights" vertex with
                   | Some _ => true | None => false end
                then for_each (blend_slot vertex_index vertex) (seq 0 4) (vertex_groups vc)
                else Ok (vertex_groups vc))
               = Ok (group_into (vertex_groups vc) (blend_entries (vertex_index, vertex)))).
  { destruct (dict_get "blendweights" vertex) as [bw|] eqn:Hw.
    - destruct (dict_get "blendindices" vertex) as [[xs|bi]|] eqn:Hi; try discriminate.
      apply andb_true_iff in Hb. destruct Hb as [Hlw Hli].
      apply Nat.leb_le in Hlw, Hli.
      apply (blend_loop_ok vertex_index vertex bw bi); assumption.
    - unfold blend_entries. rewrite Hw. reflexivity. }
  rewrite Hg. cbn [bind]. clear Hg.
  unfold items. rewrite channel_loop. reflexivity.
Qed.

Lemma vertex_step_raises (vertex_index : nat) (vertex : Vertex) (vc : VertexComponents) :
  vertex_ok vertex = false ->
  exists e, vertex_step (vertex_index, vertex) vc = Err e.
Proof.
  unfold vertex_ok. rewrite !hasattr_get. intros Hbad.
  unfold vertex_step, getattr. rewrite !hasattr_get.
  destruct (dict_get "position" vertex) as [p|]; [|exists AttributeError; reflexivity].
  cbn [of_option bind]. simpl in Hbad.
  destruct (dict_get "normal" vertex) as [n|]; cbn [of_option bind];
    (destruct (dict_get "blendweights" vertex) as [bw|] eqn:Hw; [|discriminate]);
    destruct (blend_loop_raises vertex_index vertex bw (vertex_groups vc) Hw Hbad)
      as [e He]; rewrite He; exists e; reflexivity.
Qed.

(** ** The whole buffer *)

Lemma run_ok (vertices : list Vertex) (start : nat) (vc : VertexComponents) :
  forallb vertex_ok vertices = true ->
  for_each vertex_step (enumerate_from start vertices) vc =
  Ok (fold_left decode_vertex (enumerate_from start vertices) vc).
Proof.
  intros Hall. apply for_each_pure. intros [i v] s Hin.
  apply enumerate_from_in in Hin. destruct Hin as [_ Hin]. simpl in Hin.
  apply vertex_step_ok. rewrite forallb_forall in Hall. apply Hall. exact Hin.
Qed.

Lemma run_raises (vertices : list Vertex) (start : nat) (vc : VertexComponents) :
  forallb vertex_ok vertices = false ->
  exists e, for_each vertex_step (enumerate_from start vertices) vc = Err e.
Proof.
  revert start vc. induction vertices as [|v vertices IH]; intros start vc Hbad.
  - discriminate.
  - simpl in Hbad. cbn [enumerate_from for_each]. destruct (vertex_ok v) eqn:Hv.
    + rewrite (vertex_step_ok start v vc Hv). cbn [bind]. apply IH. exact Hbad.
    + destruct (vertex_step_raises start v vc Hv) as [e He]. rewrite He.
      exists e. reflexivity.
Qed.

(** The decoder returns exactly on the buffers all of whose vertices can be
    read, and then returns [decode_all]. *)
Lemma get_vertex_components_spec (vertices : list Vertex) (vc : VertexComponents) :
  get_vertex_components vertices = Ok vc <->
  forallb vertex_ok vertices = true /\ vc = decode_all vertices.
Proof.
  unfold get_vertex_components, decode_all, enumerate. split.
  - intros Hrun. destruct (forallb vertex_ok vertices) eqn:Hall.
    + rewrite (run_ok vertices 0 empty_components Hall) in Hrun.
      inversion Hrun. split; reflexivity.
    + destruct (run_raises vertices 0 empty_components Hall) as [e He].
      rewrite He in Hrun. discriminate.
  - intros [Hall ->]. apply run_ok. exact Hall.
Qed.

(** ** The five containers of [decode_all] *)

Lemma decode_fold (ivs : list (nat * Vertex)) (vc : VertexComponents) :
  fold_left decode_vertex ivs vc =
  mkVertexComponents
    (positions vc ++ flat_map (fun iv => position_of (snd iv)) ivs)
    (normals vc ++ flat_map (fun iv => normal_of (snd iv)) ivs)
    (group_into (uv_map vc) (flat_map (fun iv => channel_entries "texcoord" (snd iv)) ivs))
    (group_into (color_map vc) (flat_map (fun iv => channel_entries "colour" (snd iv)) ivs))
    (group_into (vertex_groups vc) (flat_map blend_entries ivs)).
Proof.
  revert vc. induction ivs as [|iv ivs IH]; intros vc.
  - simpl. rewrite !app_nil_r. destruct vc; reflexivity.
  - cbn [fold_left flat_map]. rewrite IH. unfold decode_vertex at 1 2 3 4 5.
    cbn [positions normals uv_map color_map vertex_groups].
    rewrite <- !app_assoc, !group_into_app. reflexivity.
Qed.

Lemma flat_map_enumerate {A B : Type} (f : A -> list B) (l : list A) (s : nat) :
  flat_map (fun iv => f (snd iv)) (enumerate_from s l) = flat_map f l.
Proof.
  revert s. induction l as [|x l IH]; intros s; simpl; [reflexivity | now rewrite IH].
Qed.

Lemma positions_decode_all (vertices : list Vertex) :
  positions (decode_all vertices) = flat_map position_of vertices.
Proof.
  unfold decode_all, enumerate. rewrite decode_fold. simpl.
  apply flat_map_enumerate.
Qed.

Lemma normals_decode_all (vertices : list Vertex) :
  normals (decode_all vertices) = flat_map normal_of vertices.
Proof.
  unfold decode_all, enumerate. rewrite decode_fold. simpl.
  apply flat_map_enumerate.
Qed.

Lemma uv_map_decode_all (vertices : list Vertex) :
  uv_map (decode_all vertices) =
  group_into [] (flat_map (channel_entries "texcoord") vertices).
Proof.
  unfold decode_all, enumerate. rewrite decode_fold. simpl.
  rewrite (flat_map_enumerate (channel_entries "texcoord")). reflexivity.
Qed.

Lemma color_map_decode_all (vertices : list Vertex) :
  color_map (decode_all vertices) =
  group_into [] (flat_map (channel_entries "colour") vertices).
Proof.
  unfold decode_all, enumerate. rewrite decode_fold. simpl.
  rewrite (flat_map_enumerate (channel_entries "colour")). reflexivity.
Qed.

Lemma vertex_groups_decode_all (vertices : list Vertex) :
  vertex_groups (decode_all vertices) =
  group_into [] (flat_map blend_entries (enumerate vertices)).
Proof. unfold decode_all. rewrite decode_fold. reflexivity. Qed.

(** A stream that takes one element from every item of a list is as long
    as the list and keeps its order. *)
Lemma flat_map_one {A B : Type} (f : A -> option B) (l : list A) :
  Forall (fun x => exists y, f x = Some y) l ->
  length (flat_map (fun x => opt_list (f x)) l) = length l /\
  forall i x, nth_error l i = Some x ->
              nth_error (flat_map (fun x => opt_list (f x)) l) i = f x.
Proof.
  induction 1 as [|x l [y Hy] Hall [IHlen IHnth]]; simpl.
  - split; [reflexivity|]. intros [|i] x; discriminate.
  - rewrite Hy. simpl. split; [now rewrite IHlen|].
    intros [|i] x'; simpl.
    + intros Hx. inversion Hx; subst. symmetry. exact Hy.
    + apply IHnth.
Qed.

Lemma flat_map_agree {A B : Type} (f g : A -> list B) (l : list A) :
  (forall x, In x l -> f x = g x) -> flat_map f l = flat_map g l.
Proof.
  induction l as [|x l IH]; simpl; intros Heq; [reflexivity|].
  rewrite (Heq x (or_introl eq_refl)), IH; [reflexivity|].
  intros y Hy. apply Heq. right. exact Hy.
Qed.

Lemma flat_map_none {A B : Type} (f : A -> list B) (l : list A) :
  Forall (fun x => f x = []) l -> flat_map f l = [].
Proof.
  induction 1 as [|x l Hx Hall IH]; simpl; [reflexivity | now rewrite Hx, IH].
Qed.

Lemma entries_of_app {K X : Type} `{EqKey K} (k : K) (es1 es2 : list (K * X)) :
  entries_of k (es1 ++ es2) = entries_of k es1 ++ entries_of k es2.
Proof. unfold entries_of. rewrite filter_app, map_app. reflexivity. Qed.

Lemma entries_of_flat_map {A K X : Type} `{EqKey K} (k : K) (f : A -> list (K * X))
    (l : list A) :
  entries_of k (flat_map f l) = flat_map (fun x => entries_of k (f x)) l.
Proof.
  induction l as [|x l IH]; simpl; [reflexivity|].
  rewrite entries_of_app, IH. reflexivity.
Qed.

Lemma in_entries_of {K X : Type} `{EqKey K} (k : K) (x : X) (es : list (K * X)) :
  In x (entries_of k es) <-> In (k, x) es.
Proof.
  unfold entries_of. rewrite in_map_iff. split.
  - intros [[k' x'] [Hx Hin]]. simpl in Hx. subst x'.
    apply filter_In in Hin. destruct Hin as [Hin Hk]. simpl in Hk.
    destruct (keqb_spec k k'); [subst; exact Hin | discriminate].
  - intros Hin. exists (k, x). split; [reflexivity|].
    apply filter_In. split; [exact Hin | apply keqb_refl].
Qed.

(** In a vertex, the fields named [name] among those whose name passes a
    test: the field itself when its name passes, none otherwise. *)
Lemma entries_of_fields (p : string -> bool) (name : string) (vertex : Vertex) :
  wf_vertex vertex ->
  entries_of name (filter (fun kv => p (fst kv)) vertex) =
  if p name then opt_list (dict_get name vertex) else [].
Proof.
  unfold wf_vertex, entries_of.
  induction vertex as [|[k x] vertex IH]; intros Hnd.
  - simpl. destruct (p name); reflexivity.
  - simpl in Hnd. inversion Hnd as [|? ? Hnotin Hnd']; subst.
    specialize (IH Hnd'). cbn [filter fst dict_get].
    change (@keqb string EqKey_string name k) with (String.eqb name k).
    destruct (String.eqb_spec name k) as [->|Hne].
    + assert (Hnone : dict_get k vertex = None) by (apply dict_get_none_keys; exact Hnotin).
      rewrite Hnone in IH. destruct (p k); cbn [filter map fst snd opt_list].
      * change (@keqb string EqKey_string k k) with (String.eqb k k).
        rewrite String.eqb_refl. cbn [map snd]. rewrite IH. reflexivity.
      * exact IH.
    + destruct (p k); cbn [filter map fst snd].
      * change (@keqb string EqKey_string name k) with (String.eqb name k).
        destruct (String.eqb_spec name k); [contradiction|]. exact IH.
      * exact IH.
Qed.

(** ** Faces *)

Lemma range_fuel_shift (k step fuel start stop : nat) :
  range_fuel fuel (start + k) (stop + k) step =
  map (fun i => i + k) (range_fuel fuel start stop step).
Proof.
  revert start. induction fuel as [|fuel IH]; intros start; simpl.
  - reflexivity.
  - destruct (Nat.ltb_spec start stop) as [Hlt|Hge];
      destruct (Nat.ltb_spec (start + k) (stop + k)) as [Hlt'|Hge']; try lia.
    + simpl. f_equal. replace (start + k + step) with (start + step + k) by lia.
      apply IH.
    + reflexivity.
Qed.

Lemma range_fuel_enough (step fuel1 fuel2 start stop : nat) :
  0 < step -> stop - start <= fuel1 -> stop - start <= fuel2 ->
  range_fuel fuel1 start stop step = range_fuel fuel2 start stop step.
Proof.
  intros Hstep. revert fuel2 start.
  induction fuel1 as [|fuel1 IH]; intros fuel2 start H1 H2.
  - destruct fuel2 as [|fuel2]; simpl; [reflexivity|].
    destruct (Nat.ltb_spec start stop); [lia | reflexivity].
  - destruct fuel2 as [|fuel2]; simpl.
    + destruct (Nat.ltb_spec start stop); [lia | reflexivity].
    + destruct (Nat.ltb_spec start stop); [|reflexivity].
      f_equal. apply IH; lia.
Qed.

Lemma range_step3 (n : nat) :
  range 0 (S (S (S n))) 3 = 0 :: map (fun i => i + 3) (range 0 n 3).
Proof.
  unfold range.
  change (range_fuel (S (S (S n))) 0 (S (S (S n))) 3)
    with (0 :: range_fuel (S (S n)) (0 + 3) (S (S (S n))) 3).
  f_equal. rewrite <- (range_fuel_shift 3 3 n 0 n).
  replace (S (S (S n))) with (n + 3) by lia.
  apply range_fuel_enough; lia.
Qed.

Lemma slice_tail3 {A : Type} (a b c : A) (r : list A) (i : nat) :
  slice (a :: b :: c :: r) (i + 3) (i + 3 + 3) = slice r i (i + 3).
Proof.
  unfold slice. replace (i + 3 + 3 - (i + 3)) with (i + 3 - i) by lia.
  replace (i + 3) with (S (S (S i))) at 2 by lia. reflexivity.
Qed.

(** The comprehension takes the first three indices as a face and goes on
    with the rest. *)
Lemma split_indices_cons3 (a b c : Z) (r : list Z) :
  split_indices (a :: b :: c :: r) = [a; b; c] :: split_indices r.
Proof.
  unfold split_indices. cbn [length]. rewrite range_step3. cbn [map]. f_equal.
  rewrite map_map. apply map_ext. intros i. apply slice_tail3.
Qed.

Lemma list_ind3 {A : Type} (P : list A -> Prop) :
  P [] -> (forall a, P [a]) -> (forall a b, P [a; b]) ->
  (forall a b c r, P r -> P (a :: b :: c :: r)) ->
  forall l, P l.
Proof.
  intros H0 H1 H2 H3 l.
  assert (Hall : P l /\ (forall a, P (a :: l)) /\ (forall a b, P (a :: b :: l))).
  { induction l as [|x l [IH0 [IH1 IH2]]].
    - auto.
    - split; [apply IH1|]. split; [intros a; apply IH2|].
      intros a b. apply H3. exact IH0. }
  apply Hall.
Qed.

Lemma concat_split_indices (indices : list Z) :
  concat (split_indices indices) = indices.
Proof.
  induction indices as [| a | a b | a b c r IH] using list_ind3;
    try reflexivity.
  rewrite split_indices_cons3. simpl. rewrite IH. reflexivity.
Qed.

Lemma mod3_step (n : nat) : S (S (S n)) mod 3 = n mod 3.
Proof.
  replace (S (S (S n))) with (n + 1 * 3) by lia. apply Nat.Div0.mod_add.
Qed.

Lemma div3_step (n : nat) : S (S (S n)) / 3 = S (n / 3).
Proof.
  replace (S (S (S n))) with (n + 1 * 3) by lia.
  rewrite Nat.div_add by lia. lia.
Qed.

(** On a buffer of 3n indices the faces are the n consecutive triples. *)
Lemma split_indices_triples (indices : list Z) :
  length indices mod 3 = 0 ->
  length (split_indices indices) = length indices / 3 /\
  forall j, j < length indices / 3 ->
    exists a b c,
      nth_error indices (3 * j) = Some a /\
      nth_error indices (3 * j + 1) = Some b /\
      nth_error indices (3 * j + 2) = Some c /\
      nth_error (split_indices indices) j = Some [a; b; c].
Proof.
  induction indices as [| a | a b | a b c r IH] using list_ind3; intros Hmod.
  - split; [reflexivity|]. intros j Hj. simpl in Hj. lia.
  - discriminate.
  - discriminate.
  - cbn [length] in *. rewrite mod3_step in Hmod. rewrite div3_step.
    destruct (IH Hmod) as [Hlen Hnth]. rewrite split_indices_cons3.
    split; [simpl; now rewrite Hlen|].
    intros [|j] Hj.
    + exists a, b, c. repeat split; reflexivity.
    + destruct (Hnth j) as [a' [b' [c' [Ha [Hb [Hc Hf]]]]]]; [lia|].
      exists a', b', c'.
      replace (3 * S j) with (S (S (S (3 * j)))) by lia.
      repeat split; assumption.
Qed.

(** On any other buffer the faces are full triples followed by one short
    face that holds the one or two indices left over. *)
Lemma split_indices_short_last (indices : list Z) :
  length indices mod 3 <> 0 ->
  exists triples last,
    split_indices indices = triples ++ [last] /\
    Forall (fun face => length face = 3) triples /\
    length triples = length indices / 3 /\
    length last = length indices mod 3.
Proof.
  induction indices as [| a | a b | a b c r IH] using list_ind3; intros Hmod.
  - simpl in Hmod. contradiction.
  - exists [], [a]. repeat split. constructor.
  - exists [], [a; b]. repeat split. constructor.
  - cbn [length] in *. rewrite mod3_step in *. rewrite div3_step.
    destruct (IH Hmod) as [triples [last [Heq [Hall [Hlen Hlast]]]]].
    exists ([a; b; c] :: triples), last. rewrite split_indices_cons3, Heq.
    repeat split.
    + constructor; [reflexivity | exact Hall].
    + simpl. now rewrite Hlen.
    + exact Hlast.
Qed.

(** ** The converter *)

Lemma keeps_refl (self : GeometryCWXMLConverter) (m : bpy.Mesh) :
  mesh self = Some m -> keeps self self.
Proof. intros Hm. repeat split. exists m, m. repeat split; assumption. Qed.

Lemma keeps_trans (s1 s2 s3 : GeometryCWXMLConverter) :
  keeps s1 s2 -> keeps s2 s3 -> keeps s1 s3.
Proof.
  intros [Hc [Hv [Ho [m1 [m2 [Hm1 [Hm2 [Hn [Hvs Hf]]]]]]]]]
         [Hc' [Hv' [Ho' [m2' [m3 [Hm2' [Hm3 [Hn' [Hvs' Hf']]]]]]]]].
  rewrite Hm2 in Hm2'. inversion Hm2'; subst m2'.
  repeat split; try congruence.
  exists m1, m3. repeat split; congruence.
Qed.

Lemma vertex_components_eq (self : GeometryCWXMLConverter) :
  vertex_components self =
  (vc <- components_of self ;; Ok (vc, set_vertex_components (Some vc) self)).
Proof.
  unfold vertex_components, components_of.
  destruct self as [c [vc|] m o r]; reflexivity.
Qed.

Lemma vertex_components_kept (self : GeometryCWXMLConverter) (vc : VertexComponents) :
  _vertex_components self = Some vc -> vertex_components self = Ok (vc, self).
Proof. unfold vertex_components. intros ->. reflexivity. Qed.

Lemma for_each_invariant {A S : Type} (I : S -> Prop) (body : A -> S -> pyresult S)
    (l : list A) (st : S) :
  (forall x s, In x l -> I s -> exists s', body x s = Ok s' /\ I s') ->
  I st ->
  exists st', for_each body l st = Ok st' /\ I st'.
Proof.
  revert st. induction l as [|x l IH]; intros st Hbody Hst; simpl.
  - exists st. split; [reflexivity | exact Hst].
  - destruct (Hbody x st (or_introl eq_refl) Hst) as [s' [Hs' HI]].
    rewrite Hs'. simpl. apply IH; [|exact HI].
    intros y s Hy. apply Hbody. right. exact Hy.
Qed.

(** The outcome of [create_material]: a warning and nothing else when the
    shader index is out of range, one more material on the mesh when it is
    in range. *)
Lemma create_material_out_of_range (materials : list bpy.Material)
    (self : GeometryCWXMLConverter) :
  (shader_index (cwxml self) < 0 \/
   Z.of_nat (length materials) <= shader_index (cwxml self))%Z ->
  create_material materials self =
  Ok (report "WARNING" (material_warning (mesh self) (shader_index (cwxml self))) self).
Proof.
  intros Hout. unfold create_material.
  destruct (Z.leb_spec 0 (shader_index (cwxml self)));
    destruct (Z.ltb_spec (shader_index (cwxml self)) (Z.of_nat (length materials)));
    simpl; try reflexivity; lia.
Qed.

Lemma py_index_in_range {A : Type} (l : list A) (z : Z) :
  (0 <= z < Z.of_nat (length l))%Z ->
  exists a, nth_error l (Z.to_nat z) = Some a /\ py_index l z = Ok a.
Proof.
  intros Hz. unfold py_index.
  destruct (Z.leb_spec 0 z); [|lia].
  destruct (nth_error l (Z.to_nat z)) as [a|] eqn:E.
  - exists a. split; reflexivity.
  - apply nth_error_None in E. lia.
Qed.

Lemma create_material_in_range (materials : list bpy.Material)
    (self : GeometryCWXMLConverter) (m : bpy.Mesh) :
  (0 <= shader_index (cwxml self) < Z.of_nat (length materials))%Z ->
  mesh self = Some m ->
  exists material,
    nth_error materials (Z.to_nat (shader_index (cwxml self))) = Some material /\
    create_material materials self = Ok (set_mesh (append_material material m) self).
Proof.
  intros Hin Hm. unfold create_material.
  destruct (Z.leb_spec 0 (shader_index (cwxml self))); [|lia].
  destruct (Z.ltb_spec (shader_index (cwxml self)) (Z.of_nat (length materials)));
    [|lia].
  simpl. rewrite Hm. cbn [of_option bind].
  destruct (py_index_in_range materials _ Hin) as [material [Hnth Hidx]].
  rewrite Hidx. exists material. split; [exact Hnth | reflexivity].
Qed.

Lemma create_material_keeps (materials : list bpy.Material)
    (self : GeometryCWXMLConverter) (m : bpy.Mesh) :
  mesh self = Some m ->
  exists self', create_material materials self = Ok self' /\ keeps self self'.
Proof.
  intros Hm.
  destruct (Z_lt_le_dec (shader_index (cwxml self)) 0) as [Hneg|Hpos];
    [|destruct (Z_lt_le_dec (shader_index (cwxml self)) (Z.of_nat (length materials)))
        as [Hlt|Hge]].
  - rewrite create_material_out_of_range by lia.
    eexists. split; [reflexivity|]. repeat split.
    exists m, m. repeat split; assumption.
  - destruct (create_material_in_range materials self m) as [material [_ Hrun]];
      [lia | exact Hm |].
    rewrite Hrun. eexists. split; [reflexivity|]. repeat split.
    exists m, (append_material material m). repeat split. exact Hm.
  - rewrite create_material_out_of_range by lia.
    eexists. split; [reflexivity|]. repeat split.
    exists m, m. repeat split; assumption.
Qed.

Lemma set_smooth_normals_keeps (self : GeometryCWXMLConverter) (m : bpy.Mesh)
    (vc : VertexComponents) :
  mesh self = Some m -> _vertex_components self = Some vc ->
  exists self', set_smooth_normals self = Ok self' /\ keeps self self'.
Proof.
  intros Hm Hvc. unfold set_smooth_normals. rewrite Hm. cbn [of_option bind].
  rewrite (vertex_components_kept self vc Hvc). cbn [bind].
  eexists. split; [reflexivity|]. repeat split; try assumption.
  exists m, (set_normals (repeat true (length (bpy.faces m))) (normals vc) m).
  repeat split. exact Hm.
Qed.

Lemma layer_loop_keeps (layer : bpy.Mesh -> nat -> string -> list value -> bpy.Mesh)
    (l : list (nat * (string * list value))) (self : GeometryCWXMLConverter)
    (m : bpy.Mesh) :
  (forall m i name coords,
      bpy.name (layer m i name coords) = bpy.name m /\
      bpy.vertices (layer m i name coords) = bpy.vertices m /\
      bpy.faces (layer m i name coords) = bpy.faces m) ->
  mesh self = Some m ->
  exists self',
    for_each (fun '(i, (name, coords)) self =>
                m <- of_option AttributeError (mesh self) ;;
                Ok (set_mesh (layer m i name coords) self)) l self = Ok self' /\
    keeps self self'.
Proof.
  intros Hlayer Hm.
  apply (for_each_invariant (keeps self)); [|apply (keeps_refl self m Hm)].
  intros [i [name coords]] s _ Hk.
  destruct Hk as [Hc [Hv [Ho [m1 [m2 [Hm1 [Hm2 [Hn [Hvs Hf]]]]]]]]].
  rewrite Hm2. cbn [of_option bind]. eexists. split; [reflexivity|].
  destruct (Hlayer m2 i name coords) as [Ln [Lv Lf]].
  repeat split; try assumption.
  exists m1, (layer m2 i name coords). repeat split; try congruence.
Qed.

(** [create_mesh] returns whenever the vertex buffer can be decoded,
    whatever the index buffer is; the mesh gets the decoded positions and
    the faces of [split_indices]. *)
Lemma create_mesh_ok (name : string) (materials : list bpy.Material)
    (self : GeometryCWXMLConverter) (vc : VertexComponents) :
  components_of self = Ok vc ->
  exists m self',
    create_mesh name materials self = Ok (m, self') /\
    mesh self' = Some m /\
    bpy.name m = name /\
    bpy.vertices m = positions vc /\
    bpy.faces m = split_indices (index_buffer (cwxml self)).
Proof.
  intros Hvc. unfold create_mesh.
  rewrite vertex_components_eq.
  assert (Hc : components_of (set_mesh (bpy.new_mesh name) self) = Ok vc) by exact Hvc.
  rewrite Hc. cbn [bind of_option mesh set_vertex_components set_mesh].
  set (s0 := set_mesh _ _).
  assert (Hm0 : mesh s0 = Some (from_pydata (positions vc)
                                  (split_indices (index_buffer (cwxml self)))
                                  (bpy.new_mesh name))) by reflexivity.
  assert (Hv0 : _vertex_components s0 = Some vc) by reflexivity.
  destruct (create_material_keeps materials s0 _ Hm0) as [s1 [R1 K1]].
  rewrite R1. cbn [bind].
  destruct K1 as [_ [Hv1 [_ [m0 [m1 [Hm0' [Hm1 [Hn1 [Hvs1 Hf1]]]]]]]]].
  rewrite Hm0 in Hm0'. inversion Hm0'; subst m0. clear Hm0'.
  rewrite Hv0 in Hv1.
  destruct (set_smooth_normals_keeps s1 m1 vc Hm1 Hv1) as [s2 [R2 K2]].
  rewrite R2. cbn [bind].
  destruct K2 as [_ [Hv2 [_ [m1' [m2 [Hm1' [Hm2 [Hn2 [Hvs2 Hf2]]]]]]]]].
  rewrite Hm1 in Hm1'. inversion Hm1'; subst m1'. clear Hm1'.
  rewrite Hv1 in Hv2.
  unfold create_uv_layers. rewrite (vertex_components_kept s2 vc Hv2). cbn [bind].
  destruct (layer_loop_keeps create_uv_layer (enumerate (items (uv_map vc))) s2 m2)
    as [s3 [R3 K3]]; [intros; repeat split | exact Hm2 |].
  rewrite R3. cbn [bind].
  destruct K3 as [_ [Hv3 [_ [m2' [m3 [Hm2' [Hm3 [Hn3 [Hvs3 Hf3]]]]]]]]].
  rewrite Hm2 in Hm2'. inversion Hm2'; subst m2'. clear Hm2'.
  rewrite Hv2 in Hv3.
  unfold create_vertex_color_layers. rewrite (vertex_components_kept s3 vc Hv3).
  cbn [bind].
  destruct (layer_loop_keeps create_vertexcolor_layer
              (enumerate (items (color_map vc))) s3 m3)
    as [s4 [R4 K4]]; [intros; repeat split | exact Hm3 |].
  rewrite R4. cbn [bind].
  destruct K4 as [_ [_ [_ [m3' [m4 [Hm3' [Hm4 [Hn4 [Hvs4 Hf4]]]]]]]]].
  rewrite Hm3 in Hm3'. inversion Hm3'; subst m3'. clear Hm3'.
  rewrite Hm4. cbn [of_option bind].
  exists m4, s4. split; [reflexivity|]. split; [exact Hm4|].
  repeat split.
  - rewrite Hn4, Hn3, Hn2, Hn1. reflexivity.
  - rewrite Hvs4, Hvs3, Hvs2, Hvs1. reflexivity.
  - rewrite Hf4, Hf3, Hf2, Hf1. reflexivity.
Qed.

(** ** Vertex groups *)

Lemma truthy_length {A : Type} (l : list A) : truthy l = (0 <? length l).
Proof. destruct l; reflexivity. Qed.

Lemma group_name_for_nonneg (bones : list BoneItem) (bone_ids : list Z) (k : Z) :
  (0 <= k)%Z ->
  group_name_for bones bone_ids k = Ok (expected_group_name bones bone_ids k).
Proof.
  intros Hk. unfold group_name_for, expected_group_name.
  destruct (Z.ltb_spec k (Z.of_nat (length bones))) as [Hlt|Hge].
  - rewrite truthy_length.
    destruct (Nat.ltb_spec 0 (length bones)); [|lia]. cbn [andb].
    destruct (py_index_in_range bones k) as [bone [Hnth Hidx]]; [lia|].
    rewrite Hidx, Hnth. reflexivity.
  - rewrite andb_false_r.
    assert (Hnone : nth_error bones (Z.to_nat k) = None)
      by (apply nth_error_None; lia).
    rewrite Hnone.
    destruct (Z.ltb_spec k (Z.of_nat (length bone_ids))) as [Hlt'|Hge'].
    + rewrite truthy_length.
      destruct (Nat.ltb_spec 0 (length bone_ids)); [|lia]. reflexivity.
    + rewrite andb_false_r. reflexivity.
Qed.

(** The loop of [create_vertex_groups]: one new group per key, in key
    order, after the groups that were there. *)
Lemma group_loop (bones : list BoneItem) (bone_ids : list Z) (ks : list Z)
    (ob ob' : bpy.Object) :
  for_each (fun bone_index ob =>
              bone_name <- group_name_for bones bone_ids bone_index ;;
              Ok (new_group bone_name ob)) ks ob = Ok ob' ->
  exists names,
    Forall2 (fun k n => group_name_for bones bone_ids k = Ok n) ks names /\
    bpy.object_name ob' = bpy.object_name ob /\
    bpy.vertex_groups ob' =
    bpy.vertex_groups ob ++ map (fun n => bpy.mkVertexGroup n []) names.
Proof.
  revert ob. induction ks as [|k ks IH]; intros ob Hrun.
  - simpl in Hrun. inversion Hrun; subst. exists []. repeat split.
    + constructor.
    + simpl. rewrite app_nil_r. reflexivity.
  - cbn [for_each] in Hrun.
    destruct (group_name_for bones bone_ids k) as [n|e] eqn:Hn; [|discriminate].
    cbn [bind] in Hrun. destruct (IH _ Hrun) as [names [Hall [Hname Hgs]]].
    exists (n :: names). repeat split.
    + constructor; assumption.
    + exact Hname.
    + rewrite Hgs. simpl. rewrite <- app_assoc. reflexivity.
Qed.

Lemma group_loop_nonneg (bones : list BoneItem) (bone_ids : list Z) (ks : list Z)
    (ob : bpy.Object) :
  Forall (fun k => (0 <= k)%Z) ks ->
  for_each (fun bone_index ob =>
              bone_name <- group_name_for bones bone_ids bone_index ;;
              Ok (new_group bone_name ob)) ks ob =
  Ok (bpy.mkObject (bpy.object_name ob)
        (bpy.vertex_groups ob ++
         map (fun k => bpy.mkVertexGroup (expected_group_name bones bone_ids k) []) ks)).
Proof.
  intros Hall. revert ob. induction Hall as [|k ks Hk Hall IH]; intros ob.
  - simpl. rewrite app_nil_r. destruct ob; reflexivity.
  - cbn [for_each]. rewrite (group_name_for_nonneg bones bone_ids k Hk). cbn [bind].
    rewrite IH. simpl. rewrite <- app_assoc. reflexivity.
Qed.

(** The inner loop of [set_geometry_weights]: every entry of the list goes
    to the group at position [length done]. *)
Lemma weight_loop (entries : list (nat * Q)) (self : GeometryCWXMLConverter)
    (ob : bpy.Object) (done todo : list bpy.VertexGroup) (g : bpy.VertexGroup) :
  bpy_object self = Some ob ->
  bpy.vertex_groups ob = done ++ g :: todo ->
  for_each (fun '(vertex_index, weight) self =>
              ob <- of_option AttributeError (bpy_object self) ;;
              ob <- add_weight (length done) vertex_index weight ob ;;
              Ok (set_bpy_object ob self)) entries self =
  Ok (set_bpy_object
        (bpy.mkObject (bpy.object_name ob)
           (done ++ bpy.mkVertexGroup (bpy.group_name g) (bpy.added g ++ entries) :: todo))
        self).
Proof.
  revert self ob g. induction entries as [|[vi w] entries IH]; intros self ob g Hob Hgs.
  - simpl. rewrite app_nil_r. f_equal.
    destruct self as [c v m o r]; destruct ob as [n gs]; destruct g as [gn ga].
    simpl in *. subst. reflexivity.
  - cbn [for_each]. rewrite Hob. cbn [of_option bind]. unfold add_weight.
    rewrite Hgs.
    rewrite nth_error_app2 by lia. rewrite Nat.sub_diag. cbn [nth_error of_option bind].
    rewrite firstn_app, firstn_all, Nat.sub_diag. cbn [firstn]. rewrite app_nil_r.
    replace (skipn (S (length done)) (done ++ g :: todo)) with todo.
    2:{ rewrite skipn_app. rewrite (skipn_all2 done) by lia.
        replace (S (length done) - length done) with 1 by lia. reflexivity. }
    erewrite IH; [|reflexivity|reflexivity].
    cbn [bpy.group_name bpy.added bpy.object_name]. rewrite <- app_assoc. reflexivity.
Qed.

(** The outer loop: the lists go to the groups that follow [done], one
    list per group in order. *)
Lemma weights_loop (vals : list (list (nat * Q))) (self : GeometryCWXMLConverter)
    (ob : bpy.Object) (done todo : list bpy.VertexGroup) :
  bpy_object self = Some ob ->
  bpy.vertex_groups ob = done ++ todo ->
  length todo = length vals ->
  for_each (fun '(i, vertex_group) self =>
              for_each (fun '(vertex_index, weight) self =>
                          ob <- of_option AttributeError (bpy_object self) ;;
                          ob <- add_weight i vertex_index weight ob ;;
                          Ok (set_bpy_object ob self))
                       vertex_group self)
           (enumerate_from (length done) vals) self =
  Ok (set_bpy_object
        (bpy.mkObject (bpy.object_name ob) (done ++ with_weights todo vals)) self).
Proof.
  revert self ob done todo.
  induction vals as [|v vals IH]; intros self ob done todo Hob Hgs Hlen.
  - destruct todo; [|discriminate]. simpl. f_equal.
    destruct self as [c vc m o r]; destruct ob as [n gs].
    simpl in *. subst. reflexivity.
  - destruct todo as [|g todo]; [discriminate|]. simpl in Hlen.
    cbn [enumerate_from for_each].
    rewrite (weight_loop v self ob done todo g Hob Hgs). cbn [bind].
    pose (g' := bpy.mkVertexGroup (bpy.group_name g) (bpy.added g ++ v)).
    pose (ob1 := bpy.mkObject (bpy.object_name ob) (done ++ g' :: todo)).
    fold g'. fold ob1.
    replace (S (length done)) with (length (done ++ [g'])).
    2:{ rewrite length_app. simpl. lia. }
    rewrite (IH (set_bpy_object ob1 self) ob1 (done ++ [g']) todo).
    + unfold with_weights. cbn [combine map fst snd bpy.object_name ob1].
      rewrite <- app_assoc. reflexivity.
    + reflexivity.
    + unfold ob1. cbn [bpy.vertex_groups]. rewrite <- app_assoc. reflexivity.
    + lia.
Qed.

(** * The statements of the specification *)

(** ** Faces *)

(** C1 (as the code has it).  An index buffer whose length is not a
    multiple of 3 raises nothing: whenever the vertex buffer can be
    decoded, [create_mesh] returns, and the faces it hands to the mesh are
    the full triples of the buffer, in order, followed by one short face
    that holds the one or two indices left over. *)
Theorem create_mesh_uneven_index_buffer (name : string) (materials : list bpy.Material)
    (self : GeometryCWXMLConverter) (vc : VertexComponents) :
  components_of self = Ok vc ->
  length (index_buffer (cwxml self)) mod 3 <> 0 ->
  exists m self' triples last,
    create_mesh name materials self = Ok (m, self') /\
    bpy.faces m = triples ++ [last] /\
    concat (bpy.faces m) = index_buffer (cwxml self) /\
    Forall (fun face => length face = 3) triples /\
    length triples = length (index_buffer (cwxml self)) / 3 /\
    length last = length (index_buffer (cwxml self)) mod 3.
Proof.
  intros Hvc Hmod.
  destruct (create_mesh_ok name materials self vc Hvc)
    as [m [self' [Hrun [_ [_ [_ Hfaces]]]]]].
  destruct (split_indices_short_last _ Hmod) as [triples [last [Heq [Hall [Hlen Hlast]]]]].
  exists m, self', triples, last. rewrite Hfaces.
  repeat split; try assumption. apply concat_split_indices.
Qed.

Lemma create_mesh_uneven_index_buffer_witness :
  exists m self' triples last,
    create_mesh "geometry" [] (init (example_geometry [0; 1; 0; 1]%Z 0 [])) = Ok (m, self') /\
    bpy.faces m = triples ++ [last] /\
    concat (bpy.faces m) = [0; 1; 0; 1]%Z /\
    Forall (fun face => length face = 3) triples /\
    length triples = 1 /\
    length last = 1.
Proof.
  apply (create_mesh_uneven_index_buffer "geometry" []
           (init (example_geometry [0; 1; 0; 1]%Z 0 []))
           (decode_all example_vertices)).
  - reflexivity.
  - simpl. discriminate.
Defined.

(** C1 (as the specification states it) fails: with four indices the
    reshaping signals no error, it produces the faces [0, 1, 0] and [1]. *)
Lemma create_mesh_four_indices :
  length [0; 1; 0; 1]%Z mod 3 <> 0 /\
  (forall e, create_mesh "geometry" []
               (init (example_geometry [0; 1; 0; 1]%Z 0 [])) <> Err e) /\
  exists m self',
    create_mesh "geometry" [] (init (example_geometry [0; 1; 0; 1]%Z 0 [])) = Ok (m, self') /\
    bpy.faces m = [[0; 1; 0]; [1]]%Z.
Proof.
  split; [simpl; discriminate|]. split.
  - intros e. vm_compute. discriminate.
  - eexists. eexists. split; vm_compute; reflexivity.
Qed.

(** C5.  When the length of the index buffer is a multiple of 3 and the
    vertex buffer can be decoded, [create_mesh] returns and the faces are
    the len/3 consecutive triples of the buffer, in order: face j holds the
    indices 3j, 3j+1 and 3j+2, and the faces put end to end give the
    buffer back. *)
Theorem create_mesh_triples (name : string) (materials : list bpy.Material)
    (self : GeometryCWXMLConverter) (vc : VertexComponents) :
  components_of self = Ok vc ->
  length (index_buffer (cwxml self)) mod 3 = 0 ->
  exists m self',
    create_mesh name materials self = Ok (m, self') /\
    length (bpy.faces m) = length (index_buffer (cwxml self)) / 3 /\
    concat (bpy.faces m) = index_buffer (cwxml self) /\
    forall j, j < length (index_buffer (cwxml self)) / 3 ->
      exists a b c,
        nth_error (index_buffer (cwxml self)) (3 * j) = Some a /\
        nth_error (index_buffer (cwxml self)) (3 * j + 1) = Some b /\
        nth_error (index_buffer (cwxml self)) (3 * j + 2) = Some c /\
        nth_error (bpy.faces m) j = Some [a; b; c].
Proof.
  intros Hvc Hmod.
  destruct (create_mesh_ok name materials self vc Hvc)
    as [m [self' [Hrun [_ [_ [_ Hfaces]]]]]].
  destruct (split_indices_triples _ Hmod) as [Hlen Hnth].
  exists m, self'. rewrite Hfaces.
  repeat split; try assumption. apply concat_split_indices.
Qed.

Lemma create_mesh_triples_witness :
  exists m self',
    create_mesh "geometry" [] (init (example_geometry [0; 1; 0; 1; 1; 0]%Z 0 []))
    = Ok (m, self') /\
    length (bpy.faces m) = 2 /\
    concat (bpy.faces m) = [0; 1; 0; 1; 1; 0]%Z /\
    forall j, j < 2 ->
      exists a b c,
        nth_error [0; 1; 0; 1; 1; 0]%Z (3 * j) = Some a /\
        nth_error [0; 1; 0; 1; 1; 0]%Z (3 * j + 1) = Some b /\
        nth_error [0; 1; 0; 1; 1; 0]%Z (3 * j + 2) = Some c /\
        nth_error (bpy.faces m) j = Some [a; b; c].
Proof.
  apply (create_mesh_triples "geometry" []
           (init (example_geometry [0; 1; 0; 1; 1; 0]%Z 0 []))
           (decode_all example_vertices)).
  - reflexivity.
  - reflexivity.
Defined.

(** ** Materials *)

(** C9.  A shader index outside [0, len(materials)) makes
    [create_material] report one warning and return: it does not raise and
    the mesh, materials included, is what it was.  A shader index in range
    appends [materials[shader_index]] to the materials of the mesh and
    reports nothing. *)
Theorem create_material_shader_index (materials : list bpy.Material)
    (self : GeometryCWXMLConverter) :
  ((shader_index (cwxml self) < 0 \/
    Z.of_nat (length materials) <= shader_index (cwxml self))%Z ->
   exists self',
     create_material materials self = Ok self' /\
     mesh self' = mesh self /\
     reports self' =
     reports self ++
     [("WARNING", material_warning (mesh self) (shader_index (cwxml self)))]) /\
  ((0 <= shader_index (cwxml self) < Z.of_nat (length materials))%Z ->
   forall m, mesh self = Some m ->
   exists material m' self',
     nth_error materials (Z.to_nat (shader_index (cwxml self))) = Some material /\
     create_material materials self = Ok self' /\
     mesh self' = Some m' /\
     bpy.materials m' = bpy.materials m ++ [material] /\
     reports self' = reports self).
Proof.
  split.
  - intros Hout. rewrite (create_material_out_of_range materials self Hout).
    eexists. split; [reflexivity|]. split; reflexivity.
  - intros Hin m Hm.
    destruct (create_material_in_range materials self m Hin Hm) as [material [Hnth Hrun]].
    exists material, (append_material material m), (set_mesh (append_material material m) self).
    repeat split; assumption.
Qed.

Lemma create_material_shader_index_witness :
  (exists self',
     create_material [bpy.mkMaterial "paint"]
       (set_mesh (bpy.new_mesh "geometry") (init (example_geometry [] 5 []))) = Ok self' /\
     mesh self' = Some (bpy.new_mesh "geometry") /\
     reports self' =
     [("WARNING", "Material not set for geometry. Shader index of 5 not found!")]) /\
  (exists material m' self',
     nth_error [bpy.mkMaterial "paint"] 0 = Some material /\
     create_material [bpy.mkMaterial "paint"]
       (set_mesh (bpy.new_mesh "geometry") (init (example_geometry [] 0 []))) = Ok self' /\
     mesh self' = Some m' /\
     bpy.materials m' = [material] /\
     reports self' = []).
Proof.
  split.
  - apply (proj1 (create_material_shader_index [bpy.mkMaterial "paint"]
                    (set_mesh (bpy.new_mesh "geometry")
                       (init (example_geometry [] 5 []))))).
    right. simpl. lia.
  - apply (proj2 (create_material_shader_index [bpy.mkMaterial "paint"]
                    (set_mesh (bpy.new_mesh "geometry")
                       (init (example_geometry [] 0 []))))
             ltac:(simpl; lia) (bpy.new_mesh "geometry") eq_refl).
Defined.

(** ** Positions, normals and channels *)

Lemma vertex_ok_position (vertex : Vertex) :
  vertex_ok vertex = true -> exists p, dict_get "position" vertex = Some p.
Proof.
  unfold vertex_ok. rewrite hasattr_get. intros Hok.
  apply andb_true_iff in Hok. destruct Hok as [Hp _].
  destruct (dict_get "position" vertex) as [p|]; [exists p; reflexivity | discriminate].
Qed.

Lemma positions_aligned (vertices : list Vertex) :
  forallb vertex_ok vertices = true ->
  length (positions (decode_all vertices)) = length vertices /\
  forall i v, nth_error vertices i = Some v ->
              nth_error (positions (decode_all vertices)) i = dict_get "position" v.
Proof.
  intros Hall. rewrite positions_decode_all. apply flat_map_one.
  apply Forall_forall. intros v Hin. apply vertex_ok_position.
  rewrite forallb_forall in Hall. apply Hall. exact Hin.
Qed.

Lemma normal_of_opt (vertex : Vertex) :
  normal_of vertex = opt_list (option_map Vector_of (dict_get "normal" vertex)).
Proof. unfold normal_of. destruct (dict_get "normal" vertex); reflexivity. Qed.

Lemma normals_all (vertices : list Vertex) :
  Forall (fun v => In "normal" (keys v)) vertices ->
  length (normals (decode_all vertices)) = length vertices /\
  forall i v, nth_error vertices i = Some v ->
    exists n, dict_get "normal" v = Some n /\
              nth_error (normals (decode_all vertices)) i = Some (Vector_of n).
Proof.
  intros Hall. rewrite normals_decode_all.
  rewrite (flat_map_ext _ _ normal_of_opt).
  assert (Hsome : Forall (fun v => exists y,
                            option_map Vector_of (dict_get "normal" v) = Some y) vertices).
  { apply Forall_forall. intros v Hin. rewrite Forall_forall in Hall.
    destruct (proj1 (dict_get_in_keys "normal" v) (Hall v Hin)) as [n Hn].
    exists (Vector_of n). rewrite Hn. reflexivity. }
  destruct (flat_map_one _ vertices Hsome) as [Hlen Hnth].
  split; [exact Hlen|]. intros i v Hv. rewrite (Hnth i v Hv).
  rewrite Forall_forall in Hall.
  destruct (proj1 (dict_get_in_keys "normal" v) (Hall v (nth_error_In _ _ Hv))) as [n Hn].
  exists n. rewrite Hn. split; reflexivity.
Qed.

Lemma normals_none (vertices : list Vertex) :
  Forall (fun v => ~ In "normal" (keys v)) vertices ->
  normals (decode_all vertices) = [].
Proof.
  intros Hall. rewrite normals_decode_all. apply flat_map_none.
  apply Forall_forall. intros v Hin. rewrite Forall_forall in Hall.
  unfold normal_of. rewrite (proj2 (dict_get_none_keys "normal" v) (Hall v Hin)).
  reflexivity.
Qed.

(** Under a uniform layout, a channel of the result has one value per
    vertex: the value of the field of that name. *)
Lemma channel_aligned (pat : string) (layout : list string) (vertices : list Vertex)
    (name : string) (l : list value) :
  uniform_layout layout vertices ->
  dict_get name (group_into [] (flat_map (channel_entries pat) vertices)) = Some l ->
  contains pat name = true /\
  length l = length vertices /\
  forall i v, nth_error vertices i = Some v ->
    exists x, dict_get name v = Some x /\ nth_error l i = Some x.
Proof.
  intros [Hnd Hlay] Hget. rewrite Forall_forall in Hlay.
  rewrite dict_get_group_into in Hget. cbn [dict_get] in Hget.
  assert (Hl : entries_of name (flat_map (channel_entries pat) vertices) = l /\ l <> []).
  { destruct (entries_of name (flat_map (channel_entries pat) vertices));
      [discriminate|]. inversion Hget. split; [reflexivity | discriminate]. }
  clear Hget. destruct Hl as [Hl Hne]. rewrite entries_of_flat_map in Hl.
  assert (Hfields : forall v, In v vertices ->
            entries_of name (channel_entries pat v) =
            if contains pat name then opt_list (dict_get name v) else []).
  { intros v Hin. unfold channel_entries, asdict.
    apply (entries_of_fields (contains pat)). unfold wf_vertex.
    rewrite (Hlay v Hin). exact Hnd. }
  destruct (contains pat name) eqn:Hpat.
  - split; [reflexivity|].
    assert (Hl' : flat_map (fun v => opt_list (dict_get name v)) vertices = l).
    { rewrite <- Hl. apply flat_map_agree. intros v Hin. symmetry.
      apply Hfields. exact Hin. }
    assert (Hin_layout : In name layout).
    { destruct (in_dec string_dec name layout) as [Hy|Hn]; [exact Hy|].
      exfalso. apply Hne. rewrite <- Hl'. apply flat_map_none.
      apply Forall_forall. intros v Hin.
      rewrite (proj2 (dict_get_none_keys name v)); [reflexivity|].
      rewrite (Hlay v Hin). exact Hn. }
    assert (Hsome : Forall (fun v => exists y, dict_get name v = Some y) vertices).
    { apply Forall_forall. intros v Hin. apply dict_get_in_keys.
      rewrite (Hlay v Hin). exact Hin_layout. }
    destruct (flat_map_one (dict_get name) vertices Hsome) as [Hlen Hnth].
    rewrite Hl' in Hlen, Hnth. split; [exact Hlen|].
    intros i v Hv. rewrite (Hnth i v Hv).
    rewrite Forall_forall in Hsome.
    destruct (Hsome v (nth_error_In _ _ Hv)) as [x Hx].
    exists x. split; [exact Hx | exact Hx].
  - exfalso. apply Hne. rewrite <- Hl. apply flat_map_none.
    apply Forall_forall. intros v Hin. apply Hfields. exact Hin.
Qed.

(** The weight entries of a buffer carry vertex indices of the buffer, in
    ascending order. *)
Lemma blend_entries_index (iv : nat * Vertex) (e : Z * (nat * Q)) :
  In e (blend_entries iv) -> fst (snd e) = fst iv.
Proof.
  destruct iv as [vi v]. unfold blend_entries.
  destruct (dict_get "blendweights" v); [|intros []].
  destruct (dict_get "blendindices" v); [|intros []].
  rewrite in_map_iff. intros [i [<- _]]. reflexivity.
Qed.

Lemma blend_stream_bounds (vertices : list Vertex) (start : nat) (e : Z * (nat * Q)) :
  In e (flat_map blend_entries (enumerate_from start vertices)) ->
  start <= fst (snd e) < start + length vertices.
Proof.
  rewrite in_flat_map. intros [iv [Hiv He]].
  apply blend_entries_index in He. apply enumerate_from_in in Hiv. lia.
Qed.

Lemma blend_stream_sorted (vertices : list Vertex) (start : nat) :
  StronglySorted le
    (map (fun e => fst (snd e)) (flat_map blend_entries (enumerate_from start vertices))).
Proof.
  revert start. induction vertices as [|v vertices IH]; intros start.
  - constructor.
  - cbn [enumerate_from flat_map]. rewrite map_app.
    assert (Hhead : forall x, In x (map (fun e => fst (snd e))
                                      (blend_entries (start, v))) -> x = start).
    { intros x Hx. apply in_map_iff in Hx. destruct Hx as [e [<- He]].
      apply (blend_entries_index (start, v) e He). }
    assert (Htail : forall y, In y (map (fun e => fst (snd e))
                                      (flat_map blend_entries
                                         (enumerate_from (S start) vertices))) ->
                              S start <= y).
    { intros y Hy. apply in_map_iff in Hy. destruct Hy as [e [<- He]].
      apply blend_stream_bounds in He. lia. }
    induction (map (fun e => fst (snd e)) (blend_entries (start, v))) as [|x xs IHxs].
    + apply IH.
    + simpl. constructor.
      * apply IHxs. intros x' Hx'. apply Hhead. right. exact Hx'.
      * apply Forall_forall. intros y Hy. apply in_app_iff in Hy.
        rewrite (Hhead x (or_introl eq_refl)). destruct Hy as [Hy|Hy].
        -- rewrite (Hhead y (or_intror Hy)). lia.
        -- apply Htail in Hy. lia.
Qed.

Lemma StronglySorted_filter_map {A : Type} (f : A -> nat) (p : A -> bool) (l : list A) :
  StronglySorted le (map f l) -> StronglySorted le (map f (filter p l)).
Proof.
  induction l as [|x l IH]; simpl; intros Hs.
  - constructor.
  - inversion Hs as [|? ? Hs' Hall]; subst. destruct (p x); simpl.
    + constructor; [apply IH; exact Hs'|].
      apply Forall_forall. intros y Hy. apply in_map_iff in Hy.
      destruct Hy as [z [<- Hz]]. apply filter_In in Hz.
      rewrite Forall_forall in Hall. apply Hall. apply in_map. apply Hz.
    + apply IH. exact Hs'.
Qed.

(** C7.  When the layout of the buffer declares a normal, the decoder
    returns as many normals as vertices, the i-th being the normal of the
    i-th vertex; when the layout declares none, it returns no normal. *)
Theorem normals_follow_layout (layout : list string) (vertices : list Vertex)
    (vc : VertexComponents) :
  Forall (fun vertex => keys vertex = layout) vertices ->
  get_vertex_components vertices = Ok vc ->
  (In "normal" layout ->
   length (normals vc) = length vertices /\
   forall i v, nth_error vertices i = Some v ->
     exists n, getattr v "normal" = Ok n /\
               nth_error (normals vc) i = Some (Vector_of n)) /\
  (~ In "normal" layout -> length (normals vc) = 0).
Proof.
  intros Hlay Hrun. apply get_vertex_components_spec in Hrun.
  destruct Hrun as [_ ->]. split.
  - intros Hin.
    assert (Hall : Forall (fun v => In "normal" (keys v)) vertices).
    { eapply Forall_impl; [|exact Hlay]. simpl. intros v ->. exact Hin. }
    destruct (normals_all vertices Hall) as [Hlen Hnth].
    split; [exact Hlen|]. intros i v Hv.
    destruct (Hnth i v Hv) as [n [Hn Hi]]. exists n. unfold getattr.
    rewrite Hn. split; [reflexivity | exact Hi].
  - intros Hnot. rewrite normals_none; [reflexivity|].
    eapply Forall_impl; [|exact Hlay]. simpl. intros v ->. exact Hnot.
Qed.

Lemma normals_follow_layout_witness :
  (length (normals (decode_all example_vertices)) = 2 /\
   forall i v, nth_error example_vertices i = Some v ->
     exists n, getattr v "normal" = Ok n /\
               nth_error (normals (decode_all example_vertices)) i = Some (Vector_of n)) /\
  length (normals (decode_all bare_vertices)) = 0.
Proof.
  split.
  - apply (proj1 (normals_follow_layout example_layout example_vertices
                    (decode_all example_vertices)
                    ltac:(repeat constructor) eq_refl)).
    simpl. tauto.
  - apply (proj2 (normals_follow_layout ["position"] bare_vertices
                    (decode_all bare_vertices)
                    ltac:(repeat constructor) eq_refl)).
    simpl. intros [H|[]]. discriminate.
Defined.

(** C6 (as the code has it).  The decoder tests the presence of an
    attribute vertex by vertex, so the alignment holds for the buffers
    whose vertices share one layout.  For such a buffer the containers the
    decoder returns are aligned with the vertices: one position per
    vertex; as many normals as positions, or none; in every list of
    [uv_map] and [color_map] one value per vertex, the i-th being the
    value of that field in the i-th vertex; and in [vertex_groups] only
    vertex indices below the number of positions. *)
Theorem components_aligned (layout : list string) (vertices : list Vertex)
    (vc : VertexComponents) :
  uniform_layout layout vertices ->
  get_vertex_components vertices = Ok vc ->
  length (positions vc) = length vertices /\
  (length (normals vc) = length (positions vc) \/ length (normals vc) = 0) /\
  (forall name l,
      dict_get name (uv_map vc) = Some l \/ dict_get name (color_map vc) = Some l ->
      length l = length (positions vc) /\
      forall i v, nth_error vertices i = Some v ->
        exists x, getattr v name = Ok x /\ nth_error l i = Some (tuple x)) /\
  (forall bone_index group vertex_index weight,
      dict_get bone_index (vertex_groups vc) = Some group ->
      In (vertex_index, weight) group ->
      vertex_index < length (positions vc)).
Proof.
  intros Hlay Hrun. apply get_vertex_components_spec in Hrun.
  destruct Hrun as [Hok ->].
  destruct (positions_aligned vertices Hok) as [Hpos _]. rewrite Hpos.
  split; [reflexivity|]. split; [|split].
  - destruct (in_dec string_dec "normal" layout) as [Hin|Hnot].
    + left. apply normals_all. destruct Hlay as [_ Hlay].
      eapply Forall_impl; [|exact Hlay]. simpl. intros v ->. exact Hin.
    + right. rewrite normals_none; [reflexivity|]. destruct Hlay as [_ Hlay].
      eapply Forall_impl; [|exact Hlay]. simpl. intros v ->. exact Hnot.
  - intros name l Hget.
    assert (Hch : exists pat,
               dict_get name (group_into [] (flat_map (channel_entries pat) vertices))
               = Some l).
    { destruct Hget as [Hget|Hget].
      - exists "texcoord". rewrite <- uv_map_decode_all. exact Hget.
      - exists "colour". rewrite <- color_map_decode_all. exact Hget. }
    destruct Hch as [pat Hch].
    destruct (channel_aligned pat layout vertices name l Hlay Hch) as [_ [Hlen Hnth]].
    split; [exact Hlen|]. intros i v Hv. destruct (Hnth i v Hv) as [x [Hx Hi]].
    exists x. unfold getattr, tuple. rewrite Hx. split; [reflexivity | exact Hi].
  - intros k g vi w Hget Hin. rewrite vertex_groups_decode_all in Hget.
    rewrite dict_get_group_into in Hget. cbn [dict_get] in Hget.
    assert (Hg : g = entries_of k (flat_map blend_entries (enumerate vertices))).
    { destruct (entries_of k (flat_map blend_entries (enumerate vertices)));
        [discriminate | inversion Hget; reflexivity]. }
    subst g. apply in_entries_of in Hin.
    apply (blend_stream_bounds vertices 0) in Hin. simpl in Hin. lia.
Qed.

Lemma components_aligned_witness :
  length (positions (decode_all example_vertices)) = 2 /\
  (length (normals (decode_all example_vertices)) = 2 \/
   length (normals (decode_all example_vertices)) = 0) /\
  (forall name l,
      dict_get name (uv_map (decode_all example_vertices)) = Some l \/
      dict_get name (color_map (decode_all example_vertices)) = Some l ->
      length l = 2 /\
      forall i v, nth_error example_vertices i = Some v ->
        exists x, getattr v name = Ok x /\ nth_error l i = Some (tuple x)) /\
  (forall bone_index group vertex_index weight,
      dict_get bone_index (vertex_groups (decode_all example_vertices)) = Some group ->
      In (vertex_index, weight) group ->
      vertex_index < 2).
Proof.
  apply (components_aligned example_layout example_vertices (decode_all example_vertices)).
  - split.
    + repeat constructor; simpl; intuition discriminate.
    + repeat constructor.
  - reflexivity.
Defined.

(** C6 (as the specification states it) fails on a buffer of two layouts:
    the decoder returns two positions and one normal, which is neither as
    many as the positions nor none, and the list of texcoord0 has one
    entry, the value of the second vertex at index 0. *)
Lemma mixed_layout_misaligned :
  exists vc,
    get_vertex_components mixed_vertices = Ok vc /\
    length (positions vc) = 2 /\
    length (normals vc) = 1 /\
    dict_get "texcoord0" (uv_map vc) = Some [Floats [1; 0]%Q] /\
    ~ (length (normals vc) = length (positions vc) \/ length (normals vc) = 0) /\
    ~ (forall name l,
          dict_get name (uv_map vc) = Some l -> length l = length (positions vc)).
Proof.
  eexists. split; [reflexivity|]. split; [reflexivity|]. split; [reflexivity|].
  split; [reflexivity|]. split.
  - simpl. intros [H|H]; discriminate.
  - intros Hall. specialize (Hall "texcoord0" [Floats [1; 0]%Q] eq_refl).
    simpl in Hall. discriminate.
Qed.

(** ** Blend weights *)

Lemma vertex_ok_blend (vertex : Vertex) (bw : value) :
  vertex_ok vertex = true ->
  dict_get "blendweights" vertex = Some bw ->
  exists bi, dict_get "blendindices" vertex = Some (Ints bi) /\
             4 <= value_length bw /\ 4 <= length bi.
Proof.
  unfold vertex_ok. intros Hok Hw. apply andb_true_iff in Hok.
  destruct Hok as [_ Hb]. rewrite Hw in Hb.
  destruct (dict_get "blendindices" vertex) as [[xs|bi]|]; try discriminate.
  apply andb_true_iff in Hb. destruct Hb as [Hlw Hli].
  apply Nat.leb_le in Hlw, Hli. exists bi. repeat split; assumption.
Qed.

Lemma vertex_groups_lookup (vertices : list Vertex) (k : Z) :
  dict_get k (vertex_groups (decode_all vertices)) =
  match entries_of k (flat_map blend_entries (enumerate vertices)) with
  | [] => None
  | g => Some g
  end.
Proof.
  rewrite vertex_groups_decode_all, dict_get_group_into. reflexivity.
Qed.

(** C2.  When the decoder returns, a vertex that has blend weights yields,
    for each slot i in [0, 4), one entry (vertex index, weight of slot i)
    under the bone index of slot i, the weight of a byte b being b/255.
    The list of a bone index in [vertex_groups] is exactly the sequence of
    the entries filed under it, in the order of the vertices and slots:
    nothing is dropped, merged or rescaled, and the vertex indices of a
    list ascend. *)
Theorem blend_weights_grouped (vertices : list Vertex) (vc : VertexComponents) :
  get_vertex_components vertices = Ok vc ->
  (forall vertex_index vertex,
      nth_error vertices vertex_index = Some vertex ->
      hasattr vertex "blendweights" = true ->
      exists blendweights blendindices,
        getattr vertex "blendweights" = Ok blendweights /\
        getattr vertex "blendindices" = Ok blendindices /\
        length (blend_entries (vertex_index, vertex)) = 4 /\
        forall i, i < 4 ->
          exists weight bone_index,
            item_div_255 blendweights i = Ok weight /\
            item_int blendindices i = Ok bone_index /\
            nth_error (blend_entries (vertex_index, vertex)) i =
            Some (bone_index, (vertex_index, weight))) /\
  (forall bytes i b,
      nth_error bytes i = Some b -> item_div_255 (Ints bytes) i = Ok (b # 255)%Q) /\
  (forall bone_index,
      dict_get bone_index (vertex_groups vc) =
      match entries_of bone_index (flat_map blend_entries (enumerate vertices)) with
      | [] => None
      | group => Some group
      end) /\
  (forall bone_index group,
      dict_get bone_index (vertex_groups vc) = Some group ->
      StronglySorted le (map fst group)).
Proof.
  intros Hrun. apply get_vertex_components_spec in Hrun. destruct Hrun as [Hok ->].
  split; [|split; [|split]].
  - intros vi v Hv Hhas. rewrite hasattr_get in Hhas.
    destruct (dict_get "blendweights" v) as [bw|] eqn:Hw; [|discriminate].
    rewrite forallb_forall in Hok.
    destruct (vertex_ok_blend v bw (Hok v (nth_error_In _ _ Hv)) Hw)
      as [bi [Hi [Hlw Hli]]].
    exists bw, (Ints bi). unfold getattr, blend_entries. rewrite Hw, Hi.
    repeat split.
    intros i Hlt. exists (weight_at bw i), (index_at (Ints bi) i).
    rewrite item_div_255_in_range by lia. rewrite item_int_in_range by lia.
    repeat split.
    destruct i as [|[|[|[|i]]]]; try lia; reflexivity.
  - intros bytes i b Hb. simpl. rewrite Hb. reflexivity.
  - intros k. apply vertex_groups_lookup.
  - intros k g Hget. rewrite vertex_groups_lookup in Hget.
    assert (Hg : g = entries_of k (flat_map blend_entries (enumerate vertices))).
    { destruct (entries_of k (flat_map blend_entries (enumerate vertices)));
        [discriminate | inversion Hget; reflexivity]. }
    subst g. unfold entries_of. rewrite map_map.
    apply (StronglySorted_filter_map (fun e => fst (snd e))).
    apply (blend_stream_sorted vertices 0).
Qed.

(** On the example: bone 0 receives the zero weights of the unused slots,
    one entry per slot, and bone 2 the weights 255/255 and 128/255, which
    are not rescaled. *)
Lemma blend_weights_grouped_witness :
  dict_get 0%Z (vertex_groups (decode_all example_vertices)) =
  Some [(0, (0 # 255)%Q); (0, (0 # 255)%Q); (0, (0 # 255)%Q);
        (1, (0 # 255)%Q); (1, (0 # 255)%Q)] /\
  dict_get 2%Z (vertex_groups (decode_all example_vertices)) =
  Some [(0, (255 # 255)%Q); (1, (128 # 255)%Q)] /\
  dict_get 3%Z (vertex_groups (decode_all example_vertices)) =
  Some [(1, (127 # 255)%Q)] /\
  dict_get 1%Z (vertex_groups (decode_all example_vertices)) = None.
Proof.
  pose proof (blend_weights_grouped example_vertices (decode_all example_vertices)
                eq_refl) as [_ [_ [Hgroups _]]].
  repeat split; apply Hgroups.
Defined.

(** ** Texture coordinates and colours *)

(** C3 (as the code has it).  When the decoder returns, the list of a name
    in [uv_map] is the sequence of the values of the fields of that name
    that contain "texcoord", over the vertices in order, and the names
    stand in [uv_map] in the order in which they were first seen;
    [color_map] holds the same for the fields whose name contains
    "colour". *)
Theorem channels_collected (vertices : list Vertex) (vc : VertexComponents) :
  get_vertex_components vertices = Ok vc ->
  (forall pat vertex name x,
      In (name, x) (channel_entries pat vertex) <->
      In (name, x) (items (asdict vertex)) /\ contains pat name = true) /\
  (forall name,
      dict_get name (uv_map vc) =
      match entries_of name (flat_map (channel_entries "texcoord") vertices) with
      | [] => None
      | l => Some (map tuple l)
      end) /\
  keys (uv_map vc) =
  first_seen [] (map fst (flat_map (channel_entries "texcoord") vertices)) /\
  (forall name,
      dict_get name (color_map vc) =
      match entries_of name (flat_map (channel_entries "colour") vertices) with
      | [] => None
      | l => Some (map tuple l)
      end) /\
  keys (color_map vc) =
  first_seen [] (map fst (flat_map (channel_entries "colour") vertices)).
Proof.
  intros Hrun. apply get_vertex_components_spec in Hrun. destruct Hrun as [_ ->].
  assert (Htuple : forall l : list value, map tuple l = l).
  { intros l. unfold tuple. apply map_id. }
  split; [|split; [|split; [|split]]].
  - intros pat v name x. unfold channel_entries, items. rewrite filter_In. reflexivity.
  - intros name. rewrite uv_map_decode_all, dict_get_group_into. cbn [dict_get].
    destruct (entries_of name _); [reflexivity|]. rewrite Htuple. reflexivity.
  - rewrite uv_map_decode_all, keys_group_into. reflexivity.
  - intros name. rewrite color_map_decode_all, dict_get_group_into. cbn [dict_get].
    destruct (entries_of name _); [reflexivity|]. rewrite Htuple. reflexivity.
  - rewrite color_map_decode_all, keys_group_into. reflexivity.
Qed.

Lemma channels_collected_witness :
  dict_get "texcoord0" (uv_map (decode_all example_vertices)) =
  Some [Floats [0; 0]%Q; Floats [1; 0]%Q] /\
  keys (uv_map (decode_all example_vertices)) = ["texcoord0"] /\
  keys (color_map (decode_all example_vertices)) = [].
Proof.
  pose proof (channels_collected example_vertices (decode_all example_vertices) eq_refl)
    as [_ [Huv [Hkeys [_ Hcol]]]].
  split; [apply Huv | split; [apply Hkeys | apply Hcol]].
Defined.

(** C3 (as the specification states it) fails for the spelling "color": a
    field named color0 contains "color", and the decoder returns without
    filing its value. *)
Lemma color_field_not_collected :
  contains "color" "color0" = true /\
  exists vc, get_vertex_components color_vertices = Ok vc /\
             dict_get "color0" (color_map vc) = None /\
             color_map vc = [].
Proof.
  split; [reflexivity|]. eexists. split; [reflexivity|]. split; reflexivity.
Qed.

(** ** Exceptions of the decoder *)

Lemma for_each_error {A S : Type} (P : pyexc -> Prop) (body : A -> S -> pyresult S)
    (l : list A) (st : S) (e : pyexc) :
  (forall x s e, In x l -> body x s = Err e -> P e) ->
  for_each body l st = Err e -> P e.
Proof.
  revert st. induction l as [|x l IH]; intros st Hbody Hrun; simpl in Hrun.
  - discriminate.
  - destruct (body x st) as [st'|e'] eqn:Hx; simpl in Hrun.
    + apply (IH st'); [|exact Hrun]. intros y s e0 Hy. apply Hbody. right. exact Hy.
    + inversion Hrun; subst. apply (Hbody x st e (or_introl eq_refl) Hx).
Qed.

Lemma item_div_255_error (v : value) (i : nat) (e : pyexc) :
  item_div_255 v i = Err e -> e = IndexError.
Proof.
  destruct v as [xs|xs]; simpl; destruct (nth_error xs i); simpl; congruence.
Qed.

Lemma blend_slot_error (vertex_index : nat) (vertex : Vertex) (bw : value) (bi : list Z)
    (i : nat) (groups : dict Z (list (nat * Q))) (e : pyexc) :
  dict_get "blendweights" vertex = Some bw ->
  dict_get "blendindices" vertex = Some (Ints bi) ->
  blend_slot vertex_index vertex i groups = Err e -> e = IndexError.
Proof.
  intros Hw Hi. unfold blend_slot, getattr. rewrite Hw, Hi. cbn [of_option bind].
  destruct (item_div_255 bw i) as [w|e'] eqn:Hd; cbn [bind].
  - cbn [item_int]. destruct (nth_error bi i); cbn [of_option bind].
    + rewrite append_under_eq. discriminate.
    + congruence.
  - intros Hrun. inversion Hrun; subst. apply (item_div_255_error bw i e Hd).
Qed.

(** A vertex with a position, and with integer blend indices beside its
    blend weights, raises nothing but IndexError. *)
Lemma vertex_step_error (vertex_index : nat) (vertex : Vertex) (vc : VertexComponents)
    (e : pyexc) :
  hasattr vertex "position" = true ->
  (hasattr vertex "blendweights" = true ->
   exists bi, dict_get "blendindices" vertex = Some (Ints bi)) ->
  vertex_step (vertex_index, vertex) vc = Err e -> e = IndexError.
Proof.
  rewrite !hasattr_get. intros Hp Hb.
  unfold vertex_step, getattr. rewrite !hasattr_get.
  destruct (dict_get "position" vertex) as [p|]; [|discriminate].
  cbn [of_option bind].
  assert (Hn : exists ns,
             (if match dict_get "normal" vertex with Some _ => true | None => false end
              then normal <- of_option AttributeError (dict_get "normal" vertex) ;;
                   Ok (normals vc ++ [Vector_of normal])
              else Ok (normals vc)) = Ok ns).
  { destruct (dict_get "normal" vertex); simpl; eexists; reflexivity. }
  destruct Hn as [ns ->]. cbn [bind].
  destruct (dict_get "blendweights" vertex) as [bw|] eqn:Hw.
  - destruct (Hb eq_refl) as [bi Hi].
    destruct (for_each (blend_slot vertex_index vertex) (seq 0 4) (vertex_groups vc))
      as [groups|e'] eqn:Hloop; cbn [bind].
    + unfold items. rewrite channel_loop. discriminate.
    + intros Hrun. inversion Hrun; subst.
      apply (for_each_error (fun e => e = IndexError) _ _ _ _
               (fun i s e0 _ => blend_slot_error vertex_index vertex bw bi i s e0 Hw Hi)
               Hloop).
  - cbn [bind]. unfold items. rewrite channel_loop. discriminate.
Qed.

(** C4 (as the code has it).  The decoder raises when a vertex has blend
    weights and fewer than four of them, or fewer than four integer blend
    indices; the exception is IndexError when every vertex has a position
    and integer blend indices beside its blend weights.  It returns when
    every vertex has a position and, beside blend weights, four weights
    and four integer blend indices at least: the two arrays need not have
    the same length, and no normal, blend, texcoord or colour field need
    be there. *)
Theorem blend_slots_checked (vertices : list Vertex) :
  ((exists vertex blendweights,
       In vertex vertices /\
       dict_get "blendweights" vertex = Some blendweights /\
       (value_length blendweights < 4 \/
        exists blendindices,
          dict_get "blendindices" vertex = Some (Ints blendindices) /\
          length blendindices < 4)) ->
   exists e, get_vertex_components vertices = Err e) /\
  (Forall (fun vertex =>
             hasattr vertex "position" = true /\
             (hasattr vertex "blendweights" = true ->
              exists blendindices,
                dict_get "blendindices" vertex = Some (Ints blendindices)))
          vertices ->
   forall e, get_vertex_components vertices = Err e -> e = IndexError) /\
  (Forall (fun vertex =>
             hasattr vertex "position" = true /\
             forall blendweights,
               dict_get "blendweights" vertex = Some blendweights ->
               4 <= value_length blendweights /\
               exists blendindices,
                 dict_get "blendindices" vertex = Some (Ints blendindices) /\
                 4 <= length blendindices)
          vertices ->
   get_vertex_components vertices = Ok (decode_all vertices)).
Proof.
  split; [|split].
  - intros [v [bw [Hin [Hw Hshort]]]].
    apply (run_raises vertices 0 empty_components).
    destruct (forallb vertex_ok vertices) eqn:Hall; [|reflexivity].
    rewrite forallb_forall in Hall.
    destruct (vertex_ok_blend v bw (Hall v Hin) Hw) as [bi [Hi [Hlw Hli]]].
    destruct Hshort as [Hs|[bi' [Hi' Hs]]]; [lia|].
    rewrite Hi in Hi'. inversion Hi'; subst. lia.
  - intros Hall e Hrun. unfold get_vertex_components in Hrun.
    apply (for_each_error (fun e => e = IndexError) vertex_step
             (enumerate vertices) empty_components e); [|exact Hrun].
    intros [i v] s e0 Hin Hstep. apply enumerate_from_in in Hin.
    destruct Hin as [_ Hin]. simpl in Hin.
    rewrite Forall_forall in Hall. destruct (Hall v Hin) as [Hp Hb].
    apply (vertex_step_error i v s e0 Hp Hb Hstep).
  - intros Hall. apply get_vertex_components_spec. split; [|reflexivity].
    apply forallb_forall. intros v Hin. rewrite Forall_forall in Hall.
    destruct (Hall v Hin) as [Hp Hb]. unfold vertex_ok. rewrite Hp. cbn [andb].
    destruct (dict_get "blendweights" v) as [bw|]; [|reflexivity].
    destruct (Hb bw eq_refl) as [Hlw [bi [Hi Hli]]]. rewrite Hi.
    apply andb_true_iff. split; apply Nat.leb_le; assumption.
Qed.

Lemma blend_slots_checked_witness :
  get_vertex_components short_vertices = Err IndexError /\
  get_vertex_components mismatched_vertices = Ok (decode_all mismatched_vertices) /\
  get_vertex_components bare_vertices = Ok (decode_all bare_vertices).
Proof.
  split; [|split].
  - destruct (proj1 (blend_slots_checked short_vertices)) as [e He].
    + exists [ ("position", Floats [0; 0; 0]%Q);
               ("blendweights", Ints [255; 0; 0]%Z);
               ("blendindices", Ints [2; 0; 0; 0]%Z) ], (Ints [255; 0; 0]%Z).
      split; [left; reflexivity|]. split; [reflexivity|]. left. simpl. lia.
    + rewrite He. f_equal.
      apply (proj1 (proj2 (blend_slots_checked short_vertices))); [|exact He].
      constructor; [|constructor]. split; [reflexivity|].
      intros _. exists [2; 0; 0; 0]%Z. reflexivity.
  - apply (proj2 (proj2 (blend_slots_checked mismatched_vertices))).
    constructor; [|constructor]. split; [reflexivity|].
    intros bw Hbw. inversion Hbw; subst. split; [simpl; lia|].
    exists [2; 0; 0; 0]%Z. split; [reflexivity | simpl; lia].
  - apply (proj2 (proj2 (blend_slots_checked bare_vertices))).
    constructor; [|constructor; [|constructor]];
      (split; [reflexivity | intros bw Hbw; discriminate]).
Defined.

(** C4 (as the specification states it) fails: five blend weights against
    four blend indices are slot counts that do not match, and the decoder
    returns, filing the first four slots. *)
Lemma mismatched_slot_counts_accepted :
  (exists blendweights blendindices,
      getattr (hd [] mismatched_vertices) "blendweights" = Ok blendweights /\
      getattr (hd [] mismatched_vertices) "blendindices" = Ok blendindices /\
      value_length blendweights = 5 /\ value_length blendindices = 4) /\
  (forall e, get_vertex_components mismatched_vertices <> Err e) /\
  exists vc, get_vertex_components mismatched_vertices = Ok vc /\
             vertex_groups vc =
             [ (2%Z, [(0, (255 # 255)%Q)]);
               (0%Z, [(0, (0 # 255)%Q); (0, (0 # 255)%Q); (0, (0 # 255)%Q)]) ].
Proof.
  split; [|split].
  - eexists. eexists. repeat split.
  - intros e. vm_compute. discriminate.
  - eexists. split; reflexivity.
Qed.

(** ** Names and order of the vertex groups *)

Lemma vertex_ok_slot_indices (vertex_index : nat) (vertex : Vertex) :
  vertex_ok vertex = true ->
  map fst (blend_entries (vertex_index, vertex)) = slot_indices vertex.
Proof.
  intros Hok. unfold blend_entries, slot_indices.
  destruct (dict_get "blendweights" vertex) as [bw|] eqn:Hw; [|reflexivity].
  destruct (vertex_ok_blend vertex bw Hok Hw) as [bi [Hi [_ Hli]]]. rewrite Hi.
  destruct bi as [|a [|b [|c [|d bi]]]]; simpl in Hli; try lia. reflexivity.
Qed.

Lemma blend_stream_keys (vertices : list Vertex) (start : nat) :
  forallb vertex_ok vertices = true ->
  map fst (flat_map blend_entries (enumerate_from start vertices)) =
  flat_map slot_indices vertices.
Proof.
  revert start. induction vertices as [|v vertices IH]; intros start Hall.
  - reflexivity.
  - simpl in Hall. apply andb_true_iff in Hall. destruct Hall as [Hv Hall].
    cbn [enumerate_from flat_map]. rewrite map_app, IH by exact Hall.
    rewrite (vertex_ok_slot_indices start v Hv). reflexivity.
Qed.

Lemma NoDup_vertex_groups (vertices : list Vertex) :
  NoDup (keys (vertex_groups (decode_all vertices))).
Proof.
  rewrite vertex_groups_decode_all. apply NoDup_keys_group_into. constructor.
Qed.

Lemma with_weights_fresh (names : list string) (vals : list (list (nat * Q))) :
  length names = length vals ->
  with_weights (map (fun n => bpy.mkVertexGroup n []) names) vals =
  map (fun nv => bpy.mkVertexGroup (fst nv) (snd nv)) (combine names vals).
Proof.
  revert vals. induction names as [|n names IH]; intros [|v vals] Hlen;
    try discriminate; [reflexivity|].
  unfold with_weights in *. simpl. rewrite IH by (simpl in Hlen; lia). reflexivity.
Qed.

(** [create_vertex_groups] on an object that has the groups [gs]. *)
Lemma create_vertex_groups_eq (bones : list BoneItem) (self self' : GeometryCWXMLConverter)
    (ob : bpy.Object) (vc : VertexComponents) :
  bpy_object self = Some ob ->
  components_of self = Ok vc ->
  create_vertex_groups bones self = Ok self' ->
  exists names,
    Forall2 (fun k n => group_name_for bones (bone_ids (cwxml self)) k = Ok n)
            (keys (vertex_groups vc)) names /\
    self' = set_bpy_object
              (bpy.mkObject (bpy.object_name ob)
                 (bpy.vertex_groups ob ++ map (fun n => bpy.mkVertexGroup n []) names))
              (set_vertex_components (Some vc) self).
Proof.
  intros Hob Hvc. unfold create_vertex_groups. rewrite Hob. cbn [of_option bind].
  rewrite vertex_components_eq, Hvc. cbn [bind].
  destruct (for_each _ (keys (vertex_groups vc)) ob) as [ob'|e] eqn:Hloop;
    cbn [bind]; [|discriminate].
  intros Hrun. inversion Hrun; subst self'. clear Hrun.
  destruct (group_loop bones _ _ ob ob' Hloop) as [names [Hall [Hname Hgs]]].
  exists names. split; [exact Hall|]. f_equal.
  destruct ob' as [n gs]. simpl in *. subst. reflexivity.
Qed.

Lemma Forall2_nth {A B : Type} (R : A -> B -> Prop) (l1 : list A) (l2 : list B) (i : nat)
    (a : A) :
  Forall2 R l1 l2 -> nth_error l1 i = Some a ->
  exists b, nth_error l2 i = Some b /\ R a b.
Proof.
  intros Hall. revert i. induction Hall as [|x y l1 l2 Hxy Hall IH]; intros i Hi.
  - destruct i; discriminate.
  - destruct i as [|i]; simpl in *.
    + inversion Hi; subst. exists y. split; [reflexivity | exact Hxy].
    + apply IH. exact Hi.
Qed.

Lemma Forall2_length_eq {A B : Type} (R : A -> B -> Prop) (l1 : list A) (l2 : list B) :
  Forall2 R l1 l2 -> length l1 = length l2.
Proof. induction 1; simpl; congruence. Qed.

Lemma combine_nth_error {A B : Type} (l1 : list A) (l2 : list B) (i : nat) (a : A) (b : B) :
  nth_error l1 i = Some a -> nth_error l2 i = Some b ->
  nth_error (combine l1 l2) i = Some (a, b).
Proof.
  revert l2 i. induction l1 as [|x l1 IH]; intros [|y l2] [|i]; simpl;
    try discriminate.
  - intros Ha Hb. inversion Ha; inversion Hb. reflexivity.
  - apply IH.
Qed.

(** C8 (as the code has it).  When the bone indices are not negative,
    [create_vertex_groups] creates one vertex group per key of
    [vertex_groups], in the order of the keys, after the groups the object
    has.  The group of a bone index is named after the bone of that index
    when the index is below the number of bones; else "EXTERNAL_BONE."
    followed by the index when the index is below the number of bone ids;
    else "UNKNOWN_BONE". *)
Theorem create_vertex_groups_names (bones : list BoneItem)
    (self : GeometryCWXMLConverter) (ob : bpy.Object) (vc : VertexComponents) :
  bpy_object self = Some ob ->
  components_of self = Ok vc ->
  Forall (fun bone_index => (0 <= bone_index)%Z) (keys (vertex_groups vc)) ->
  exists self' ob',
    create_vertex_groups bones self = Ok self' /\
    bpy_object self' = Some ob' /\
    bpy.vertex_groups ob' =
    bpy.vertex_groups ob ++
    map (fun bone_index =>
           bpy.mkVertexGroup
             (expected_group_name bones (bone_ids (cwxml self)) bone_index) [])
        (keys (vertex_groups vc)).
Proof.
  intros Hob Hvc Hpos. unfold create_vertex_groups. rewrite Hob. cbn [of_option bind].
  rewrite vertex_components_eq, Hvc. cbn [bind].
  rewrite (group_loop_nonneg bones _ _ ob Hpos). cbn [bind].
  eexists. eexists. split; [reflexivity|]. split; reflexivity.
Qed.

Lemma create_vertex_groups_names_witness :
  exists self' ob',
    create_vertex_groups [mkBoneItem "root"; mkBoneItem "spine"; mkBoneItem "head"]
      (fresh_object (example_geometry [] 0 [])) = Ok self' /\
    bpy_object self' = Some ob' /\
    bpy.vertex_groups ob' =
    [ bpy.mkVertexGroup "head" []; bpy.mkVertexGroup "root" [];
      bpy.mkVertexGroup "UNKNOWN_BONE" [] ].
Proof.
  apply (create_vertex_groups_names
           [mkBoneItem "root"; mkBoneItem "spine"; mkBoneItem "head"]
           (fresh_object (example_geometry [] 0 []))
           (bpy.mkObject "geometry" [])
           (decode_all example_vertices)).
  - reflexivity.
  - reflexivity.
  - repeat constructor; discriminate.
Defined.

(** C8 (as the specification states it) fails: with a list of bone ids
    supplied, a bone index that is not below its length gets the unknown
    name, not the external one. *)
Lemma external_name_needs_index_in_range :
  truthy (bone_ids (cwxml (fresh_object external_geometry))) = true /\
  claimed_group_name [] [7%Z] 3 = "EXTERNAL_BONE.3" /\
  group_name_for [] [7%Z] 3 = Ok "UNKNOWN_BONE" /\
  exists self' ob',
    create_vertex_groups [] (fresh_object external_geometry) = Ok self' /\
    bpy_object self' = Some ob' /\
    bpy.vertex_groups ob' = [ bpy.mkVertexGroup "UNKNOWN_BONE" [] ].
Proof.
  split; [reflexivity|]. split; [reflexivity|]. split; [reflexivity|].
  eexists. eexists. split; [reflexivity|]. split; reflexivity.
Qed.

(** C10.  When the decoder returns, the keys of [vertex_groups] stand in
    the order in which the bone indices first occur, the vertices being
    scanned in order and the slots of a vertex from 0 to 3; the i-th key
    and the i-th value are the two halves of one entry.  So on a new
    object, after [create_vertex_groups] and [set_geometry_weights], the
    i-th vertex group is the one named for the i-th bone index and it has
    received the weights filed under that bone index. *)
Theorem vertex_group_order (vertices : list Vertex) (vc : VertexComponents) :
  get_vertex_components vertices = Ok vc ->
  keys (vertex_groups vc) = first_seen [] (flat_map slot_indices vertices) /\
  (forall i bone_index,
      nth_error (keys (vertex_groups vc)) i = Some bone_index ->
      exists group,
        nth_error (values (vertex_groups vc)) i = Some group /\
        dict_get bone_index (vertex_groups vc) = Some group) /\
  (forall bones self ob self1,
      components_of self = Ok vc ->
      bpy_object self = Some ob ->
      bpy.vertex_groups ob = [] ->
      create_vertex_groups bones self = Ok self1 ->
      exists self2 ob2,
        set_geometry_weights self1 = Ok self2 /\
        bpy_object self2 = Some ob2 /\
        length (bpy.vertex_groups ob2) = length (keys (vertex_groups vc)) /\
        forall i bone_index,
          nth_error (keys (vertex_groups vc)) i = Some bone_index ->
          exists name group,
            group_name_for bones (bone_ids (cwxml self)) bone_index = Ok name /\
            dict_get bone_index (vertex_groups vc) = Some group /\
            nth_error (bpy.vertex_groups ob2) i = Some (bpy.mkVertexGroup name group)).
Proof.
  intros Hrun. apply get_vertex_components_spec in Hrun. destruct Hrun as [Hok ->].
  assert (Hpair : forall i k,
             nth_error (keys (vertex_groups (decode_all vertices))) i = Some k ->
             exists g, nth_error (values (vertex_groups (decode_all vertices))) i = Some g /\
                       dict_get k (vertex_groups (decode_all vertices)) = Some g).
  { intros i k Hk. destruct (keys_values_nth _ i k Hk) as [g [Hg _]].
    exists g. split; [exact Hg|].
    apply (dict_get_nth _ i k g (NoDup_vertex_groups vertices) Hk Hg). }
  split; [|split; [exact Hpair|]].
  - rewrite vertex_groups_decode_all, keys_group_into. cbn [keys map app].
    unfold enumerate. rewrite (blend_stream_keys vertices 0 Hok). reflexivity.
  - intros bones self ob self1 Hvc Hob Hnone Hcreate.
    destruct (create_vertex_groups_eq bones self self1 ob _ Hob Hvc Hcreate)
      as [names [Hnames ->]].
    rewrite Hnone. cbn [app].
    set (d := vertex_groups (decode_all vertices)) in *.
    set (ob1 := bpy.mkObject (bpy.object_name ob)
                  (map (fun n => bpy.mkVertexGroup n []) names)).
    set (s1 := set_bpy_object ob1 _).
    assert (Hlen : length names = length (values d)).
    { rewrite <- (Forall2_length_eq _ _ _ Hnames). unfold keys, values.
      rewrite !length_map. reflexivity. }
    unfold set_geometry_weights.
    rewrite (vertex_components_kept s1 (decode_all vertices) eq_refl). cbn [bind].
    fold d. unfold enumerate.
    assert (Hloop := weights_loop (values d) s1 ob1 []
                       (map (fun n => bpy.mkVertexGroup n []) names) eq_refl eq_refl).
    rewrite length_map in Hloop. specialize (Hloop Hlen). cbn [length app] in Hloop.
    rewrite Hloop. rewrite (with_weights_fresh names (values d) Hlen).
    eexists. eexists. split; [reflexivity|]. split; [reflexivity|].
    cbn [bpy.vertex_groups]. split.
    + rewrite length_map, length_combine, Hlen, Nat.min_id. unfold keys, values.
      rewrite !length_map. reflexivity.
    + intros i k Hk. destruct (Hpair i k Hk) as [g [Hg Hget]].
      destruct (Forall2_nth _ _ _ i k Hnames Hk) as [name [Hname Hfor]].
      exists name, g. split; [exact Hfor|]. split; [exact Hget|].
      rewrite nth_error_map, (combine_nth_error names (values d) i name g Hname Hg).
      reflexivity.
Qed.

Lemma vertex_group_order_witness :
  keys (vertex_groups (decode_all example_vertices)) = [2; 0; 3]%Z /\
  (forall i bone_index,
      nth_error (keys (vertex_groups (decode_all example_vertices))) i = Some bone_index ->
      exists group,
        nth_error (values (vertex_groups (decode_all example_vertices))) i = Some group /\
        dict_get bone_index (vertex_groups (decode_all example_vertices)) = Some group) /\
  exists self1 self2 ob2,
    create_vertex_groups [] (fresh_object (example_geometry [] 0 [])) = Ok self1 /\
    set_geometry_weights self1 = Ok self2 /\
    bpy_object self2 = Some ob2 /\
    length (bpy.vertex_groups ob2) = 3 /\
    forall i bone_index,
      nth_error [2; 0; 3]%Z i = Some bone_index ->
      exists name group,
        group_name_for [] [] bone_index = Ok name /\
        dict_get bone_index (vertex_groups (decode_all example_vertices)) = Some group /\
        nth_error (bpy.vertex_groups ob2) i = Some (bpy.mkVertexGroup name group).
Proof.
  destruct (vertex_group_order example_vertices (decode_all example_vertices) eq_refl)
    as [Hkeys [Hpair Hhost]].
  split; [exact Hkeys|]. split; [exact Hpair|].
  assert (Hcreate : exists self1,
             create_vertex_groups [] (fresh_object (example_geometry [] 0 [])) = Ok self1)
    by (eexists; reflexivity).
  destruct Hcreate as [self1 Hcreate].
  destruct (Hhost [] (fresh_object (example_geometry [] 0 [])) (bpy.mkObject "geometry" [])
              self1 eq_refl eq_refl eq_refl Hcreate) as [self2 [ob2 Hrest]].
  exists self1, self2, ob2. split; [exact Hcreate|]. exact Hrest.
Defined.

(** * Further properties of the decoder *)

Section FlatEntries.
Context {K X : Type} `{EqKey K}.

Lemma flat_entries_add_entry (k : K) (x : X) (d : dict K (list X)) :
  Permutation (flat_entries (add_entry k x d)) (flat_entries d ++ [(k, x)]).
Proof.
  unfold flat_entries, items. induction d as [|[k' l] d IH]; simpl.
  - apply Permutation_refl.
  - destruct (keqb_spec k k') as [->|Hn]; simpl.
    + rewrite map_app. simpl. rewrite <- !app_assoc.
      apply Permutation_app_head. apply Permutation_app_comm.
    + rewrite <- app_assoc. apply Permutation_app_head. exact IH.
Qed.

Lemma flat_entries_group_into (es : list (K * X)) (d : dict K (list X)) :
  Permutation (flat_entries (group_into d es)) (flat_entries d ++ es).
Proof.
  revert d. induction es as [|[k x] es IH]; intros d.
  - simpl. rewrite app_nil_r. apply Permutation_refl.
  - change (group_into d ((k, x) :: es)) with (group_into (add_entry k x d) es).
    eapply Permutation_trans; [apply IH|].
    eapply Permutation_trans;
      [apply Permutation_app_tail; apply flat_entries_add_entry|].
    rewrite <- app_assoc. apply Permutation_refl.
Qed.

Lemma values_add_entry_nonempty (k : K) (x : X) (d : dict K (list X)) :
  Forall (fun l => l <> []) (values d) ->
  Forall (fun l => l <> []) (values (add_entry k x d)).
Proof.
  unfold values. induction d as [|[k' l] d IH]; simpl; intros Hall.
  - repeat constructor. discriminate.
  - inversion Hall; subst. destruct (keqb k k'); simpl.
    + constructor; [|assumption]. intros E. apply app_eq_nil in E.
      destruct E as [_ E]. discriminate.
    + constructor; [assumption | apply IH; assumption].
Qed.

Lemma values_group_into_nonempty (es : list (K * X)) (d : dict K (list X)) :
  Forall (fun l => l <> []) (values d) ->
  Forall (fun l => l <> []) (values (group_into d es)).
Proof.
  revert d. induction es as [|[k x] es IH]; intros d Hall; [exact Hall|].
  change (group_into d ((k, x) :: es)) with (group_into (add_entry k x d) es).
  apply IH. apply values_add_entry_nonempty. exact Hall.
Qed.

Lemma length_flat_entries (d : dict K (list X)) :
  length (flat_entries d) = length (concat (values d)).
Proof.
  unfold flat_entries, items, values. induction d as [|[k l] d IH]; simpl.
  - reflexivity.
  - rewrite !length_app, length_map, IH. reflexivity.
Qed.
End FlatEntries.

Lemma length_blend_stream (vertices : list Vertex) (start : nat) :
  forallb vertex_ok vertices = true ->
  length (flat_map blend_entries (enumerate_from start vertices)) =
  4 * length (filter (fun vertex => hasattr vertex "blendweights") vertices).
Proof.
  revert start. induction vertices as [|v vertices IH]; intros start Hall.
  - reflexivity.
  - simpl in Hall. apply andb_true_iff in Hall. destruct Hall as [Hv Hall].
    cbn [enumerate_from flat_map filter]. rewrite length_app, IH by exact Hall.
    rewrite hasattr_get. unfold blend_entries.
    destruct (dict_get "blendweights" v) as [bw|] eqn:Hw.
    + destruct (vertex_ok_blend v bw Hv Hw) as [bi [Hi _]]. rewrite Hi.
      cbn [length map seq]. lia.
    + reflexivity.
Qed.

(** The decoder shares out the weight entries among the bone indices:
    distinct keys, no empty list, and the lists together hold the entries of
    the slots, each once; there are four of them per vertex that has blend
    weights. *)
Theorem vertex_groups_partition (vertices : list Vertex) (vc : VertexComponents) :
  get_vertex_components vertices = Ok vc ->
  NoDup (keys (vertex_groups vc)) /\
  Forall (fun group => group <> []) (values (vertex_groups vc)) /\
  Permutation (flat_entries (vertex_groups vc))
              (flat_map blend_entries (enumerate vertices)) /\
  length (concat (values (vertex_groups vc))) =
  4 * length (filter (fun vertex => hasattr vertex "blendweights") vertices).
Proof.
  intros Hrun. apply get_vertex_components_spec in Hrun. destruct Hrun as [Hok ->].
  split; [apply NoDup_vertex_groups|].
  rewrite vertex_groups_decode_all.
  split; [apply values_group_into_nonempty; constructor|].
  split; [apply (flat_entries_group_into _ [])|].
  rewrite <- length_flat_entries.
  rewrite (Permutation_length (flat_entries_group_into _ [])). cbn [flat_entries app].
  apply (length_blend_stream vertices 0 Hok).
Qed.

Lemma vertex_groups_partition_witness :
  NoDup (keys (vertex_groups (decode_all example_vertices))) /\
  Forall (fun group => group <> []) (values (vertex_groups (decode_all example_vertices))) /\
  Permutation (flat_entries (vertex_groups (decode_all example_vertices)))
              (flat_map blend_entries (enumerate example_vertices)) /\
  length (concat (values (vertex_groups (decode_all example_vertices)))) = 8.
Proof.
  apply (vertex_groups_partition example_vertices (decode_all example_vertices)).
  reflexivity.
Defined.

Lemma decode_all_app (vertices more : list Vertex) :
  decode_all (vertices ++ more) =
  fold_left decode_vertex (enumerate_from (length vertices) more) (decode_all vertices).
Proof.
  unfold decode_all, enumerate. rewrite enumerate_from_app, fold_left_app. reflexivity.
Qed.

Lemma forallb_vertex_ok_app (vertices more : list Vertex) :
  forallb vertex_ok (vertices ++ more) = true ->
  forallb vertex_ok vertices = true /\ forallb vertex_ok more = true.
Proof. rewrite forallb_app. apply andb_true_iff. Qed.

(** Decoding goes from left to right and never revises what it has filed:
    when a buffer followed by more vertices is decoded, the buffer alone
    is decoded too, and its positions, normals, keys and lists come first
    in the containers of the whole; what the further vertices add to a
    list carries vertex indices from the length of the buffer onwards. *)
Theorem decoder_extends (vertices more : list Vertex) (vc : VertexComponents) :
  get_vertex_components (vertices ++ more) = Ok vc ->
  exists vc0,
    get_vertex_components vertices = Ok vc0 /\
    positions vc = positions vc0 ++ flat_map position_of more /\
    normals vc = normals vc0 ++ flat_map normal_of more /\
    (exists new_keys, keys (vertex_groups vc) = keys (vertex_groups vc0) ++ new_keys) /\
    (exists new_names, keys (uv_map vc) = keys (uv_map vc0) ++ new_names) /\
    (exists new_names, keys (color_map vc) = keys (color_map vc0) ++ new_names) /\
    forall bone_index group0,
      dict_get bone_index (vertex_groups vc0) = Some group0 ->
      exists added,
        dict_get bone_index (vertex_groups vc) = Some (group0 ++ added) /\
        Forall (fun entry => length vertices <= fst entry) added.
Proof.
  intros Hrun. apply get_vertex_components_spec in Hrun. destruct Hrun as [Hok ->].
  destruct (forallb_vertex_ok_app _ _ Hok) as [Hok0 _].
  exists (decode_all vertices).
  split; [apply get_vertex_components_spec; split; [exact Hok0 | reflexivity]|].
  rewrite decode_all_app, decode_fold.
  cbn [positions normals uv_map color_map vertex_groups].
  rewrite (flat_map_enumerate position_of), (flat_map_enumerate normal_of).
  split; [reflexivity|]. split; [reflexivity|].
  split; [eexists; apply keys_group_into|].
  split; [eexists; apply keys_group_into|].
  split; [eexists; apply keys_group_into|].
  intros k g0 Hg0. rewrite dict_get_group_into, Hg0.
  eexists. split; [reflexivity|].
  apply Forall_forall. intros [vi w] Hin. apply in_entries_of in Hin.
  apply blend_stream_bounds in Hin. simpl in *. lia.
Qed.

Lemma decoder_extends_witness :
  exists vc0,
    get_vertex_components (bare_vertices ++ example_vertices) = Ok
      (decode_all (bare_vertices ++ example_vertices)) /\
    get_vertex_components bare_vertices = Ok vc0 /\
    positions (decode_all (bare_vertices ++ example_vertices)) =
    positions vc0 ++ flat_map position_of example_vertices.
Proof.
  destruct (decoder_extends bare_vertices example_vertices
              (decode_all (bare_vertices ++ example_vertices)) eq_refl)
    as [vc0 [Hrun [Hpos _]]].
  exists vc0. split; [reflexivity|]. split; [exact Hrun | exact Hpos].
Defined.

(** ** The exception of the first vertex that cannot be read *)

Lemma run_prefix (vertices : list Vertex) (vertex : Vertex) (more : list Vertex) :
  forallb vertex_ok vertices = true ->
  get_vertex_components (vertices ++ vertex :: more) =
  (vc <- vertex_step (length vertices, vertex) (decode_all vertices) ;;
   for_each vertex_step (enumerate_from (S (length vertices)) more) vc).
Proof.
  intros Hok. unfold get_vertex_components, enumerate.
  rewrite enumerate_from_app, for_each_app, (run_ok vertices 0 _ Hok).
  reflexivity.
Qed.

(** The vertices before the first one that cannot be read do not change
    the exception.  A vertex without position raises AttributeError.  A
    vertex with a position and blend weights but no blend indices raises
    AttributeError when it has one weight at least, and IndexError when
    it has no weight, for the weight of slot 0 is read first. *)
Theorem first_unreadable_vertex (vertices : list Vertex) (vertex : Vertex)
    (more : list Vertex) :
  forallb vertex_ok vertices = true ->
  (dict_get "position" vertex = None ->
   get_vertex_components (vertices ++ vertex :: more) = Err AttributeError) /\
  (forall blendweights,
      hasattr vertex "position" = true ->
      dict_get "blendweights" vertex = Some blendweights ->
      dict_get "blendindices" vertex = None ->
      get_vertex_components (vertices ++ vertex :: more) =
      Err (if value_length blendweights =? 0 then IndexError else AttributeError)).
Proof.
  intros Hok. split.
  - intros Hp. rewrite (run_prefix vertices vertex more Hok).
    unfold vertex_step, getattr. rewrite Hp. reflexivity.
  - intros bw Hp Hw Hi. rewrite (run_prefix vertices vertex more Hok).
    rewrite hasattr_get in Hp. unfold vertex_step, getattr. rewrite !hasattr_get.
    destruct (dict_get "position" vertex) as [p|]; [|discriminate].
    cbn [of_option bind]. rewrite Hw.
    assert (Hloop : for_each (blend_slot (length vertices) vertex) (seq 0 4)
                      (vertex_groups (decode_all vertices)) =
                    Err (if value_length bw =? 0 then IndexError else AttributeError)).
    { cbn [seq for_each]. unfold blend_slot at 1. unfold getattr. rewrite Hw, Hi.
      cbn [of_option bind].
      destruct (Nat.eqb_spec (value_length bw) 0) as [Hz|Hnz].
      - rewrite item_div_255_past_end by lia. reflexivity.
      - rewrite item_div_255_in_range by lia. reflexivity. }
    destruct (dict_get "normal" vertex); cbn [of_option bind]; rewrite Hloop; reflexivity.
Qed.

Lemma first_unreadable_vertex_witness :
  get_vertex_components (example_vertices ++ [("normal", Floats [0; 0; 1]%Q)] :: bare_vertices)
  = Err AttributeError /\
  get_vertex_components
    (example_vertices ++
     [("position", Floats [0; 0; 0]%Q); ("blendweights", Ints [])] :: bare_vertices)
  = Err IndexError.
Proof.
  split.
  - apply (proj1 (first_unreadable_vertex example_vertices
                    [("normal", Floats [0; 0; 1]%Q)] bare_vertices eq_refl)).
    reflexivity.
  - apply (proj2 (first_unreadable_vertex example_vertices
                    [("position", Floats [0; 0; 0]%Q); ("blendweights", Ints [])]
                    bare_vertices eq_refl) (Ints [])); reflexivity.
Defined.

(** ** The names of the channels *)

Lemma entries_of_passing (p : string -> bool) (name : string)
    (fields : list (string * value)) :
  p name = true ->
  entries_of name (filter (fun kv => p (fst kv)) fields) = entries_of name fields.
Proof.
  intros Hp. unfold entries_of. induction fields as [|[k x] fields IH].
  - reflexivity.
  - cbn [filter fst]. destruct (p k) eqn:Hk.
    + cbn [filter fst]. destruct (keqb name k); cbn [map]; rewrite IH; reflexivity.
    + change (@keqb string EqKey_string name k) with (String.eqb name k).
      destruct (String.eqb_spec name k) as [->|Hn]; [congruence | exact IH].
Qed.

Lemma channel_names (pat : string) (vertices : list Vertex) (name : string) :
  In name (map fst (flat_map (channel_entries pat) vertices)) <->
  contains pat name = true /\ exists vertex, In vertex vertices /\ In name (keys vertex).
Proof.
  rewrite in_map_iff. split.
  - intros [[k x] [Hk Hin]]. simpl in Hk. subst k.
    apply in_flat_map in Hin. destruct Hin as [v [Hv Hin]].
    unfold channel_entries, asdict in Hin. apply filter_In in Hin.
    destruct Hin as [Hin Hp]. split; [exact Hp|]. exists v. split; [exact Hv|].
    unfold keys. apply in_map_iff. exists (name, x). split; [reflexivity | exact Hin].
  - intros [Hp [v [Hv Hin]]]. unfold keys in Hin. apply in_map_iff in Hin.
    destruct Hin as [[k x] [Hk Hin]]. simpl in Hk. subst k.
    exists (name, x). split; [reflexivity|]. apply in_flat_map. exists v.
    split; [exact Hv|]. unfold channel_entries, asdict. apply filter_In.
    split; [exact Hin | exact Hp].
Qed.

Lemma keys_first_seen_in {K : Type} `{EqKey K} (ks : list K) (k : K) :
  In k (first_seen [] ks) <-> In k ks.
Proof.
  destruct (first_seen_spec [] ks (NoDup_nil K)) as [_ Hin].
  rewrite Hin. simpl. tauto.
Qed.

(** The names of [uv_map] are exactly the names containing "texcoord"
    that some vertex has as a field, and those of [color_map] the names
    containing "colour"; no name stands twice and no list is empty. *)
Theorem channel_maps_keys (vertices : list Vertex) (vc : VertexComponents) :
  get_vertex_components vertices = Ok vc ->
  (forall name,
      In name (keys (uv_map vc)) <->
      contains "texcoord" name = true /\
      exists vertex, In vertex vertices /\ hasattr vertex name = true) /\
  (forall name,
      In name (keys (color_map vc)) <->
      contains "colour" name = true /\
      exists vertex, In vertex vertices /\ hasattr vertex name = true) /\
  NoDup (keys (uv_map vc)) /\ NoDup (keys (color_map vc)) /\
  Forall (fun l => l <> []) (values (uv_map vc)) /\
  Forall (fun l => l <> []) (values (color_map vc)).
Proof.
  intros Hrun. apply get_vertex_components_spec in Hrun. destruct Hrun as [_ ->].
  rewrite uv_map_decode_all, color_map_decode_all.
  assert (Hhas : forall (v : Vertex) name, hasattr v name = true <-> In name (keys v)).
  { intros v name. rewrite hasattr_get, dict_get_in_keys.
    destruct (dict_get name v) as [x|]; split; intros Hx;
      try discriminate; try reflexivity; [exists x; reflexivity|].
    destruct Hx as [y Hy]. discriminate. }
  assert (Hkeys : forall pat name,
             In name (keys (group_into [] (flat_map (channel_entries pat) vertices))) <->
             contains pat name = true /\
             exists vertex, In vertex vertices /\ hasattr vertex name = true).
  { intros pat name. rewrite keys_group_into. cbn [keys map app].
    rewrite keys_first_seen_in, channel_names. split.
    - intros [Hp [v [Hv Hin]]]. split; [exact Hp|]. exists v. split; [exact Hv|].
      apply Hhas. exact Hin.
    - intros [Hp [v [Hv Hin]]]. split; [exact Hp|]. exists v. split; [exact Hv|].
      apply Hhas. exact Hin. }
  split; [apply Hkeys|]. split; [apply Hkeys|].
  split; [apply NoDup_keys_group_into; constructor|].
  split; [apply NoDup_keys_group_into; constructor|].
  split; apply values_group_into_nonempty; constructor.
Qed.

Lemma channel_maps_keys_witness :
  (forall name,
      In name (keys (uv_map (decode_all example_vertices))) <->
      contains "texcoord" name = true /\
      exists vertex, In vertex example_vertices /\ hasattr vertex name = true) /\
  NoDup (keys (uv_map (decode_all example_vertices))).
Proof.
  destruct (channel_maps_keys example_vertices (decode_all example_vertices) eq_refl)
    as [Huv [_ [Hnd _]]].
  split; [exact Huv | exact Hnd].
Defined.

Lemma dict_get_In {K V : Type} `{EqKey K} (k : K) (v : V) (d : dict K V) :
  dict_get k d = Some v -> In (k, v) d.
Proof.
  induction d as [|[k' v'] d IH]; simpl; [discriminate|].
  destruct (keqb_spec k k') as [->|Hn].
  - intros Hv. inversion Hv. left. reflexivity.
  - intros Hv. right. apply IH. exact Hv.
Qed.

(** The two tests on a field name are independent: when some vertex has a
    field whose name contains both "texcoord" and "colour", the name is a
    key of [uv_map] and of [color_map], and both hold under it the same
    list, which is not empty: the values of the fields of that name over
    the vertices, in order. *)
Theorem channel_in_both_maps (vertices : list Vertex) (vc : VertexComponents)
    (name : string) :
  get_vertex_components vertices = Ok vc ->
  contains "texcoord" name = true ->
  contains "colour" name = true ->
  (exists vertex, In vertex vertices /\ hasattr vertex name = true) ->
  exists l,
    l <> [] /\
    l = map tuple (entries_of name (flat_map asdict vertices)) /\
    dict_get name (uv_map vc) = Some l /\
    dict_get name (color_map vc) = Some l /\
    In name (keys (uv_map vc)) /\
    In name (keys (color_map vc)).
Proof.
  intros Hrun Ht Hc [v [Hv Hhas]].
  apply get_vertex_components_spec in Hrun. destruct Hrun as [_ ->].
  assert (Hpass : forall pat, contains pat name = true ->
             entries_of name (flat_map (channel_entries pat) vertices) =
             entries_of name (flat_map asdict vertices)).
  { intros pat Hp. rewrite !entries_of_flat_map. apply flat_map_agree.
    intros v0 _. apply (entries_of_passing (contains pat)). exact Hp. }
  assert (Hne : entries_of name (flat_map asdict vertices) <> []).
  { rewrite hasattr_get in Hhas.
    destruct (dict_get name v) as [x|] eqn:Hx; [|discriminate].
    assert (Hin : In x (entries_of name (flat_map asdict vertices))).
    { apply in_entries_of. apply in_flat_map. exists v. split; [exact Hv|].
      unfold asdict. apply dict_get_In. exact Hx. }
    intros E. rewrite E in Hin. destruct Hin. }
  assert (Htuple : forall l : list value, map tuple l = l).
  { intros l. unfold tuple. apply map_id. }
  assert (Huv : dict_get name (uv_map (decode_all vertices)) =
                Some (entries_of name (flat_map asdict vertices))).
  { rewrite uv_map_decode_all, dict_get_group_into. cbn [dict_get].
    rewrite (Hpass "texcoord" Ht).
    destruct (entries_of name (flat_map asdict vertices)); [contradiction | reflexivity]. }
  assert (Hcol : dict_get name (color_map (decode_all vertices)) =
                 Some (entries_of name (flat_map asdict vertices))).
  { rewrite color_map_decode_all, dict_get_group_into. cbn [dict_get].
    rewrite (Hpass "colour" Hc).
    destruct (entries_of name (flat_map asdict vertices)); [contradiction | reflexivity]. }
  exists (entries_of name (flat_map asdict vertices)).
  split; [exact Hne|]. split; [symmetry; apply Htuple|].
  split; [exact Huv|]. split; [exact Hcol|].
  split; apply dict_get_in_keys; eexists; eassumption.
Qed.

Lemma channel_in_both_maps_witness :
  exists l,
    l <> [] /\
    l = [Floats [1; 0]%Q] /\
    dict_get "texcoord_colour"
      (uv_map (decode_all [ [ ("position", Floats [0; 0; 0]%Q);
                              ("texcoord_colour", Floats [1; 0]%Q) ] ])) = Some l /\
    dict_get "texcoord_colour"
      (color_map (decode_all [ [ ("position", Floats [0; 0; 0]%Q);
                                 ("texcoord_colour", Floats [1; 0]%Q) ] ])) = Some l /\
    In "texcoord_colour"
      (keys (uv_map (decode_all [ [ ("position", Floats [0; 0; 0]%Q);
                                    ("texcoord_colour", Floats [1; 0]%Q) ] ]))) /\
    In "texcoord_colour"
      (keys (color_map (decode_all [ [ ("position", Floats [0; 0; 0]%Q);
                                       ("texcoord_colour", Floats [1; 0]%Q) ] ]))).
Proof.
  apply (channel_in_both_maps
           [ [ ("position", Floats [0; 0; 0]%Q); ("texcoord_colour", Floats [1; 0]%Q) ] ]
           _ "texcoord_colour"); try reflexivity.
  eexists. split; [left; reflexivity | reflexivity].
Defined.

(** * Further properties of the faces *)

(** Reshaping loses nothing and makes no empty face: for every index
    buffer the faces put end to end give the buffer back, there are
    ceil(len/3) of them, and each holds one, two or three indices. *)
Theorem split_indices_shape (indices : list Z) :
  concat (split_indices indices) = indices /\
  length (split_indices indices) = (length indices + 2) / 3 /\
  Forall (fun face => 1 <= length face <= 3) (split_indices indices).
Proof.
  split; [apply concat_split_indices|].
  induction indices as [| a | a b | a b c r [IHlen IHall]] using list_ind3.
  - split; [reflexivity | constructor].
  - split; [reflexivity | repeat constructor].
  - split; [reflexivity | repeat constructor].
  - rewrite split_indices_cons3. cbn [length]. split.
    + rewrite IHlen. replace (S (S (S (length r))) + 2) with (length r + 2 + 1 * 3) by lia.
      rewrite Nat.div_add by lia. lia.
    + constructor; [simpl; lia | exact IHall].
Qed.

(** * Further properties of the converter *)

Lemma set_mesh_same (self : GeometryCWXMLConverter) (m : bpy.Mesh) :
  mesh self = Some m -> set_mesh m self = self.
Proof. destruct self as [c v ms o r]. simpl. intros ->. reflexivity. Qed.

Lemma add_uv_layers_nil (m : bpy.Mesh) : add_uv_layers [] m = m.
Proof. destruct m. unfold add_uv_layers. simpl. rewrite app_nil_r. reflexivity. Qed.

Lemma add_color_layers_nil (m : bpy.Mesh) : add_color_layers [] m = m.
Proof. destruct m. unfold add_color_layers. simpl. rewrite app_nil_r. reflexivity. Qed.

Lemma uv_loop_exact (l : list (nat * (string * list value)))
    (self : GeometryCWXMLConverter) (m : bpy.Mesh) :
  mesh self = Some m ->
  for_each (fun '(i, (name, coords)) self =>
              m <- of_option AttributeError (mesh self) ;;
              Ok (set_mesh (create_uv_layer m i name coords) self)) l self =
  Ok (set_mesh (add_uv_layers (map flat_layer l) m) self).
Proof.
  revert self m. induction l as [|[i [name coords]] l IH]; intros self m Hm.
  - simpl. rewrite add_uv_layers_nil, (set_mesh_same self m Hm). reflexivity.
  - cbn [for_each]. rewrite Hm. cbn [of_option bind].
    rewrite (IH (set_mesh (create_uv_layer m i name coords) self)
               (create_uv_layer m i name coords) eq_refl).
    unfold add_uv_layers, create_uv_layer, set_mesh. simpl.
    rewrite <- app_assoc. reflexivity.
Qed.

Lemma color_loop_exact (l : list (nat * (string * list value)))
    (self : GeometryCWXMLConverter) (m : bpy.Mesh) :
  mesh self = Some m ->
  for_each (fun '(i, (name, coords)) self =>
              m <- of_option AttributeError (mesh self) ;;
              Ok (set_mesh (create_vertexcolor_layer m i name coords) self)) l self =
  Ok (set_mesh (add_color_layers (map flat_layer l) m) self).
Proof.
  revert self m. induction l as [|[i [name coords]] l IH]; intros self m Hm.
  - simpl. rewrite add_color_layers_nil, (set_mesh_same self m Hm). reflexivity.
  - cbn [for_each]. rewrite Hm. cbn [of_option bind].
    rewrite (IH (set_mesh (create_vertexcolor_layer m i name coords) self)
               (create_vertexcolor_layer m i name coords) eq_refl).
    unfold add_color_layers, create_vertexcolor_layer, set_mesh. simpl.
    rewrite <- app_assoc. reflexivity.
Qed.






(** ** The mesh of [create_mesh] *)

Lemma create_mesh_raises (name : string) (materials : list bpy.Material)
    (self : GeometryCWXMLConverter) (e : pyexc) :
  components_of self = Err e -> create_mesh name materials self = Err e.
Proof.
  intros Hvc. unfold create_mesh. rewrite vertex_components_eq.
  assert (Hc : components_of (set_mesh (bpy.new_mesh name) self) = Err e) by exact Hvc.
  rewrite Hc. reflexivity.
Qed.

(** [create_mesh] raises exactly when the vertex components cannot be
    had, and then with the exception of the decoder: no index buffer, no
    shader index and no list of materials makes it raise, and neither
    does the state of the mesh or of the object before the call. *)
Theorem create_mesh_raises_with_decoder (name : string) (materials : list bpy.Material)
    (self : GeometryCWXMLConverter) (e : pyexc) :
  create_mesh name materials self = Err e <-> components_of self = Err e.
Proof.
  split.
  - intros Hrun. destruct (components_of self) as [vc|e'] eqn:Hvc.
    + destruct (create_mesh_ok name materials self vc Hvc) as [m [self' [Hok _]]].
      rewrite Hok in Hrun. discriminate.
    + rewrite (create_mesh_raises name materials self e' Hvc) in Hrun.
      inversion Hrun. reflexivity.
  - apply create_mesh_raises.
Qed.

Lemma create_mesh_raises_with_decoder_witness :
  create_mesh "geometry" [] (init (mkGeometryItem short_vertices [0; 1; 2]%Z 0 []))
  = Err IndexError.
Proof.
  apply (proj2 (create_mesh_raises_with_decoder "geometry" []
                  (init (mkGeometryItem short_vertices [0; 1; 2]%Z 0 [])) IndexError)).
  reflexivity.
Defined.

Lemma set_smooth_normals_exact (self : GeometryCWXMLConverter) (m : bpy.Mesh)
    (vc : VertexComponents) :
  mesh self = Some m -> _vertex_components self = Some vc ->
  set_smooth_normals self =
  Ok (set_mesh (set_normals (repeat true (length (bpy.faces m))) (normals vc) m) self).
Proof.
  intros Hm Hvc. unfold set_smooth_normals. rewrite Hm. cbn [of_option bind].
  rewrite (vertex_components_kept self vc Hvc). reflexivity.
Qed.

(** The mesh [create_mesh] returns is a new one, whatever mesh the
    converter held: it has the given name, the decoded positions as
    vertices, the faces of the index buffer, the decoded normals as custom
    normals with auto smooth on, and one uv layer and one colour layer per
    entry of the maps, numbered in the order of the maps.  It has the
    material of the shader index when that is in range, and then nothing
    is reported; else it has no material and one warning is reported.
    The converter keeps this mesh and the decoded components. *)
Theorem create_mesh_result (name : string) (materials : list bpy.Material)
    (self : GeometryCWXMLConverter) (vc : VertexComponents) :
  components_of self = Ok vc ->
  exists m self',
    create_mesh name materials self = Ok (m, self') /\
    mesh self' = Some m /\
    _vertex_components self' = Some vc /\
    cwxml self' = cwxml self /\
    bpy_object self' = bpy_object self /\
    bpy.name m = name /\
    bpy.vertices m = positions vc /\
    bpy.faces m = split_indices (index_buffer (cwxml self)) /\
    bpy.custom_normals m = normals vc /\
    bpy.use_auto_smooth m = true /\
    bpy.uv_layers m = map flat_layer (enumerate (items (uv_map vc))) /\
    bpy.vertex_colors m = map flat_layer (enumerate (items (color_map vc))) /\
    (shader_in_range materials self ->
     exists material,
       nth_error materials (Z.to_nat (shader_index (cwxml self))) = Some material /\
       bpy.materials m = [material] /\
       reports self' = reports self) /\
    (~ shader_in_range materials self ->
     bpy.materials m = [] /\
     reports self' =
     reports self ++
     [("WARNING", material_warning (Some (bpy.new_mesh name)) (shader_index (cwxml self)))]).
Proof.
  intros Hvc. unfold create_mesh. rewrite vertex_components_eq.
  assert (Hc : components_of (set_mesh (bpy.new_mesh name) self) = Ok vc) by exact Hvc.
  rewrite Hc. cbn [bind of_option mesh set_vertex_components set_mesh].
  set (m0 := from_pydata (positions vc) (split_indices (index_buffer (cwxml self)))
               (bpy.new_mesh name)).
  set (s0 := set_mesh m0 _).
  assert (Hstep : forall s1 m1,
             mesh s1 = Some m1 -> _vertex_components s1 = Some vc ->
             (self <- set_smooth_normals s1 ;;
              self <- create_uv_layers self ;;
              self <- create_vertex_color_layers self ;;
              m <- of_option AttributeError (mesh self) ;; Ok (m, self)) =
             (let m := add_color_layers (map flat_layer (enumerate (items (color_map vc))))
                         (add_uv_layers (map flat_layer (enumerate (items (uv_map vc))))
                            (set_normals (repeat true (length (bpy.faces m1)))
                               (normals vc) m1)) in
              Ok (m, set_mesh m s1))).
  { intros s1 m1 Hm1 Hv1. rewrite (set_smooth_normals_exact s1 m1 vc Hm1 Hv1).
    cbn [bind]. unfold create_uv_layers.
    set (m2 := set_normals _ _ m1).
    rewrite (vertex_components_kept (set_mesh m2 s1) vc Hv1). cbn [bind].
    rewrite (uv_loop_exact _ (set_mesh m2 s1) m2 eq_refl). cbn [bind].
    unfold create_vertex_color_layers.
    set (m3 := add_uv_layers _ m2).
    rewrite (vertex_components_kept (set_mesh m3 (set_mesh m2 s1)) vc Hv1). cbn [bind].
    rewrite (color_loop_exact _ (set_mesh m3 (set_mesh m2 s1)) m3 eq_refl).
    reflexivity. }
  destruct (Z_lt_le_dec (shader_index (cwxml self)) 0) as [Hneg|Hpos];
    [|destruct (Z_lt_le_dec (shader_index (cwxml self)) (Z.of_nat (length materials)))
        as [Hlt|Hge]].
  - rewrite (create_material_out_of_range materials s0) by (left; exact Hneg).
    cbn [bind]. rewrite (Hstep (report _ _ s0) m0 eq_refl eq_refl).
    eexists. eexists. split; [reflexivity|]. repeat (split; [reflexivity|]). split.
    + unfold shader_in_range. lia.
    + intros _. split; reflexivity.
  - destruct (create_material_in_range materials s0 m0) as [material [Hnth Hrun]];
      [split; assumption | reflexivity |].
    rewrite Hrun. cbn [bind].
    rewrite (Hstep (set_mesh (append_material material m0) s0)
               (append_material material m0) eq_refl eq_refl).
    eexists. eexists. split; [reflexivity|]. repeat (split; [reflexivity|]). split.
    + intros _. exists material. split; [exact Hnth|]. split; reflexivity.
    + unfold shader_in_range. intros Hn. exfalso. apply Hn. split; assumption.
  - rewrite (create_material_out_of_range materials s0) by (right; exact Hge).
    cbn [bind]. rewrite (Hstep (report _ _ s0) m0 eq_refl eq_refl).
    eexists. eexists. split; [reflexivity|]. repeat (split; [reflexivity|]). split.
    + unfold shader_in_range. lia.
    + intros _. split; reflexivity.
Qed.

Lemma create_mesh_result_witness :
  exists m self',
    create_mesh "geometry" [bpy.mkMaterial "paint"]
      (init (example_geometry [0; 1; 0]%Z 0 [])) = Ok (m, self') /\
    mesh self' = Some m /\
    bpy.vertices m = [Floats [0; 0; 0]%Q; Floats [1; 0; 0]%Q] /\
    bpy.faces m = [[0; 1; 0]%Z] /\
    bpy.uv_layers m = [(0, "texcoord0", [Floats [0; 0]%Q; Floats [1; 0]%Q])] /\
    bpy.materials m = [bpy.mkMaterial "paint"] /\
    reports self' = [].
Proof.
  destruct (create_mesh_result "geometry" [bpy.mkMaterial "paint"]
              (init (example_geometry [0; 1; 0]%Z 0 []))
              (decode_all example_vertices) eq_refl)
    as [m [self' [Hrun [Hm [_ [_ [_ [_ [Hv [Hf [_ [_ [Hu [_ [Hin _]]]]]]]]]]]]]]].
  destruct Hin as [material [Hnth [Hmat Hrep]]]; [unfold shader_in_range; simpl; lia|].
  exists m, self'. repeat split; try assumption.
  simpl in Hnth. inversion Hnth; subst. exact Hmat.
Defined.

(** ** The kept components *)

(** The vertex components are decoded on the first access and kept: the
    access returns a converter that holds the value, differs from the
    first in nothing else, and gives the same value again without a
    change.  A value that is already held, put there by an earlier access
    or by the setter, is returned as it is; the vertex buffer is then not
    read, so that even a buffer the decoder cannot read raises nothing. *)
Theorem components_decoded_once (self : GeometryCWXMLConverter) :
  (forall vc self1,
      vertex_components self = Ok (vc, self1) ->
      self1 = set_vertex_components (Some vc) self /\
      vertex_components self1 = Ok (vc, self1) /\
      (_vertex_components self = None ->
       get_vertex_components (vertex_buffer (cwxml self)) = Ok vc)) /\
  (forall vc,
      vertex_components (set_vertex_components (Some vc) self) =
      Ok (vc, set_vertex_components (Some vc) self)) /\
  (forall e,
      vertex_components self = Err e <->
      _vertex_components self = None /\
      get_vertex_components (vertex_buffer (cwxml self)) = Err e).
Proof.
  split; [|split].
  - intros vc self1 Hrun. rewrite vertex_components_eq in Hrun.
    destruct (components_of self) as [vc'|e] eqn:Hvc; [|discriminate].
    cbn [bind] in Hrun. inversion Hrun; subst. split; [reflexivity|].
    split; [reflexivity|]. intros Hnone. unfold components_of in Hvc.
    rewrite Hnone in Hvc. exact Hvc.
  - intros vc. reflexivity.
  - intros e. unfold vertex_components.
    destruct (_vertex_components self) as [vc|].
    + split; [discriminate | intros [Hn _]; discriminate].
    + destruct (get_vertex_components (vertex_buffer (cwxml self))) as [vc|e'];
        cbn [bind]; split.
      * discriminate.
      * intros [_ Hd]. discriminate.
      * intros Hd. inversion Hd. split; reflexivity.
      * intros [_ Hd]. inversion Hd. reflexivity.
Qed.

Lemma components_decoded_once_witness :
  exists self1,
    vertex_components (init (example_geometry [] 0 [])) =
    Ok (decode_all example_vertices, self1) /\
    vertex_components self1 = Ok (decode_all example_vertices, self1) /\
    vertex_components
      (set_vertex_components (Some empty_components)
         (init (mkGeometryItem short_vertices [] 0 []))) =
    Ok (empty_components,
        set_vertex_components (Some empty_components)
          (init (mkGeometryItem short_vertices [] 0 []))).
Proof.
  exists (set_vertex_components (Some (decode_all example_vertices))
            (init (example_geometry [] 0 []))).
  split; [reflexivity|].
  destruct (proj1 (components_decoded_once (init (example_geometry [] 0 [])))
              (decode_all example_vertices) _ eq_refl) as [_ [Hagain _]].
  split; [exact Hagain|].
  apply (proj1 (proj2 (components_decoded_once
                         (init (mkGeometryItem short_vertices [] 0 []))))).
Defined.

(** ** Materials without a mesh *)

(** [create_material] needs the mesh only to assign: without a mesh a
    shader index in range raises AttributeError, and one out of range is
    reported as usual, the mesh being written as None; with no materials
    every shader index is out of range. *)
Theorem create_material_without_mesh (materials : list bpy.Material)
    (self : GeometryCWXMLConverter) :
  mesh self = None ->
  (shader_in_range materials self ->
   create_material materials self = Err AttributeError) /\
  (~ shader_in_range materials self ->
   create_material materials self =
   Ok (report "WARNING"
         (String.concat ""
            [ "Material not set for None. Shader index of ";
              str_of_Z (shader_index (cwxml self)); " not found!" ])
         self)) /\
  (materials = [] -> ~ shader_in_range materials self).
Proof.
  intros Hm. unfold shader_in_range. split; [|split].
  - intros Hin. unfold create_material.
    destruct (Z.leb_spec 0 (shader_index (cwxml self))); [|lia].
    destruct (Z.ltb_spec (shader_index (cwxml self)) (Z.of_nat (length materials)));
      [|lia].
    simpl. rewrite Hm. reflexivity.
  - intros Hout. rewrite create_material_out_of_range by lia.
    unfold material_warning. rewrite Hm. reflexivity.
  - intros ->. simpl. lia.
Qed.

Lemma create_material_without_mesh_witness :
  create_material [bpy.mkMaterial "paint"] (init (example_geometry [] 0 []))
  = Err AttributeError /\
  create_material [] (init (example_geometry [] 0 [])) =
  Ok (report "WARNING" "Material not set for None. Shader index of 0 not found!"
        (init (example_geometry [] 0 []))).
Proof.
  split.
  - apply (proj1 (create_material_without_mesh [bpy.mkMaterial "paint"]
                    (init (example_geometry [] 0 [])) eq_refl)).
    unfold shader_in_range. simpl. lia.
  - apply (proj1 (proj2 (create_material_without_mesh []
                           (init (example_geometry [] 0 [])) eq_refl))).
    unfold shader_in_range. simpl. lia.
Defined.

(** * Further properties of the vertex groups *)

Lemma group_name_for_error (bones : list BoneItem) (bone_ids : list Z) (k : Z)
    (e : pyexc) :
  group_name_for bones bone_ids k = Err e -> e = IndexError.
Proof.
  unfold group_name_for, py_index.
  destruct (truthy bones && (k <? Z.of_nat (length bones))%Z).
  - destruct (0 <=? k)%Z.
    + destruct (nth_error bones (Z.to_nat k)); simpl; congruence.
    + destruct (- Z.of_nat (length bones) <=? k)%Z; [|simpl; congruence].
      destruct (nth_error bones (Z.to_nat (Z.of_nat (length bones) + k)));
        simpl; congruence.
  - destruct (truthy bone_ids && (k <? Z.of_nat (length bone_ids))%Z); discriminate.
Qed.

Lemma group_step_error (bones : list BoneItem) (bone_ids : list Z) (k : Z)
    (ob : bpy.Object) (e : pyexc) :
  (bone_name <- group_name_for bones bone_ids k ;; Ok (new_group bone_name ob)) = Err e ->
  e = IndexError.
Proof.
  destruct (group_name_for bones bone_ids k) as [n|e'] eqn:Hg; cbn [bind].
  - discriminate.
  - intros Hk. inversion Hk; subst. exact (group_name_for_error _ _ _ _ Hg).
Qed.

Lemma group_name_for_below (bones : list BoneItem) (bone_ids : list Z) (k : Z) :
  bones <> [] -> (k < - Z.of_nat (length bones))%Z ->
  group_name_for bones bone_ids k = Err IndexError.
Proof.
  intros Hne Hk. unfold group_name_for, py_index. rewrite truthy_length.
  destruct bones as [|b bones]; [contradiction|]. cbn [length] in *.
  destruct (Nat.ltb_spec 0 (S (length bones))); [|lia].
  destruct (Z.ltb_spec k (Z.of_nat (S (length bones)))); [|lia]. cbn [andb].
  destruct (Z.leb_spec 0 k); [lia|].
  destruct (Z.leb_spec (- Z.of_nat (S (length bones))) k); [lia|]. reflexivity.
Qed.

(** A negative bone index is not refused.  With bones it counts from the
    end of the list, as far as the list goes, and past that
    [create_vertex_groups] raises IndexError; without bones it gets the
    external name when there are bone ids, the unknown name when there are
    none. *)
Theorem negative_bone_index (bones : list BoneItem) (ids : list Z)
    (bone_index : Z) :
  (bone_index < 0)%Z ->
  (bones <> [] -> (- Z.of_nat (length bones) <= bone_index)%Z ->
   exists bone,
     nth_error bones (Z.to_nat (Z.of_nat (length bones) + bone_index)) = Some bone /\
     group_name_for bones ids bone_index = Ok (bone_name bone)) /\
  (bones <> [] -> (bone_index < - Z.of_nat (length bones))%Z ->
   forall self ob vc,
     bpy_object self = Some ob ->
     components_of self = Ok vc ->
     In bone_index (keys (vertex_groups vc)) ->
     create_vertex_groups bones self = Err IndexError) /\
  (bones = [] -> ids <> [] ->
   group_name_for bones ids bone_index =
   Ok (String.append "EXTERNAL_BONE." (str_of_Z bone_index))) /\
  (bones = [] -> ids = [] ->
   group_name_for bones ids bone_index = Ok "UNKNOWN_BONE").
Proof.
  intros Hneg. split; [|split; [|split]].
  - intros Hne Hge. unfold group_name_for, py_index. rewrite truthy_length.
    destruct bones as [|b bones]; [contradiction|]. cbn [length] in *.
    destruct (Nat.ltb_spec 0 (S (length bones))); [|lia].
    destruct (Z.ltb_spec bone_index (Z.of_nat (S (length bones)))); [|lia]. cbn [andb].
    destruct (Z.leb_spec 0 bone_index); [lia|].
    destruct (Z.leb_spec (- Z.of_nat (S (length bones))) bone_index); [|lia].
    destruct (nth_error (b :: bones) (Z.to_nat (Z.of_nat (S (length bones)) + bone_index)))
      as [bone|] eqn:E.
    + exists bone. split; reflexivity.
    + apply nth_error_None in E. cbn [length] in E. lia.
  - intros Hne Hlt self ob vc Hob Hvc Hin. unfold create_vertex_groups.
    rewrite Hob. cbn [of_option bind]. rewrite vertex_components_eq, Hvc. cbn [bind].
    destruct (for_each_raises
                (fun bone_index ob =>
                   bone_name <- group_name_for bones (bone_ids (cwxml self)) bone_index ;;
                   Ok (new_group bone_name ob))
                (keys (vertex_groups vc)) bone_index Hin) with (st := ob) as [e He].
    { intros s. exists IndexError. rewrite group_name_for_below by assumption.
      reflexivity. }
    rewrite He. cbn [bind]. f_equal.
    apply (for_each_error (fun e => e = IndexError) _ _ _ _
             (fun k s e0 _ => group_step_error bones (bone_ids (cwxml self)) k s e0)
             He).
  - intros -> Hids. unfold group_name_for. cbn [truthy andb].
    destruct ids as [|i ids]; [contradiction|]. cbn [truthy length].
    destruct (Z.ltb_spec bone_index (Z.of_nat (S (length ids)))); [reflexivity | lia].
  - intros -> ->. reflexivity.
Qed.

Lemma negative_bone_index_witness :
  (exists bone,
      nth_error [mkBoneItem "root"; mkBoneItem "head"] 1 = Some bone /\
      group_name_for [mkBoneItem "root"; mkBoneItem "head"] [] (-1) =
      Ok (bone_name bone)) /\
  group_name_for [] [7%Z] (-1) = Ok "EXTERNAL_BONE.-1".
Proof.
  split.
  - apply (proj1 (negative_bone_index [mkBoneItem "root"; mkBoneItem "head"] [] (-1)
                    ltac:(lia))); [discriminate | simpl; lia].
  - apply (proj1 (proj2 (proj2 (negative_bone_index [] [7%Z] (-1) ltac:(lia))))).
    + reflexivity.
    + discriminate.
Defined.

(** ** Weights go by position *)

Lemma weights_loop_rest (vals : list (list (nat * Q))) (self : GeometryCWXMLConverter)
    (ob : bpy.Object) (done todo rest : list bpy.VertexGroup) :
  bpy_object self = Some ob ->
  bpy.vertex_groups ob = done ++ todo ++ rest ->
  length todo = length vals ->
  for_each (fun '(i, vertex_group) self =>
              for_each (fun '(vertex_index, weight) self =>
                          ob <- of_option AttributeError (bpy_object self) ;;
                          ob <- add_weight i vertex_index weight ob ;;
                          Ok (set_bpy_object ob self))
                       vertex_group self)
           (enumerate_from (length done) vals) self =
  Ok (set_bpy_object
        (bpy.mkObject (bpy.object_name ob) (done ++ with_weights todo vals ++ rest)) self).
Proof.
  revert self ob done todo.
  induction vals as [|v vals IH]; intros self ob done todo Hob Hgs Hlen.
  - destruct todo; [|discriminate]. simpl in *. f_equal.
    destruct self as [c vc m o r]; destruct ob as [n gs].
    simpl in *. subst. reflexivity.
  - destruct todo as [|g todo]; [discriminate|]. simpl in Hlen.
    cbn [enumerate_from for_each].
    rewrite (weight_loop v self ob done (todo ++ rest) g Hob Hgs). cbn [bind].
    pose (g' := bpy.mkVertexGroup (bpy.group_name g) (bpy.added g ++ v)).
    pose (ob1 := bpy.mkObject (bpy.object_name ob) (done ++ g' :: todo ++ rest)).
    fold g'. fold ob1.
    replace (S (length done)) with (length (done ++ [g'])).
    2:{ rewrite length_app. simpl. lia. }
    rewrite (IH (set_bpy_object ob1 self) ob1 (done ++ [g']) todo).
    + unfold with_weights. cbn [combine map fst snd bpy.object_name ob1 app].
      rewrite <- app_assoc. reflexivity.
    + reflexivity.
    + unfold ob1. cbn [bpy.vertex_groups]. rewrite <- app_assoc. reflexivity.
    + lia.
Qed.

Lemma weight_loop_no_group (entries : list (nat * Q)) (self : GeometryCWXMLConverter)
    (ob : bpy.Object) (i : nat) :
  bpy_object self = Some ob ->
  length (bpy.vertex_groups ob) <= i ->
  entries <> [] ->
  for_each (fun '(vertex_index, weight) self =>
              ob <- of_option AttributeError (bpy_object self) ;;
              ob <- add_weight i vertex_index weight ob ;;
              Ok (set_bpy_object ob self)) entries self = Err IndexError.
Proof.
  intros Hob Hlen Hne. destruct entries as [|[vi w] entries]; [contradiction|].
  cbn [for_each]. rewrite Hob. cbn [of_option bind]. unfold add_weight.
  apply nth_error_None in Hlen. rewrite Hlen. reflexivity.
Qed.

Lemma length_with_weights (gs : list bpy.VertexGroup) (vals : list (list (nat * Q))) :
  length gs = length vals -> length (with_weights gs vals) = length gs.
Proof.
  intros Hlen. unfold with_weights. rewrite length_map, length_combine, Hlen.
  apply Nat.min_id.
Qed.

(** [set_geometry_weights] addresses the vertex groups of the object by
    position, counting from 0: the i-th list of weights is added, entry by
    entry and after what the i-th group has received before, to the i-th
    group of the object, whichever call created that group; names and
    further groups are left alone.  When the object has fewer groups than
    there are lists, none of them empty, it raises IndexError. *)
Theorem weights_go_by_position (self : GeometryCWXMLConverter) (ob : bpy.Object)
    (vc : VertexComponents) :
  components_of self = Ok vc ->
  bpy_object self = Some ob ->
  (length (values (vertex_groups vc)) <= length (bpy.vertex_groups ob) ->
   set_geometry_weights self =
   Ok (set_bpy_object
         (bpy.mkObject (bpy.object_name ob)
            (with_weights
               (firstn (length (values (vertex_groups vc))) (bpy.vertex_groups ob))
               (values (vertex_groups vc)) ++
             skipn (length (values (vertex_groups vc))) (bpy.vertex_groups ob)))
         (set_vertex_components (Some vc) self))) /\
  (length (bpy.vertex_groups ob) < length (values (vertex_groups vc)) ->
   Forall (fun group => group <> []) (values (vertex_groups vc)) ->
   set_geometry_weights self = Err IndexError).
Proof.
  intros Hvc Hob. unfold set_geometry_weights.
  rewrite vertex_components_eq, Hvc. cbn [bind]. unfold enumerate.
  set (vals := values (vertex_groups vc)).
  set (gs := bpy.vertex_groups ob).
  set (s := set_vertex_components (Some vc) self).
  assert (Hob' : bpy_object s = Some ob) by exact Hob.
  split.
  - intros Hlen.
    apply (weights_loop_rest vals s ob [] (firstn (length vals) gs)
             (skipn (length vals) gs) Hob').
    + cbn [app]. symmetry. apply firstn_skipn.
    + apply firstn_length_le. exact Hlen.
  - intros Hlen Hne.
    rewrite <- (firstn_skipn (length gs) vals).
    rewrite enumerate_from_app, for_each_app.
    assert (Hfl : length (firstn (length gs) vals) = length gs)
      by (apply firstn_length_le; lia).
    assert (Hfirst := weights_loop_rest (firstn (length gs) vals) s ob [] gs [] Hob').
    cbn [length app] in Hfirst. rewrite app_nil_r in Hfirst.
    rewrite Hfirst by (try reflexivity; symmetry; exact Hfl). cbn [bind].
    rewrite Hfl, app_nil_r. cbn [Nat.add].
    destruct (skipn (length gs) vals) as [|v rest] eqn:Hskip.
    + exfalso. assert (Hl : length (skipn (length gs) vals) = 0) by (rewrite Hskip; reflexivity).
      rewrite length_skipn in Hl. lia.
    + cbn [enumerate_from for_each].
      erewrite weight_loop_no_group; [reflexivity | reflexivity | |].
      * cbn [bpy.vertex_groups]. rewrite length_with_weights; [lia | symmetry; exact Hfl].
      * rewrite Forall_forall in Hne. apply Hne.
        rewrite <- (firstn_skipn (length gs) vals), Hskip.
        apply in_or_app. right. left. reflexivity.
Qed.

Lemma weights_go_by_position_witness :
  set_geometry_weights
    (set_bpy_object
       (bpy.mkObject "geometry"
          [ bpy.mkVertexGroup "a" [(7, (1 # 2)%Q)]; bpy.mkVertexGroup "b" [];
            bpy.mkVertexGroup "c" []; bpy.mkVertexGroup "d" [] ])
       (init (example_geometry [] 0 []))) =
  Ok (set_bpy_object
        (bpy.mkObject "geometry"
           [ bpy.mkVertexGroup "a" [(7, (1 # 2)%Q); (0, (255 # 255)%Q); (1, (128 # 255)%Q)];
             bpy.mkVertexGroup "b"
               [(0, (0 # 255)%Q); (0, (0 # 255)%Q); (0, (0 # 255)%Q);
                (1, (0 # 255)%Q); (1, (0 # 255)%Q)];
             bpy.mkVertexGroup "c" [(1, (127 # 255)%Q)];
             bpy.mkVertexGroup "d" [] ])
        (set_vertex_components (Some (decode_all example_vertices))
           (init (example_geometry [] 0 [])))) /\
  set_geometry_weights (fresh_object (example_geometry [] 0 [])) = Err IndexError.
Proof.
  split.
  - apply (proj1 (weights_go_by_position
                    (set_bpy_object
                       (bpy.mkObject "geometry"
                          [ bpy.mkVertexGroup "a" [(7, (1 # 2)%Q)]; bpy.mkVertexGroup "b" [];
                            bpy.mkVertexGroup "c" []; bpy.mkVertexGroup "d" [] ])
                       (init (example_geometry [] 0 [])))
                    _ (decode_all example_vertices) eq_refl eq_refl)).
    simpl. lia.
  - apply (proj2 (weights_go_by_position (fresh_object (example_geometry [] 0 []))
                    _ (decode_all example_vertices) eq_refl eq_refl)).
    + simpl. lia.
    + repeat constructor; discriminate.
Defined.

(** * The whole import of a geometry *)

Lemma with_weights_items {K : Type} (f : K -> string) (d : dict K (list (nat * Q))) :
  with_weights (map (fun k => bpy.mkVertexGroup (f k) []) (keys d)) (values d) =
  map (fun kg => bpy.mkVertexGroup (f (fst kg)) (snd kg)) d.
Proof.
  unfold with_weights, keys, values. induction d as [|[k g] d IH]; simpl.
  - reflexivity.
  - rewrite IH. reflexivity.
Qed.

Lemma create_mesh_state (name : string) (materials : list bpy.Material)
    (self : GeometryCWXMLConverter) (vc : VertexComponents) :
  components_of self = Ok vc ->
  exists m self',
    create_mesh name materials self = Ok (m, self') /\
    mesh self' = Some m /\
    _vertex_components self' = Some vc /\
    cwxml self' = cwxml self /\
    bpy.vertices m = positions vc /\
    bpy.faces m = split_indices (index_buffer (cwxml self)).
Proof.
  intros Hvc. unfold create_mesh. rewrite vertex_components_eq.
  assert (Hc : components_of (set_mesh (bpy.new_mesh name) self) = Ok vc) by exact Hvc.
  rewrite Hc. cbn [bind of_option mesh set_vertex_components set_mesh].
  set (s0 := set_mesh _ _).
  assert (K0 : keeps s0 s0) by (apply (keeps_refl s0 _ eq_refl)).
  assert (Hframe : forall s, keeps s0 s ->
            exists m, mesh s = Some m /\ _vertex_components s = Some vc /\
                      cwxml s = cwxml self /\
                      bpy.vertices m = positions vc /\
                      bpy.faces m = split_indices (index_buffer (cwxml self))).
  { intros s [Kc [Kv [_ [m0 [m [Hm0 [Hm [_ [Kvs Kfs]]]]]]]]].
    exists m. inversion Hm0; subst m0. repeat split; assumption. }
  destruct (Hframe s0 K0) as [m0 [Hm0 _]].
  destruct (create_material_keeps materials s0 m0 Hm0) as [s1 [R1 K1]].
  rewrite R1. cbn [bind].
  destruct (Hframe s1 K1) as [m1 [Hm1 [Hv1 _]]].
  destruct (set_smooth_normals_keeps s1 m1 vc Hm1 Hv1) as [s2 [R2 K2]].
  rewrite R2. cbn [bind]. assert (K02 := keeps_trans _ _ _ K1 K2).
  destruct (Hframe s2 K02) as [m2 [Hm2 [Hv2 _]]].
  unfold create_uv_layers. rewrite (vertex_components_kept s2 vc Hv2). cbn [bind].
  destruct (layer_loop_keeps create_uv_layer (enumerate (items (uv_map vc))) s2 m2)
    as [s3 [R3 K3]]; [intros; repeat split | exact Hm2 |].
  rewrite R3. cbn [bind]. assert (K03 := keeps_trans _ _ _ K02 K3).
  destruct (Hframe s3 K03) as [m3 [Hm3 [Hv3 _]]].
  unfold create_vertex_color_layers. rewrite (vertex_components_kept s3 vc Hv3).
  cbn [bind].
  destruct (layer_loop_keeps create_vertexcolor_layer
              (enumerate (items (color_map vc))) s3 m3)
    as [s4 [R4 K4]]; [intros; repeat split | exact Hm3 |].
  rewrite R4. cbn [bind]. assert (K04 := keeps_trans _ _ _ K03 K4).
  destruct (Hframe s4 K04) as [m4 [Hm4 [Hv4 [Hc4 [Hvs4 Hfs4]]]]].
  rewrite Hm4. cbn [of_option bind].
  exists m4, s4. repeat split; assumption.
Qed.

(** [create_bpy_object] composes the steps.  When the vertex components
    can be had and no bone index is negative, it returns an object of the
    given name with one vertex group per bone index, in the order in which
    the bone indices first occur, each group carrying the name found for
    its bone index and exactly the weights filed under it; the mesh of the
    converter has the decoded positions and the faces of the index buffer.
    When the vertex components cannot be had it raises the exception of
    the decoder. *)
Theorem create_bpy_object_result (name : string) (bones : list BoneItem)
    (materials : list bpy.Material) (self : GeometryCWXMLConverter) :
  (forall vc,
      components_of self = Ok vc ->
      Forall (fun bone_index => (0 <= bone_index)%Z) (keys (vertex_groups vc)) ->
      exists ob self' m,
        create_bpy_object name bones materials self = Ok (ob, self') /\
        bpy_object self' = Some ob /\
        bpy.object_name ob = name /\
        bpy.vertex_groups ob =
        map (fun kg =>
               bpy.mkVertexGroup
                 (expected_group_name bones (bone_ids (cwxml self)) (fst kg)) (snd kg))
            (items (vertex_groups vc)) /\
        mesh self' = Some m /\
        bpy.vertices m = positions vc /\
        bpy.faces m = split_indices (index_buffer (cwxml self))) /\
  (forall e,
      components_of self = Err e ->
      create_bpy_object name bones materials self = Err e).
Proof.
  split.
  - intros vc Hvc Hpos. unfold create_bpy_object.
    destruct (create_mesh_state name materials self vc Hvc)
      as [m [s1 [Hrun [Hm [Hv1 [Hc1 [Hvs Hfs]]]]]]].
    rewrite Hrun. cbn [bind].
    set (s2 := set_bpy_object (create_sollumz_object name) s1).
    assert (Hv2 : _vertex_components s2 = Some vc) by exact Hv1.
    unfold create_vertex_groups. cbn [bpy_object s2 set_bpy_object of_option bind].
    fold s2. rewrite (vertex_components_kept s2 vc Hv2). cbn [bind].
    rewrite (group_loop_nonneg bones _ _ (create_sollumz_object name) Hpos).
    cbn [bind bpy.object_name bpy.vertex_groups create_sollumz_object app].
    set (ob1 := bpy.mkObject name _).
    set (s3 := set_bpy_object ob1 s2).
    assert (Hv3 : _vertex_components s3 = Some vc) by exact Hv1.
    unfold set_geometry_weights. rewrite (vertex_components_kept s3 vc Hv3). cbn [bind].
    unfold enumerate.
    assert (Hloop := weights_loop (values (vertex_groups vc)) s3 ob1 []
                       (bpy.vertex_groups ob1) eq_refl eq_refl).
    cbn [length app] in Hloop. rewrite Hloop.
    2:{ unfold ob1. cbn [bpy.vertex_groups]. unfold keys, values.
        rewrite !length_map. reflexivity. }
    cbn [bind of_option bpy_object set_bpy_object].
    eexists. eexists. exists m. split; [reflexivity|].
    split; [reflexivity|]. split; [reflexivity|]. split.
    + unfold ob1. cbn [bpy.vertex_groups bpy.object_name s2 cwxml set_bpy_object].
      rewrite Hc1. apply with_weights_items.
    + split; [exact Hm|]. split; assumption.
  - intros e Hvc. unfold create_bpy_object.
    rewrite (create_mesh_raises name materials self e Hvc). reflexivity.
Qed.

Lemma create_bpy_object_result_witness :
  exists ob self' m,
    create_bpy_object "geometry" [mkBoneItem "root"; mkBoneItem "spine"; mkBoneItem "head"]
      [] (init (example_geometry [0; 1; 0]%Z 0 [])) = Ok (ob, self') /\
    bpy_object self' = Some ob /\
    bpy.object_name ob = "geometry" /\
    bpy.vertex_groups ob =
    [ bpy.mkVertexGroup "head" [(0, (255 # 255)%Q); (1, (128 # 255)%Q)];
      bpy.mkVertexGroup "root"
        [(0, (0 # 255)%Q); (0, (0 # 255)%Q); (0, (0 # 255)%Q);
         (1, (0 # 255)%Q); (1, (0 # 255)%Q)];
      bpy.mkVertexGroup "UNKNOWN_BONE" [(1, (127 # 255)%Q)] ] /\
    mesh self' = Some m /\
    bpy.vertices m = [Floats [0; 0; 0]%Q; Floats [1; 0; 0]%Q] /\
    bpy.faces m = [[0; 1; 0]%Z].
Proof.
  apply (proj1 (create_bpy_object_result "geometry"
                  [mkBoneItem "root"; mkBoneItem "spine"; mkBoneItem "head"] []
                  (init (example_geometry [0; 1; 0]%Z 0 [])))
           (decode_all example_vertices) eq_refl).
  repeat constructor; discriminate.
Defined.

(** * Mixed layouts and further fields *)

Lemma length_flat_map_opt {A B : Type} (f : A -> option B) (l : list A) :
  length (flat_map (fun x => opt_list (f x)) l) =
  length (filter (fun x => match f x with Some _ => true | None => false end) l).
Proof.
  induction l as [|x l IH]; simpl; [reflexivity|].
  rewrite length_app, IH. destruct (f x); reflexivity.
Qed.

(** The decoder does not need a shared layout.  On every buffer it
    returns for, position i is the position of vertex i; but the normals,
    and the values of a channel, are those of the vertices that have
    them, closed up: there are as many normals as vertices with a normal,
    and a channel list is as long as the number of vertices with that
    field. *)
Theorem containers_count_their_vertices (vertices : list Vertex) (vc : VertexComponents) :
  get_vertex_components vertices = Ok vc ->
  length (positions vc) = length vertices /\
  (forall i vertex, nth_error vertices i = Some vertex ->
     exists p, getattr vertex "position" = Ok p /\ nth_error (positions vc) i = Some p) /\
  length (normals vc) =
  length (filter (fun vertex => hasattr vertex "normal") vertices) /\
  (Forall wf_vertex vertices ->
   forall name l,
     dict_get name (uv_map vc) = Some l \/ dict_get name (color_map vc) = Some l ->
     length l = length (filter (fun vertex => hasattr vertex name) vertices)).
Proof.
  intros Hrun. apply get_vertex_components_spec in Hrun. destruct Hrun as [Hok ->].
  destruct (positions_aligned vertices Hok) as [Hlen Hnth].
  split; [exact Hlen|]. split; [|split].
  - intros i v Hv. rewrite forallb_forall in Hok.
    destruct (vertex_ok_position v (Hok v (nth_error_In _ _ Hv))) as [p Hp].
    exists p. unfold getattr. rewrite Hp. split; [reflexivity|].
    rewrite (Hnth i v Hv). exact Hp.
  - rewrite normals_decode_all, (flat_map_ext _ _ normal_of_opt), length_flat_map_opt.
    f_equal. apply filter_ext. intros v. rewrite hasattr_get.
    destruct (dict_get "normal" v); reflexivity.
  - intros Hwf name l Hget.
    assert (Hch : exists pat,
               dict_get name (group_into [] (flat_map (channel_entries pat) vertices))
               = Some l).
    { destruct Hget as [Hget|Hget].
      - exists "texcoord". rewrite <- uv_map_decode_all. exact Hget.
      - exists "colour". rewrite <- color_map_decode_all. exact Hget. }
    destruct Hch as [pat Hch]. rewrite dict_get_group_into in Hch. cbn [dict_get] in Hch.
    assert (Hl : l = entries_of name (flat_map (channel_entries pat) vertices) /\ l <> []).
    { destruct (entries_of name (flat_map (channel_entries pat) vertices));
        [discriminate|]. inversion Hch. split; [reflexivity | discriminate]. }
    destruct Hl as [Hl Hne]. rewrite entries_of_flat_map in Hl.
    rewrite Forall_forall in Hwf.
    assert (Hfields : forall v, In v vertices ->
              entries_of name (channel_entries pat v) =
              if contains pat name then opt_list (dict_get name v) else []).
    { intros v Hin. apply (entries_of_fields (contains pat)). apply Hwf. exact Hin. }
    destruct (contains pat name) eqn:Hpat.
    + rewrite (flat_map_agree _ (fun v => opt_list (dict_get name v)) vertices) in Hl
        by exact Hfields.
      rewrite Hl, length_flat_map_opt. reflexivity.
    + exfalso. apply Hne. rewrite Hl. apply flat_map_none.
      apply Forall_forall. intros v Hin. apply Hfields. exact Hin.
Qed.

(** Two vertices of different layouts: the second has the only normal. *)
Lemma containers_count_their_vertices_witness :
  length (positions (decode_all
            [ [ ("position", Floats [0; 0; 0]%Q) ];
              [ ("position", Floats [1; 0; 0]%Q); ("normal", Floats [0; 0; 1]%Q) ] ])) = 2 /\
  length (normals (decode_all
            [ [ ("position", Floats [0; 0; 0]%Q) ];
              [ ("position", Floats [1; 0; 0]%Q); ("normal", Floats [0; 0; 1]%Q) ] ])) = 1.
Proof.
  destruct (containers_count_their_vertices
              [ [ ("position", Floats [0; 0; 0]%Q) ];
                [ ("position", Floats [1; 0; 0]%Q); ("normal", Floats [0; 0; 1]%Q) ] ]
              _ eq_refl) as [Hp [_ [Hn _]]].
  split; [exact Hp | exact Hn].
Defined.

Lemma dict_get_filter (p : string -> bool) (name : string) (vertex : Vertex) :
  p name = true ->
  dict_get name (filter (fun kv => p (fst kv)) vertex) = dict_get name vertex.
Proof.
  intros Hp. induction vertex as [|[k x] vertex IH]; [reflexivity|].
  cbn [filter fst dict_get].
  change (@keqb string EqKey_string name k) with (String.eqb name k).
  destruct (p k) eqn:Hk.
  - cbn [dict_get]. change (@keqb string EqKey_string name k) with (String.eqb name k).
    destruct (String.eqb name k); [reflexivity | exact IH].
  - destruct (String.eqb_spec name k) as [->|Hn]; [congruence | exact IH].
Qed.

Lemma filter_filter_implied {A : Type} (p q : A -> bool) (l : list A) :
  (forall x, p x = true -> q x = true) ->
  filter p (filter q l) = filter p l.
Proof.
  intros Himp. induction l as [|x l IH]; simpl; [reflexivity|].
  destruct (q x) eqn:Hq; simpl.
  - rewrite IH. reflexivity.
  - destruct (p x) eqn:Hp; [rewrite (Himp x Hp) in Hq; discriminate | exact IH].
Qed.

Lemma vertex_step_only_read (vertex_index : nat) (vertex : Vertex)
    (vc : VertexComponents) :
  vertex_step (vertex_index, only_read_fields vertex) vc =
  vertex_step (vertex_index, vertex) vc.
Proof.
  unfold vertex_step, blend_slot, getattr, hasattr, dict_mem, only_read_fields, items, asdict.
  rewrite !(dict_get_filter read_by_decoder) by reflexivity.
  rewrite !channel_loop.
  rewrite !(filter_filter_implied _ (fun kv => read_by_decoder (fst kv))).
  - reflexivity.
  - intros [k x] Hk. simpl in *. unfold read_by_decoder. rewrite Hk.
    rewrite !orb_true_r. reflexivity.
  - intros [k x] Hk. simpl in *. unfold read_by_decoder. rewrite Hk.
    rewrite !orb_true_r. reflexivity.
Qed.

(** The decoder looks at the fields named position, normal, blendweights
    and blendindices and at those whose name contains "texcoord" or
    "colour", and at no other: taking every other field (a tangent, say)
    out of the vertices changes neither the result nor the exception. *)
Theorem other_fields_ignored (vertices : list Vertex) :
  get_vertex_components (map only_read_fields vertices) = get_vertex_components vertices.
Proof.
  unfold get_vertex_components, enumerate. generalize empty_components, 0.
  induction vertices as [|v vertices IH]; intros vc start.
  - reflexivity.
  - cbn [map enumerate_from for_each]. rewrite vertex_step_only_read.
    destruct (vertex_step (start, v) vc); cbn [bind]; [apply IH | reflexivity].
Qed.
